(** * Gradle build action: cache entry points and artifact bundles

    A shallow embedding of the two TypeScript sources under [src]: the
    [restore] / [save] entry points with their guards, and the
    artifact-bundle engine of the class [GradleUserHomeCache]
    ([restoreArtifactBundles], [restoreArtifactBundle],
    [saveArtifactBundle], [createCacheKey], [getBundleMetaFile],
    [getArtifactBundles], [determineGradleUserHome]) with its hooks
    [afterRestore] and [beforeSave], with the properties of the
    specification stated over it.

    JavaScript strings are modelled by [string]: sequences of code units
    below 256.  The file system is a finite map from absolute paths of
    regular files to their utf-8 content; which directories exist is a
    parameter, and a file is written only into a directory that exists.
    Asynchronous code is modelled by a state-and-exception monad; where
    the source starts several calls before awaiting them, the order in
    which they settle is a parameter, and the first rejection is
    thrown. *)

From Stdlib Require Import Ascii String.
From stdpp Require Import base decidable option list gmap strings.

(** ** Effects: state and exceptions

    A computation runs on a state [S] and either returns a value or throws;
    the state reached is kept in both cases, as a JavaScript exception
    keeps the effects already performed. *)

Module Eff.

Inductive Outcome (A : Type) : Type :=
| Returned (a : A)
| Thrown (e : string).
Global Arguments Returned {A} a.
Global Arguments Thrown {A} e.

Definition M (S A : Type) : Type := S → Outcome A * S.

Definition ret {S A} (a : A) : M S A := λ s, (Returned a, s).

Definition bind {S A B} (m : M S A) (k : A → M S B) : M S B :=
  λ s, match m s with
       | (Returned a, s') => k a s'
       | (Thrown e, s') => (Thrown e, s')
       end.

Definition throw {S A} (e : string) : M S A := λ s, (Thrown e, s).

Definition gets {S A} (f : S → A) : M S A := λ s, (Returned (f s), s).

Definition modify {S} (f : S → S) : M S unit := λ s, (Returned tt, f s).

(** [try { m } finally { fin }] for a finaliser that does not throw. *)
Definition finally {S A} (m : M S A) (fin : S → S) : M S A :=
  λ s, let '(o, s') := m s in (o, fin s').

(** The settled promise of an asynchronous call: a rejection is kept as
    a value and nothing is thrown to the caller. *)
Definition settled {S A} (m : M S A) : M S (Outcome A) :=
  λ s, let '(o, s') := m s in (Returned o, s').

Definition returned {A} (o : Outcome A) : bool :=
  match o with Returned _ => true | Thrown _ => false end.

(** [for (const x of l) { await f(x) }]: a throw leaves the loop. *)
Fixpoint forEach {S A} (f : A → M S unit) (l : list A) : M S unit :=
  match l with
  | [] => ret tt
  | x :: r => bind (f x) (λ _, forEach f r)
  end.

End Eff.

Notation "x <- m ;; k" := (Eff.bind m (λ x, k))
  (at level 100, m at next level, right associativity,
   format "'[v' x  <-  m  ;;  '/' k ']'") : stdpp_scope.
Notation "m ;;; k" := (Eff.bind m (λ _, k))
  (at level 100, right associativity,
   format "'[v' m  ;;;  '/' k ']'") : stdpp_scope.

(** ** JavaScript string primitives *)

Module Js.

(** WhiteSpace and LineTerminator code units below 256:
    TAB, LF, VT, FF, CR, SP and NBSP. *)
Definition isWhiteSpace (c : ascii) : bool :=
  match c with
  | "009" | "010" | "011" | "012" | "013" | " " | "160" => true
  | _ => false
  end%char.

(** [String.prototype.trimStart] *)
Fixpoint trimStart (s : string) : string :=
  match s with
  | "" => ""
  | String c r => if isWhiteSpace c then trimStart r else s
  end.

(** [String.prototype.trimEnd] *)
Fixpoint trimEnd (s : string) : string :=
  match s with
  | "" => ""
  | String c r =>
      match trimEnd r with
      | "" => if isWhiteSpace c then "" else String c ""
      | r' => String c r'
      end
  end.

(** [String.prototype.trim] *)
Definition trim (s : string) : string := trimEnd (trimStart s).

(** Truthiness of a string value: only the empty string is falsy. *)
Definition truthy (s : string) : bool :=
  match s with "" => false | _ => true end.

(** Truthiness of [string | undefined]. *)
Definition truthyOpt (o : option string) : bool :=
  match o with Some s => truthy s | None => false end.

(** [o || d] on [string | undefined]. *)
Definition orElse (o : option string) (d : string) : string :=
  match o with
  | Some s => if truthy s then s else d
  | None => d
  end.

(** Every code unit of [s] is white space. *)
Fixpoint allWhiteSpace (s : string) : bool :=
  match s with
  | "" => true
  | String c r => isWhiteSpace c && allWhiteSpace r
  end.

(** [s] starts with a white-space code unit. *)
Definition startsWithSpace (s : string) : bool :=
  match s with
  | "" => false
  | String c _ => isWhiteSpace c
  end.

(** [s] ends with a white-space code unit. *)
Fixpoint endsWithSpace (s : string) : bool :=
  match s with
  | "" => false
  | String c "" => isWhiteSpace c
  | String _ r => endsWithSpace r
  end.

(** [Array.prototype.join] on an array of strings
    (also what a template literal does with an array, with [","]). *)
Definition join (sep : string) (l : list string) : string :=
  String.concat sep l.

(** [s.split(sep)] for a separator of one code unit. *)
Fixpoint splitOn (sep : ascii) (s : string) : list string :=
  match s with
  | "" => [""]
  | String c r =>
      if decide (c = sep) then "" :: splitOn sep r
      else match splitOn sep r with
           | seg :: rest => String c seg :: rest
           | [] => [String c ""]
           end
  end.

(** [s.replace(/c/g, by)] for a pattern of one code unit. *)
Fixpoint replaceAll (c : ascii) (replacement : string) (s : string) : string :=
  match s with
  | "" => ""
  | String d r =>
      if decide (d = c) then replacement +:+ replaceAll c replacement r
      else String d (replaceAll c replacement r)
  end.

(** The code unit [c] occurs in [s]. *)
Fixpoint occurs (c : ascii) (s : string) : bool :=
  match s with
  | "" => false
  | String d r => bool_decide (d = c) || occurs c r
  end.

End Js.

(** ** Node's [path] module, POSIX flavour *)

Module Path.

Definition isSlash (c : ascii) : bool :=
  match c with "/"%char => true | _ => false end.

(** [s.split('/')] *)
Fixpoint split (s : string) : list string :=
  match s with
  | "" => [""]
  | String c r =>
      if isSlash c then "" :: split r
      else match split r with
           | seg :: rest => String c seg :: rest
           | [] => [String c ""]
           end
  end.

Definition isAbsolute (p : string) : bool :=
  match p with String c _ => isSlash c | "" => false end.

(** [normalizeString]: [acc] is the stack of kept segments, last one
    first.  Empty segments and ["."] are skipped; [".."] pops a kept
    segment that is not itself [".."], and is kept only above the root
    of a relative path. *)
Fixpoint normalizeSegs (allowAboveRoot : bool) (acc : list string)
    (segs : list string) : list string :=
  match segs with
  | [] => rev acc
  | seg :: rest =>
      if decide (seg = "" ∨ seg = ".") then
        normalizeSegs allowAboveRoot acc rest
      else if decide (seg = "..") then
        match acc with
        | top :: acc' =>
            if decide (top = "..") then
              normalizeSegs allowAboveRoot
                (if allowAboveRoot then ".." :: acc else acc) rest
            else normalizeSegs allowAboveRoot acc' rest
        | [] =>
            normalizeSegs allowAboveRoot
              (if allowAboveRoot then [".."] else []) rest
        end
      else normalizeSegs allowAboveRoot (seg :: acc) rest
  end.

(** The right-to-left loop of [path.resolve]: arguments are taken from
    the last one until an absolute one is met; the working directory
    comes last. *)
Fixpoint resolveLoop (cwd : string) (argsRev : list string)
    (resolvedPath : string) : string * bool :=
  match argsRev with
  | [] =>
      if decide (cwd = "") then (resolvedPath, false)
      else (cwd +:+ "/" +:+ resolvedPath, isAbsolute cwd)
  | p :: rest =>
      if decide (p = "") then resolveLoop cwd rest resolvedPath
      else if isAbsolute p then (p +:+ "/" +:+ resolvedPath, true)
      else resolveLoop cwd rest (p +:+ "/" +:+ resolvedPath)
  end.

(** [path.resolve(...args)] in a process whose working directory is
    [cwd]. *)
Definition resolve (cwd : string) (args : list string) : string :=
  let '(resolvedPath, resolvedAbsolute) := resolveLoop cwd (rev args) "" in
  let normalized :=
    Js.join "/" (normalizeSegs (negb resolvedAbsolute) [] (split resolvedPath)) in
  if resolvedAbsolute then "/" +:+ normalized
  else if decide (normalized = "") then "." else normalized.

(** Segments of a resolved absolute path (the root has none). *)
Definition segmentsOf (p : string) : list string :=
  normalizeSegs false [] (split p).

Fixpoint stripCommon (a b : list string) : list string * list string :=
  match a, b with
  | x :: a', y :: b' =>
      if decide (x = y) then stripCommon a' b' else (a, b)
  | _, _ => (a, b)
  end.

(** [path.relative(from, to)]: both are resolved, the common leading
    segments are dropped, one [".."] is emitted per remaining segment
    of [from], followed by the remaining segments of [to]. *)
Definition relative (cwd : string) (from to : string) : string :=
  if decide (from = to) then ""
  else
    let from' := resolve cwd [from] in
    let to' := resolve cwd [to] in
    if decide (from' = to') then ""
    else
      let '(restFrom, restTo) := stripCommon (segmentsOf from') (segmentsOf to') in
      Js.join "/" (((λ _, "..") <$> restFrom) ++ restTo).

(** The absolute path with the given segments. *)
Definition ofSegments (segs : list string) : string :=
  "/" +:+ Js.join "/" segs.

Fixpoint dropWhile {A} (P : A → bool) (l : list A) : list A :=
  match l with
  | [] => []
  | x :: r => if P x then dropWhile P r else l
  end.

(** [path.dirname(path)]: the code units after the first one are scanned
    from the end; trailing slashes are skipped, then the last segment,
    and the path ends before the slash that is found. *)
Definition dirname (path : string) : string :=
  match path with
  | "" => "."
  | String c0 rest =>
      let scanned :=
        dropWhile (λ c, negb (isSlash c))
          (dropWhile isSlash (rev (list_ascii_of_string rest))) in
      match scanned with
      | [] => if isSlash c0 then "/" else "."
      | _ :: before =>
          if isSlash c0 && bool_decide (before = []) then "//"
          else String c0 (string_of_list_ascii (rev before))
      end
  end.

(** A path segment that [normalizeString] keeps as it is. *)
Definition plainSegment (seg : string) : Prop :=
  seg ≠ "" ∧ seg ≠ "." ∧ seg ≠ ".." ∧ split seg = [seg].

End Path.

(** ** The entry points [restore] and [save] *)

Module Caches.

Definition CACHE_RESTORED_VAR : string := "GRADLE_BUILD_ACTION_CACHE_RESTORED".
Definition GRADLE_USER_HOME : string := "GRADLE_USER_HOME".
Definition CACHE_LISTENER : string := "CACHE_LISTENER".

(** What a step prints and which calls it makes to its collaborators. *)
Inductive Event : Type :=
| Info (msg : string)
| GroupStart (name : string)
| GroupEnd
| StateCacheInit (gradleUserHome : string) (returned : bool)
| StateCacheRestore (gradleUserHome : string) (returned : bool)
| StateCacheSave (gradleUserHome : string) (returned : bool)
| CachingReport (listener : string).

Section EntryPoints.

(** State of the collaborators (file system, cache service). *)
Context {Backend : Type}.

(** The job as the action's steps see it.  [env] is [process.env] of
    the running step, [savedState] what [core.saveState] recorded for
    the post step, [output] the events so far, oldest first. *)
Record Job : Type := mkJob {
  env : gmap string string;
  savedState : gmap string string;
  backend : Backend;
  output : list Event
}.

Local Abbreviation M := (Eff.M Job).

(** [isCacheDisabled] and [isCacheReadOnly] of [cache-utils], not under
    src, are parameters: switches read from the environment of the
    step. *)
Variable isCacheDisabled : gmap string string → bool.
Variable isCacheReadOnly : gmap string string → bool.

(** [GradleStateCache] of [cache-base], not under src, is a parameter:
    [init], [restore(listener)] and [save(listener)] act on the
    collaborators' state, update the listener (given here in its
    stringified form, as [CacheListener.stringify] and [rehydrate]
    exchange it) and may throw. *)
Variable gradleStateCacheInit :
  string → Backend → Eff.Outcome unit * Backend.
Variable gradleStateCacheRestore :
  string → Backend → Eff.Outcome string * Backend.
Variable gradleStateCacheSave :
  string → string → Backend → Eff.Outcome string * Backend.

Definition emit (e : Event) : M unit :=
  Eff.modify (λ j, mkJob (env j) (savedState j) (backend j) (output j ++ [e])).

(** [core.info] *)
Definition info (msg : string) : M unit := emit (Info msg).

(** [process.env[name]] *)
Definition processEnv (name : string) : M (option string) :=
  Eff.gets (λ j, env j !! name).

(** [core.getState(name)]: [process.env[`STATE_${name}`] || ''] *)
Definition getState (name : string) : M string :=
  Eff.gets (λ j, Js.orElse (env j !! ("STATE_" +:+ name)) "").

(** [core.saveState(name, value)]: recorded by the runner for the
    post step of this action. *)
Definition saveState (name value : string) : M unit :=
  Eff.modify (λ j, mkJob (env j) (<[name := value]> (savedState j))
                         (backend j) (output j)).

(** [core.exportVariable(name, value)]: set in this process and in
    every later step. *)
Definition exportVariable (name value : string) : M unit :=
  Eff.modify (λ j, mkJob (<[name := value]> (env j)) (savedState j)
                         (backend j) (output j)).

(** [core.group(name, fn)] *)
Definition group {A} (name : string) (fn : M A) : M A :=
  emit (GroupStart name) ;;;
  Eff.finally fn
    (λ j, mkJob (env j) (savedState j) (backend j) (output j ++ [GroupEnd])).

(** A call to a collaborator, recorded with its outcome. *)
Definition callBackend {A} (call : Backend → Eff.Outcome A * Backend)
    (record : bool → Event) : M A :=
  λ j, let '(o, b) := call (backend j) in
       (o, mkJob (env j) (savedState j) b
                 (output j ++ [record (Eff.returned o)])).

Definition shouldRestoreCaches : M bool :=
  disabled <- Eff.gets (λ j, isCacheDisabled (env j)) ;;
  if disabled : bool then
    info "Cache is disabled: will not restore state from previous builds." ;;;
    Eff.ret false
  else
    restored <- processEnv CACHE_RESTORED_VAR ;;
    if Js.truthyOpt restored then
      info "Cache only restored on first action step." ;;;
      Eff.ret false
    else Eff.ret true.

Definition shouldSaveCaches : M bool :=
  disabled <- Eff.gets (λ j, isCacheDisabled (env j)) ;;
  if disabled : bool then
    info "Cache is disabled: will not save state for later builds." ;;;
    Eff.ret false
  else
    restored <- getState CACHE_RESTORED_VAR ;;
    if negb (Js.truthy restored) then
      info "Cache will only be saved in final post-action step." ;;;
      Eff.ret false
    else Eff.ret true.

Definition restore (gradleUserHome : string) : M unit :=
  go <- shouldRestoreCaches ;;
  if negb go then Eff.ret tt
  else
    callBackend (gradleStateCacheInit gradleUserHome)
      (StateCacheInit gradleUserHome) ;;;
    group "Restore Gradle state from cache" (
      saveState GRADLE_USER_HOME gradleUserHome ;;;
      listener <- callBackend (gradleStateCacheRestore gradleUserHome)
                    (StateCacheRestore gradleUserHome) ;;
      saveState CACHE_LISTENER listener) ;;;
    exportVariable CACHE_RESTORED_VAR "true" ;;;
    saveState CACHE_RESTORED_VAR "true".

Definition save : M unit :=
  go <- shouldSaveCaches ;;
  if negb go then Eff.ret tt
  else
    cacheListener <- getState CACHE_LISTENER ;;
    readOnly <- Eff.gets (λ j, isCacheReadOnly (env j)) ;;
    if readOnly : bool then
      info "Cache is read-only: will not save state for use in subsequent builds." ;;;
      emit (CachingReport cacheListener)
    else
      cacheListener' <-
        group "Caching Gradle state" (
          gradleUserHome <- getState GRADLE_USER_HOME ;;
          callBackend (gradleStateCacheSave gradleUserHome cacheListener)
            (StateCacheSave gradleUserHome)) ;;
      emit (CachingReport cacheListener').

(** The runner starts the post step of the action with every saved
    state entry [name] visible as [STATE_name] in [process.env]. *)
Definition withSavedState (j : Job) : Job :=
  mkJob (kmap (String.app "STATE_") (savedState j) ∪ env j)
        (savedState j) (backend j) (output j).

(** The steps of the action in one job: the main step calls [restore],
    the post step calls [save]. *)
Inductive Step : Type :=
| MainStep (gradleUserHome : string)
| PostStep.

Definition runStep (j : Job) (st : Step) : Job :=
  match st with
  | MainStep gradleUserHome => snd (restore gradleUserHome j)
  | PostStep => snd (save (withSavedState j))
  end.

Definition run (steps : list Step) (j : Job) : Job :=
  foldl runStep j steps.

(** [restore] got its state back from the cache service. *)
Definition isCompletedRestore (e : Event) : bool :=
  match e with StateCacheRestore _ true => true | _ => false end.

(** [save] went past its guard. *)
Definition isSaveWork (e : Event) : bool :=
  match e with
  | StateCacheSave _ _ | CachingReport _ => true
  | _ => false
  end.

Definition hasRestored (out : list Event) : bool := existsb isCompletedRestore out.

(** The events respect the lifecycle: no second completed restore, and
    no work of [save] before a completed restore.  [restored] tells
    whether a restore has completed before the first event. *)
Fixpoint lifecycleOk (restored : bool) (out : list Event) : bool :=
  match out with
  | [] => true
  | e :: rest =>
      if isCompletedRestore e then negb restored && lifecycleOk true rest
      else if isSaveWork e then restored && lifecycleOk restored rest
      else lifecycleOk restored rest
  end.

(** What every job reached from a fresh one satisfies: its events
    respect the lifecycle, the restored marker in the saved state or in
    the state of the step comes from a completed restore, and a completed
    restore has set the restored variable. *)
Definition lifecycleInv (j : Job) : Prop :=
  lifecycleOk false (output j) = true
  ∧ (is_Some (savedState j !! CACHE_RESTORED_VAR)
     ∨ is_Some (env j !! ("STATE_" +:+ CACHE_RESTORED_VAR)) →
     hasRestored (output j) = true)
  ∧ (hasRestored (output j) = true →
     Js.truthyOpt (env j !! CACHE_RESTORED_VAR) = true).

(** A job in which this action has not run yet. *)
Definition freshJob (j : Job) : Prop :=
  output j = [] ∧ savedState j !! CACHE_RESTORED_VAR = None
  ∧ env j !! ("STATE_" +:+ CACHE_RESTORED_VAR) = None.

(** The step did nothing but print [msg]. *)
Definition onlyPrints {A} (r : Eff.Outcome A * Job) (a : A) (j : Job)
    (msg : string) : Prop :=
  r = (Eff.Returned a,
       mkJob (env j) (savedState j) (backend j) (output j ++ [Info msg])).

End EntryPoints.

Definition isInfo (e : Event) : bool :=
  match e with Info _ => true | _ => false end.

(** A call to [GradleStateCache.save]. *)
Definition isStateCacheSave (e : Event) : bool :=
  match e with StateCacheSave _ _ => true | _ => false end.

End Caches.

(** ** The class [GradleUserHomeCache]: the artifact bundles *)

Module GradleUserHome.

(** What the engine prints and which calls it makes to the cache
    service. *)
Inductive Event : Type :=
| Info (msg : string)
| Debug (msg : string)
| Warning (msg : string)
| RestoreCacheCall (paths : list string) (key : string)
| SaveCacheCall (paths : list string) (key : string).

(** An entry of the cache service: an archive of files, or an entry
    that the service fails to deliver. *)
Inductive Entry : Type :=
| Archive (content : gmap string string)
| Unavailable (error : string).

(** The process the action runs in. *)
Record Process : Type := mkProcess {
  cwd : string;
  homedir : string;
  env : gmap string string
}.

(** The process, the regular files of the file system with their content,
    the entries of the cache service by key, and the events so far,
    oldest first. *)
Record World : Type := mkWorld {
  process : Process;
  files : gmap string string;
  remote : gmap string Entry;
  log : list Event
}.

(** The fields of [this]. *)
Record GradleUserHomeCache : Type := mkCache {
  gradleUserHome : string;
  cacheDebuggingEnabled : bool
}.

Local Abbreviation M := (Eff.M World).

Definition emit (e : Event) : M unit :=
  Eff.modify (λ w, mkWorld (process w) (files w) (remote w) (log w ++ [e])).

Definition setFiles (f : gmap string string) (w : World) : World :=
  mkWorld (process w) f (remote w) (log w).

Definition setRemote (r : gmap string Entry) (w : World) : World :=
  mkWorld (process w) (files w) r (log w).

(** [core.info] *)
Definition info (msg : string) : M unit := emit (Info msg).

(** [fs.existsSync] *)
Definition existsSync (p : string) : M bool :=
  Eff.gets (λ w, bool_decide (is_Some (files w !! p))).

(** [fs.readFileSync(p, 'utf-8')] *)
Definition readFileSync (p : string) : M string :=
  λ w, match files w !! p with
       | Some content => (Eff.Returned content, w)
       | None =>
           (Eff.Thrown ("ENOENT: no such file or directory, open '" +:+ p +:+ "'"), w)
       end.

(** [new Map(entries)]: a key keeps the position of its first
    occurrence and the value of its last one. *)
Fixpoint mapSet (k v : string) (m : list (string * string)) : list (string * string) :=
  match m with
  | [] => [(k, v)]
  | (k', v') :: r =>
      if decide (k' = k) then (k, v) :: r else (k', v') :: mapSet k v r
  end.

Definition newMap (entries : list (string * string)) : list (string * string) :=
  foldl (λ m kv, mapSet kv.1 kv.2 m) [] entries.

(** A restore that has reached its [await]. *)
Record InFlight : Type := mkInFlight {
  inFlightBundle : string;
  inFlightPath : string;
  inFlightKey : string
}.

(** The next in-flight operation to settle: [choice] selects one of the
    [n + 1] operations still in flight. *)
Definition pickNext {A} (choice : nat) (x : A) (inflight : list A) : A * list A :=
  let i := choice `mod` S (length inflight) in
  match (x :: inflight) !! i with
  | Some y => (y, delete i (x :: inflight))
  | None => (x, inflight)
  end.

(** The file system without the files of [l]. *)
Definition deleteAll (l : list string) (m : gmap string string) : gmap string string :=
  foldl (λ m f, delete f m) m l.

Definition isWarning (e : Event) : bool :=
  match e with Warning _ => true | _ => false end.

(** The calls to [saveCache] among the events. *)
Definition isUpload (e : Event) : bool :=
  match e with SaveCacheCall _ _ => true | _ => false end.

Definition uploads (l : list Event) : list Event :=
  filter (λ e, isUpload e) l.

(** The calls to [restoreCache] among the events. *)
Definition isRestoreCall (e : Event) : bool :=
  match e with RestoreCacheCall _ _ => true | _ => false end.

Definition restoreCalls (l : list Event) : list Event :=
  filter (λ e, isRestoreCall e) l.

Section Engine.

(** [@actions/glob] with [implicitDescendants] and [followSymbolicLinks]
    off: whether a pattern matches a path. *)
Variable globMatch : string → string → bool.

(** [getCacheKeyPrefix] of [cache-utils], not under src, is a
    parameter: the process-wide salt of all cache keys, read from the
    environment. *)
Variable getCacheKeyPrefix : gmap string string → string.

(** [hashFileNames] of [cache-utils], not under src, is a parameter: a
    hash of the sequence of relative path names. *)
Variable hashFileNames : list string → string.

(** [JSON.parse] of the bundle definition followed by the destructuring
    of [Array.from]: the pairs of the definition, or a thrown error. *)
Variable parseBundles : string → Eff.Outcome (list (string * string)).

(** [fs.existsSync] on a directory.  The file system of the model holds
    regular files only; which directories exist is a parameter. *)
Variable directoryExists : string → World → bool.

(** [fs.writeFileSync(p, data)]: the file is created or overwritten in
    its directory, which has to exist. *)
Definition writeFileSync (p data : string) : M unit :=
  λ w, if directoryExists (Path.dirname p) w
       then (Eff.Returned tt, setFiles (<[p := data]> (files w)) w)
       else (Eff.Thrown ("ENOENT: no such file or directory, open '" +:+ p +:+ "'"), w).

(** Modelled from the spec: [AbstractCache.debug] of [cache-utils], not
    under src: a diagnostic line. *)
Definition debug (msg : string) : M unit := emit (Debug msg).

(** The files of the file system that the pattern matches, in the order
    the file system lists them. *)
Definition matchedFiles (pattern : string) (w : World) : list string :=
  filter (λ p, globMatch pattern p) (elements (dom (files w))).

(** [globber.glob()] *)
Definition glob (pattern : string) : M (list string) :=
  Eff.gets (matchedFiles pattern).

(** Modelled from the spec: [tryDelete] of [cache-utils], not under src:
    best-effort deletion of a file; a failure is logged and not thrown. *)
Definition tryDelete (file : string) : M unit :=
  ex <- existsSync file ;;
  if ex : bool then Eff.modify (λ w, setFiles (delete file (files w)) w)
  else emit (Warning ("Failed to delete " +:+ file)).

(** The request of [restoreCache]: issued when the method is called. *)
Definition restoreCacheRequest (paths : list string) (key : string) : M unit :=
  emit (RestoreCacheCall paths key).

(** Modelled from the spec: the reply of [restoreCache]: an exact-key
    lookup that unpacks the archive over the file system and answers the
    key, and answers [undefined] for no entry; a failure of the cache
    service is logged and answered like no entry. *)
Definition restoreCacheReply (key : string) : M (option string) :=
  λ w, match remote w !! key with
       | Some (Archive content) =>
           (Eff.Returned (Some key), setFiles (content ∪ files w) w)
       | Some (Unavailable e) =>
           (Eff.Returned None,
            mkWorld (process w) (files w) (remote w)
              (log w ++ [Warning ("Failed to restore " +:+ key +:+ ": " +:+ e)]))
       | None => (Eff.Returned None, w)
       end.

(** Modelled from the spec: [AbstractCache.restoreCache] of
    [cache-utils], not under src ([restoreByKey] of the external
    interfaces: the matched key or null; an error of the data path
    is logged and degrades to a cache miss). *)
Definition restoreCache (paths : list string) (key : string) : M (option string) :=
  restoreCacheRequest paths key ;;;
  restoreCacheReply key.

(** Modelled from the spec: [AbstractCache.saveCache] of [cache-utils],
    not under src ([saveByKey] of the external interfaces): archives the
    files under the given paths and uploads them under the key; a key
    that exists already is a logged failure, not fatal to the caller. *)
Definition saveCache (paths : list string) (key : string) : M unit :=
  emit (SaveCacheCall paths key) ;;;
  entry <- Eff.gets (λ w, remote w !! key) ;;
  match entry with
  | Some _ => emit (Warning ("Failed to save cache entry " +:+ key))
  | None =>
      Eff.modify (λ w,
        setRemote
          (<[key := Archive (filter (λ kv, existsb (λ p, globMatch p kv.1) paths) (files w))]>
             (remote w)) w)
  end.

(** The constructor of [AbstractCache], not under src, sets
    [cacheDebuggingEnabled]; how it reads the environment is a
    parameter. *)
Variable isCacheDebuggingEnabled : gmap string string → bool.

Definition determineGradleUserHome (proc : Process) (rootDir : string) : string :=
  let customGradleUserHome := env proc !! "GRADLE_USER_HOME" in
  if Js.truthyOpt customGradleUserHome then
    Path.resolve (cwd proc) [rootDir; default "" customGradleUserHome]
  else Path.resolve (cwd proc) [homedir proc; ".gradle"].

(** [new GradleUserHomeCache(rootDir)] *)
Definition constructor (proc : Process) (rootDir : string) : GradleUserHomeCache :=
  mkCache (determineGradleUserHome proc rootDir) (isCacheDebuggingEnabled (env proc)).

Definition getBundleMetaFile (proc : Process) (this : GradleUserHomeCache)
    (name : string) : string :=
  Path.resolve (cwd proc)
    [gradleUserHome this; "caches"; ".gradle-build-action." +:+ name +:+ ".cache"].

(** [core.getInput('cache-artifact-bundles')] *)
Definition getInputArtifactBundles (proc : Process) : string :=
  Js.trim (Js.orElse (env proc !! "INPUT_CACHE-ARTIFACT-BUNDLES") "").

Definition getArtifactBundles (this : GradleUserHomeCache) : M (list (string * string)) :=
  proc <- Eff.gets process ;;
  let artifactBundleDefinition := getInputArtifactBundles proc in
  debug ("Using artifact bundle definition: " +:+ artifactBundleDefinition) ;;;
  match parseBundles artifactBundleDefinition with
  | Eff.Thrown e => Eff.throw e
  | Eff.Returned artifactBundles =>
      Eff.ret (newMap ((λ kv, (kv.1, Path.resolve (cwd proc) [gradleUserHome this; kv.2]))
                         <$> artifactBundles))
  end.

Definition createCacheKey (this : GradleUserHomeCache) (bundle : string)
    (bundleFiles : list string) : M string :=
  proc <- Eff.gets process ;;
  let cacheKeyPrefix := getCacheKeyPrefix (env proc) in
  let relativeFiles :=
    (λ x, Path.relative (cwd proc) (gradleUserHome this) x) <$> bundleFiles in
  let key := hashFileNames relativeFiles in
  debug ("Generating cache key for " +:+ bundle +:+ " from files: "
         +:+ Js.join "," relativeFiles) ;;;
  Eff.ret (cacheKeyPrefix +:+ bundle +:+ "-" +:+ key).

(** [restoreArtifactBundle] up to its [await]: the key read from the
    meta-file, with the request to the cache service issued, or nothing
    when there is no meta-file. *)
Definition restoreArtifactBundleStart (this : GradleUserHomeCache)
    (bundle artifactPath : string) : M (option string) :=
  proc <- Eff.gets process ;;
  let bundleMetaFile := getBundleMetaFile proc this bundle in
  ex <- existsSync bundleMetaFile ;;
  if ex : bool then
    content <- readFileSync bundleMetaFile ;;
    let cacheKey := Js.trim content in
    restoreCacheRequest [artifactPath] cacheKey ;;;
    Eff.ret (Some cacheKey)
  else
    debug ("No metafile found to restore " +:+ bundle +:+ ": " +:+ bundleMetaFile) ;;;
    Eff.ret None.

(** [restoreArtifactBundle] from its [await] on. *)
Definition restoreArtifactBundleResume (bundle artifactPath cacheKey : string) : M unit :=
  restoreKey <- restoreCacheReply cacheKey ;;
  if Js.truthyOpt restoreKey then
    info ("Restored " +:+ bundle +:+ " with key " +:+ cacheKey +:+ " to " +:+ artifactPath)
  else
    debug ("Did not restore " +:+ bundle +:+ " with key " +:+ cacheKey
           +:+ " to " +:+ artifactPath).

Definition restoreArtifactBundle (this : GradleUserHomeCache)
    (bundle artifactPath : string) : M unit :=
  started <- restoreArtifactBundleStart this bundle artifactPath ;;
  match started with
  | Some cacheKey => restoreArtifactBundleResume bundle artifactPath cacheKey
  | None => Eff.ret tt
  end.

(** The loop of [restoreArtifactBundles] without cache debugging: every
    call runs up to its [await] before the next one is made.  An
    exception before the [await] rejects the promise of that call and
    does not leave the loop. *)
Fixpoint startRestores (this : GradleUserHomeCache) (bundles : list (string * string))
    : M (list InFlight * list string) :=
  match bundles with
  | [] => Eff.ret ([], [])
  | (bundle, pattern) :: rest =>
      o <- Eff.settled (restoreArtifactBundleStart this bundle pattern) ;;
      r <- startRestores this rest ;;
      Eff.ret
        match o with
        | Eff.Returned (Some cacheKey) => (mkInFlight bundle pattern cacheKey :: r.1, r.2)
        | Eff.Returned None => r
        | Eff.Thrown e => (r.1, e :: r.2)
        end
  end.

Definition resumeRestore (x : InFlight) : M unit :=
  restoreArtifactBundleResume (inFlightBundle x) (inFlightPath x) (inFlightKey x).

(** The in-flight restores settle one after the other, in call order,
    until one of them rejects. *)
Fixpoint settleInOrder (inflight : list InFlight) : M unit :=
  match inflight with
  | [] => Eff.ret tt
  | x :: rest => resumeRestore x ;;; settleInOrder rest
  end.

(** The in-flight restores settle one after the other, in the order the
    [schedule] of the event loop picks them (once the schedule is
    exhausted, in call order), until one of them rejects: the rejection
    is thrown at once, while the others are still in flight. *)
Fixpoint settleRestores (schedule : list nat) (inflight : list InFlight) : M unit :=
  match schedule with
  | [] => settleInOrder inflight
  | choice :: schedule' =>
      match inflight with
      | [] => Eff.ret tt
      | x :: rest =>
          let '(y, rest') := pickNext choice x rest in
          resumeRestore y ;;; settleRestores schedule' rest'
      end
  end.

(** The promises that have rejected already when [Promise.all] is
    awaited: the first of them is thrown. *)
Definition promiseAll (rejected : list string) : M unit :=
  match rejected with
  | [] => Eff.ret tt
  | e :: _ => Eff.throw e
  end.

(** [restoreArtifactBundles].  With cache debugging each call is awaited
    inside the loop.  Without it all calls are made first; then
    [await Promise.all(processes)] throws the rejection of a call that
    has rejected already, or waits while the restores settle in the
    order of [schedule] and throws at the first rejection. *)
Definition restoreArtifactBundles (this : GradleUserHomeCache) (schedule : list nat)
    : M unit :=
  bundles <- getArtifactBundles this ;;
  if cacheDebuggingEnabled this then
    Eff.forEach (λ kv, restoreArtifactBundle this kv.1 kv.2) bundles
  else
    started <- startRestores this bundles ;;
    promiseAll started.2 ;;;
    settleRestores schedule started.1.

Definition saveArtifactBundle (this : GradleUserHomeCache)
    (bundle artifactPath : string) : M unit :=
  proc <- Eff.gets process ;;
  let bundleMetaFile := getBundleMetaFile proc this bundle in
  bundleFiles <- glob artifactPath ;;
  if decide (length bundleFiles = 0) then
    debug ("No files found to cache for " +:+ bundle) ;;;
    ex <- existsSync bundleMetaFile ;;
    if ex : bool then tryDelete bundleMetaFile else Eff.ret tt
  else
    ex <- existsSync bundleMetaFile ;;
    previouslyRestoredKey <-
      (if ex : bool then
         content <- readFileSync bundleMetaFile ;; Eff.ret (Js.trim content)
       else Eff.ret "") ;;
    cacheKey <- createCacheKey this bundle bundleFiles ;;
    (if decide (previouslyRestoredKey = cacheKey) then
       debug ("No change to previously restored " +:+ bundle +:+ ". Not caching.")
     else
       info ("Caching " +:+ bundle +:+ " with cache key: " +:+ cacheKey) ;;;
       saveCache [artifactPath] cacheKey ;;;
       debug ("Writing cache metafile: " +:+ bundleMetaFile) ;;;
       writeFileSync bundleMetaFile cacheKey) ;;;
    Eff.forEach tryDelete bundleFiles.

(** The key that the engines read from a meta-file: its trimmed
    content, or the empty string of [saveArtifactBundle] when there is
    none. *)
Definition storedKey (w : World) (bundleMetaFile : string) : string :=
  match files w !! bundleMetaFile with
  | Some content => Js.trim content
  | None => ""
  end.

(** The key that [createCacheKey] returns in [w]. *)
Definition cacheKeyFor (this : GradleUserHomeCache) (bundle : string)
    (bundleFiles : list string) (w : World) : string :=
  match (createCacheKey this bundle bundleFiles w).1 with
  | Eff.Returned cacheKey => cacheKey
  | Eff.Thrown _ => ""
  end.

(** The events that running [m] on [w] adds to the log. *)
Definition performed {A} (m : M A) (w : World) : list Event :=
  drop (length (log w)) (log (m w).2).

End Engine.

(** *** The rest of the class: cached paths, the size report, the batch
    of saves, and the hooks [afterRestore] and [beforeSave] *)

(** Which paths under Gradle User Home should be cached *)
Definition CACHE_PATH : list string := ["caches"; "notifications"].

Definition getCachePath (proc : Process) (this : GradleUserHomeCache) : list string :=
  (λ x, Path.resolve (cwd proc) [gradleUserHome this; x]) <$> CACHE_PATH.

(** The text that [reportGradleUserHomeSize] prints for the output of
    [du]: [stdout.trimEnd().replace(/\t/g, '    ').split('\n')
    .map(it => `  ${it}`).join('\n')]. *)
Definition formatDiskUsage (stdout : string) : string :=
  Js.join (String "010" "")
    ((λ it, "  " +:+ it)
       <$> Js.splitOn "010" (Js.replaceAll "009" "    " (Js.trimEnd stdout))).

(** A save that is waiting at one of the three [await]s of
    [saveArtifactBundle]. *)
Inductive SaveTask : Type :=
| AwaitCreate (bundle artifactPath bundleMetaFile : string)
| AwaitGlob (bundle artifactPath bundleMetaFile : string)
| AwaitSaveCache (bundle artifactPath bundleMetaFile : string)
    (bundleFiles : list string) (cacheKey : string).

Definition taskPattern (t : SaveTask) : string :=
  match t with
  | AwaitCreate _ p _ | AwaitGlob _ p _ | AwaitSaveCache _ p _ _ _ => p
  end.

Definition taskMetaFile (t : SaveTask) : string :=
  match t with
  | AwaitCreate _ _ mf | AwaitGlob _ _ mf | AwaitSaveCache _ _ mf _ _ => mf
  end.

(** The task will still delete [f] if [f] is there and its pattern
    matches it: it has not listed its files yet, or [f] is among the
    files it listed. *)
Definition taskCovers (t : SaveTask) (f : string) : Prop :=
  match t with
  | AwaitCreate _ _ _ | AwaitGlob _ _ _ => True
  | AwaitSaveCache _ _ _ bundleFiles _ => f ∈ bundleFiles
  end.

Section Hooks.

Variable globMatch : string → string → bool.
Variable getCacheKeyPrefix : gmap string string → string.
Variable hashFileNames : list string → string.
Variable parseBundles : string → Eff.Outcome (list (string * string)).

(** Which directories exist, as for [fs.writeFileSync]. *)
Variable directoryExists : string → World → bool.

(** [exec.getExecOutput('du', ['-h', '-c', '-t', '5M'], {cwd, silent,
    ignoreReturnCode})]: the standard output of [du] run in [cwd], or a
    thrown error when the tool cannot be run. *)
Variable duOutput : string → World → Eff.Outcome string.

Definition reportGradleUserHomeSize (this : GradleUserHomeCache) (label : string)
    : M unit :=
  if negb (cacheDebuggingEnabled this) then Eff.ret tt
  else
    ex <- Eff.gets (directoryExists (gradleUserHome this)) ;;
    if negb ex then Eff.ret tt
    else
      stdout <- (λ w, (duOutput (gradleUserHome this) w, w)) ;;
      info ("Gradle User Home cache entry (directories >5M): " +:+ label) ;;;
      info (formatDiskUsage stdout) ;;;
      info "-----------------------".

Definition afterRestore (this : GradleUserHomeCache) (schedule : list nat) : M unit :=
  reportGradleUserHomeSize this "as restored from cache" ;;;
  restoreArtifactBundles parseBundles this schedule ;;;
  reportGradleUserHomeSize this "after restoring common artifacts".

(** The request of [saveCache]: issued when the method is called. *)
Definition saveCacheRequest (paths : list string) (key : string) : M unit :=
  emit (SaveCacheCall paths key).

(** The reply of [saveCache]: what [saveCache] does after its request. *)
Definition saveCacheReply (paths : list string) (key : string) : M unit :=
  entry <- Eff.gets (λ w, remote w !! key) ;;
  match entry with
  | Some _ => emit (Warning ("Failed to save cache entry " +:+ key))
  | None =>
      Eff.modify (λ w,
        setRemote
          (<[key := Archive (filter (λ kv, existsb (λ p, globMatch p kv.1) paths) (files w))]>
             (remote w)) w)
  end.

(** [saveArtifactBundle] up to its first [await]. *)
Definition saveArtifactBundleStart (this : GradleUserHomeCache)
    (bundle artifactPath : string) : M SaveTask :=
  proc <- Eff.gets process ;;
  Eff.ret (AwaitCreate bundle artifactPath (getBundleMetaFile proc this bundle)).

(** [saveArtifactBundle] from one [await] to the next one, or to its
    end.  The files are listed when [globber.glob()] settles. *)
Definition saveArtifactBundleResume (this : GradleUserHomeCache) (t : SaveTask)
    : M (option SaveTask) :=
  match t with
  | AwaitCreate bundle artifactPath bundleMetaFile =>
      Eff.ret (Some (AwaitGlob bundle artifactPath bundleMetaFile))
  | AwaitGlob bundle artifactPath bundleMetaFile =>
      bundleFiles <- glob globMatch artifactPath ;;
      if decide (length bundleFiles = 0) then
        debug ("No files found to cache for " +:+ bundle) ;;;
        ex <- existsSync bundleMetaFile ;;
        (if ex : bool then tryDelete bundleMetaFile else Eff.ret tt) ;;;
        Eff.ret None
      else
        ex <- existsSync bundleMetaFile ;;
        previouslyRestoredKey <-
          (if ex : bool then
             content <- readFileSync bundleMetaFile ;; Eff.ret (Js.trim content)
           else Eff.ret "") ;;
        cacheKey <- createCacheKey getCacheKeyPrefix hashFileNames this bundle bundleFiles ;;
        if decide (previouslyRestoredKey = cacheKey) then
          debug ("No change to previously restored " +:+ bundle +:+ ". Not caching.") ;;;
          Eff.forEach tryDelete bundleFiles ;;;
          Eff.ret None
        else
          info ("Caching " +:+ bundle +:+ " with cache key: " +:+ cacheKey) ;;;
          saveCacheRequest [artifactPath] cacheKey ;;;
          Eff.ret (Some (AwaitSaveCache bundle artifactPath bundleMetaFile
                           bundleFiles cacheKey))
  | AwaitSaveCache bundle artifactPath bundleMetaFile bundleFiles cacheKey =>
      saveCacheReply [artifactPath] cacheKey ;;;
      debug ("Writing cache metafile: " +:+ bundleMetaFile) ;;;
      writeFileSync directoryExists bundleMetaFile cacheKey ;;;
      Eff.forEach tryDelete bundleFiles ;;;
      Eff.ret None
  end.

(** A task run to its end without another task in between: at most three
    resumptions. *)
Fixpoint finishSave (resumptions : nat) (this : GradleUserHomeCache) (t : SaveTask)
    : M unit :=
  match resumptions with
  | 0 => Eff.ret tt
  | S n =>
      next <- saveArtifactBundleResume this t ;;
      match next with
      | Some t' => finishSave n this t'
      | None => Eff.ret tt
      end
  end.

(** The loop of [saveArtifactBundles] without cache debugging: every
    call runs up to its first [await]. *)
Fixpoint startSaves (this : GradleUserHomeCache) (bundles : list (string * string))
    : M (list SaveTask) :=
  match bundles with
  | [] => Eff.ret []
  | (bundle, pattern) :: rest =>
      t <- saveArtifactBundleStart this bundle pattern ;;
      ts <- startSaves this rest ;;
      Eff.ret (t :: ts)
  end.

(** The tasks left run to their ends one after the other, in call order,
    until one of them rejects. *)
Fixpoint finishSavesInOrder (this : GradleUserHomeCache) (inflight : list SaveTask)
    : M unit :=
  match inflight with
  | [] => Eff.ret tt
  | t :: rest => finishSave 3 this t ;;; finishSavesInOrder this rest
  end.

(** The saves in flight are resumed one [await] at a time, in the order
    the [schedule] of the event loop picks them; once the schedule is
    exhausted, each one left runs to its end.  A save that rejects makes
    [await Promise.all(processes)] throw at once, while the others are
    still in flight. *)
Fixpoint settleSaves (this : GradleUserHomeCache) (schedule : list nat)
    (inflight : list SaveTask) : M unit :=
  match schedule with
  | [] => finishSavesInOrder this inflight
  | choice :: schedule' =>
      match inflight with
      | [] => Eff.ret tt
      | x :: rest =>
          let '(t, rest') := pickNext choice x rest in
          next <- saveArtifactBundleResume this t ;;
          settleSaves this schedule'
            match next with
            | Some t' => t' :: rest'
            | None => rest'
            end
      end
  end.

(** [saveArtifactBundles].  With cache debugging each call is awaited
    inside the loop.  Without it all calls are made first and advance in
    the order of [schedule], until all have ended or one has rejected. *)
Definition saveArtifactBundles (this : GradleUserHomeCache) (schedule : list nat)
    : M unit :=
  bundles <- getArtifactBundles parseBundles this ;;
  if cacheDebuggingEnabled this then
    Eff.forEach
      (λ kv, saveArtifactBundle globMatch getCacheKeyPrefix hashFileNames
               directoryExists this kv.1 kv.2)
      bundles
  else
    tasks <- startSaves this bundles ;;
    settleSaves this schedule tasks.

Definition beforeSave (this : GradleUserHomeCache) (schedule : list nat) : M unit :=
  reportGradleUserHomeSize this "before saving common artifacts" ;;;
  saveArtifactBundles this schedule ;;;
  reportGradleUserHomeSize this "after saving common artifacts".

(** No file outside [metaFiles] that one of the [patterns] matches is
    left in [w] unless a task in flight will still delete it. *)
Definition matchedFilesCovered (patterns metaFiles : list string)
    (inflight : list SaveTask) (w : World) : Prop :=
  ∀ f pattern,
    pattern ∈ patterns → f ∉ metaFiles → globMatch pattern f = true →
    is_Some (files w !! f) →
    ∃ t, t ∈ inflight ∧ taskPattern t = pattern ∧ taskCovers t f.

(** The number of [await]s that the task has still to pass, at most. *)
Definition awaitsLeft (t : SaveTask) : nat :=
  match t with
  | AwaitCreate _ _ _ => 3
  | AwaitGlob _ _ _ => 2
  | AwaitSaveCache _ _ _ _ _ => 1
  end.

(** The files that a task has listed are files that its pattern
    matches. *)
Definition taskListed (t : SaveTask) : Prop :=
  match t with
  | AwaitCreate _ _ _ | AwaitGlob _ _ _ => True
  | AwaitSaveCache _ artifactPath _ bundleFiles _ =>
      ∀ f, f ∈ bundleFiles → globMatch artifactPath f = true
  end.

(** The tasks that the loop of [saveArtifactBundles] starts, and the
    meta-files of the bundles. *)
Definition tasksOf (proc : Process) (this : GradleUserHomeCache)
    (bundles : list (string * string)) : list SaveTask :=
  (λ kv, AwaitCreate kv.1 kv.2 (getBundleMetaFile proc this kv.1)) <$> bundles.

Definition metaFilesOf (proc : Process) (this : GradleUserHomeCache)
    (bundles : list (string * string)) : list string :=
  (λ kv, getBundleMetaFile proc this kv.1) <$> bundles.

(** The state of a batch of saves: the tasks in flight belong to the
    batch, and they will still delete every matched file that is left. *)
Definition savesInv (patterns metaFiles : list string) (inflight : list SaveTask)
    (w : World) : Prop :=
  matchedFilesCovered patterns metaFiles inflight w
  ∧ Forall (λ t, taskPattern t ∈ patterns ∧ taskMetaFile t ∈ metaFiles ∧ taskListed t)
      inflight.

(** What a batch of saves changes at most between [w] and [w']: outside
    the meta-files it only deletes files that a pattern matches, it
    keeps the entries that the cache service has, and it never calls
    [restoreCache]. *)
Definition savesFrame (patterns metaFiles : list string) (w w' : World) : Prop :=
  process w' = process w
  ∧ (∀ f, f ∉ metaFiles →
       files w' !! f = files w !! f
       ∨ (files w' !! f = None ∧ ∃ p, p ∈ patterns ∧ globMatch p f = true))
  ∧ (∀ key, is_Some (remote w !! key) → remote w' !! key = remote w !! key)
  ∧ restoreCalls (log w') = restoreCalls (log w).

(** The rejection of a save whose meta-file could not be written. *)
Definition writeRejected (metaFiles : list string) (e : string) : Prop :=
  ∃ mf w,
    mf ∈ metaFiles ∧ directoryExists (Path.dirname mf) w = false
    ∧ e = "ENOENT: no such file or directory, open '" +:+ mf +:+ "'".

(** How a batch of saves stands when some of its tasks have been
    resumed: it goes on in its state, or it has rejected. *)
Definition savesOutcome {A} (patterns metaFiles : list string)
    (inflight : list SaveTask) (o : Eff.Outcome A) (w : World) : Prop :=
  match o with
  | Eff.Returned _ => savesInv patterns metaFiles inflight w
  | Eff.Thrown e => writeRejected metaFiles e
  end.

End Hooks.

(** What a batch of restores changes at most between [w] and [w']: the
    process and the cache service stay as they are, nothing is uploaded,
    and a file either stays as it is or is the file of an archive of the
    cache service. *)
Definition onlyUnpacks (w w' : World) : Prop :=
  process w' = process w ∧ remote w' = remote w
  ∧ uploads (log w') = uploads (log w)
  ∧ ∀ f, files w' !! f = files w !! f
         ∨ ∃ key content,
             remote w !! key = Some (Archive content)
             ∧ is_Some (content !! f) ∧ files w' !! f = content !! f.



End GradleUserHome.

(** ** A concrete setting

    A stand-in for the collaborators, used to run the engines on explicit
    inputs: a pattern matches the paths it is a prefix of, the hash of a
    list of names is their concatenation, the key prefix is [v1-]. *)

Module Sample.

Import GradleUserHome.

Definition globMatch (pattern path : string) : bool := String.prefix pattern path.

Definition getCacheKeyPrefix (e : gmap string string) : string :=
  Js.orElse (e !! "GRADLE_BUILD_ACTION_CACHE_KEY_PREFIX") "v1-".

Definition hashFileNames (names : list string) : string := Js.join ";" names.

Definition parseBundles (definition : string) : Eff.Outcome (list (string * string)) :=
  if decide (definition = "") then Eff.Thrown "SyntaxError: Unexpected end of JSON input"
  else Eff.Returned [("wrapper-dists", "wrapper/dists"); ("jars", "caches/jars")].

Definition proc : Process :=
  mkProcess "/work" "/home/u"
    {[ "INPUT_CACHE-ARTIFACT-BUNDLES" := "[[...]]" ]}.

(** The directories of the Gradle user home that exist: [caches] is
    there in the first file system and missing in the second. *)
Definition directoryExists (dir : string) (w : World) : bool :=
  bool_decide (dir ∈ ["/home/u/.gradle"; "/home/u/.gradle/caches";
                      "/home/u/.gradle/wrapper"; "/home/u/.gradle/wrapper/dists"]).

Definition withoutCaches (dir : string) (w : World) : bool :=
  bool_decide (dir ∈ ["/home/u/.gradle";
                      "/home/u/.gradle/wrapper"; "/home/u/.gradle/wrapper/dists"]).

(** The cache object of a run with cache debugging, and of one without. *)
Definition debugCache : GradleUserHomeCache := mkCache "/home/u/.gradle" true.
Definition cache : GradleUserHomeCache := mkCache "/home/u/.gradle" false.

Definition wrapperPattern : string := "/home/u/.gradle/wrapper/dists".
Definition wrapperMetaFile : string :=
  "/home/u/.gradle/caches/.gradle-build-action.wrapper-dists.cache".
Definition jarsPattern : string := "/home/u/.gradle/caches/jars".
Definition jarsMetaFile : string :=
  "/home/u/.gradle/caches/.gradle-build-action.jars.cache".

Definition wrapperKey : string :=
  "v1-wrapper-dists-wrapper/dists/gradle-8.1-bin.zip.ok;wrapper/dists/gradle-8.1-bin.zip".

Definition wrapperFiles : gmap string string :=
  {[ "/home/u/.gradle/wrapper/dists/gradle-8.1-bin.zip" := "PK";
     "/home/u/.gradle/wrapper/dists/gradle-8.1-bin.zip.ok" := "" ]}.

(** First run: two wrapper files, no meta-file, empty cache service. *)
Definition firstRun : World := mkWorld proc wrapperFiles ∅ [].


(** The meta-file is there and no file matches the pattern. *)
Definition emptyBundle : World :=
  mkWorld proc {[ wrapperMetaFile := wrapperKey; "/home/u/.gradle/gradle.properties" := "" ]} ∅ [].

(** Restore: the entry of the first bundle fails in the cache service,
    the entry of the second one is an archive of one jar. *)
Definition brokenFirst : World :=
  mkWorld proc
    {[ wrapperMetaFile := "v1-wrapper-dists-0"; jarsMetaFile := "v1-jars-1" ]}
    {[ "v1-wrapper-dists-0" := Unavailable "Cache service responded with 503";
       "v1-jars-1" := Archive {[ "/home/u/.gradle/caches/jars/a.jar" := "jar" ]} ]}
    [].

(** The entry points: the cache is enabled unless the input says
    otherwise, and the state cache counts its calls. *)
Definition isCacheDisabled (e : gmap string string) : bool :=
  bool_decide (e !! "INPUT_CACHE-DISABLED" = Some "true").

Definition isCacheReadOnly (e : gmap string string) : bool :=
  bool_decide (e !! "INPUT_CACHE-READ-ONLY" = Some "true").

Definition gradleStateCacheInit (gradleUserHome : string) (calls : nat)
    : Eff.Outcome unit * nat :=
  (Eff.Returned tt, calls).

Definition gradleStateCacheRestore (gradleUserHome : string) (calls : nat)
    : Eff.Outcome string * nat :=
  (Eff.Returned "{}", S calls).

Definition gradleStateCacheSave (gradleUserHome listener : string) (calls : nat)
    : Eff.Outcome string * nat :=
  (Eff.Returned listener, S calls).

(** A job in which the action has not run yet, and a job in which the
    restored variable is set. *)
Definition newJob : @Caches.Job nat := Caches.mkJob ∅ ∅ 0 [].

Definition restoredJob : @Caches.Job nat :=
  Caches.mkJob {[ Caches.CACHE_RESTORED_VAR := "true" ]} ∅ 1 [].

(** The action used twice in a job, then its post step. *)
Definition twoUses : list Caches.Step :=
  [Caches.MainStep "/home/u/.gradle"; Caches.MainStep "/home/u/.gradle"; Caches.PostStep].

End Sample.

(** * Properties *)

(** ** Strings *)

Section JsFacts.

Import Js.

Lemma app_String c s t : String c s +:+ t = String c (s +:+ t).
Proof. reflexivity. Qed.

Lemma app_empty_r s : s +:+ "" = s.
Proof. induction s as [|c s IH]; [done|]. by rewrite app_String, IH. Qed.

Lemma app_assoc_string s t u : (s +:+ t) +:+ u = s +:+ t +:+ u.
Proof. induction s as [|c s IH]; [done|]. by rewrite !app_String, IH. Qed.

Lemma trimStart_pad l s :
  allWhiteSpace l = true → trimStart (l +:+ s) = trimStart s.
Proof.
  induction l as [|c l IH]; [done|].
  intros [Hc Hl]%andb_prop. rewrite app_String. simpl. rewrite Hc. auto.
Qed.

Lemma trimStart_id s : startsWithSpace s = false → trimStart s = s.
Proof. destruct s as [|c s]; [done|]. simpl. by intros ->. Qed.

Lemma trimEnd_all r : allWhiteSpace r = true → trimEnd r = "".
Proof.
  induction r as [|c r IH]; [done|].
  intros [Hc Hr]%andb_prop. simpl. by rewrite IH, Hc.
Qed.

Lemma trimEnd_pad s r :
  allWhiteSpace r = true → trimEnd (s +:+ r) = trimEnd s.
Proof.
  intros Hr. induction s as [|c s IH]; [by apply trimEnd_all|].
  rewrite app_String. simpl. by rewrite IH.
Qed.

Lemma trimEnd_id s : endsWithSpace s = false → trimEnd s = s.
Proof.
  induction s as [|c s IH]; [done|].
  destruct s as [|d s].
  - simpl. by intros ->.
  - intros H. change (endsWithSpace (String d s) = false) in H.
    specialize (IH H). simpl in IH |- *. by rewrite IH.
Qed.

Lemma trim_id k :
  startsWithSpace k = false → endsWithSpace k = false → trim k = k.
Proof. intros Hs He. unfold trim. rewrite trimStart_id by done. by apply trimEnd_id. Qed.

Lemma trim_padded l k r :
  allWhiteSpace l = true → allWhiteSpace r = true →
  startsWithSpace k = false → endsWithSpace k = false →
  trim (l +:+ k +:+ r) = k.
Proof.
  intros Hl Hr Hs He. unfold trim. rewrite trimStart_pad by done.
  destruct k as [|c k].
  - change ("" +:+ r) with r.
    assert (trimStart r = "") as ->; [|done].
    clear -Hr. induction r as [|c r IH]; [done|].
    apply andb_prop in Hr as [Hc Hr]. simpl. rewrite Hc. auto.
  - rewrite trimStart_id by (by rewrite app_String).
    rewrite trimEnd_pad by done. by apply trimEnd_id.
Qed.

End JsFacts.

(** ** Paths *)

Section PathFacts.

Import Path.

Local Arguments ofSegments : simpl never.

Lemma split_nonempty s : split s ≠ [].
Proof.
  destruct s as [|c s]; [done|]. simpl.
  destruct (isSlash c); [done|]. by destruct (split s).
Qed.

Lemma split_app_slash a b : split (a +:+ "/" +:+ b) = split a ++ split b.
Proof.
  induction a as [|c a IH]; [done|].
  rewrite app_String. simpl. rewrite IH.
  destruct (isSlash c); [done|].
  pose proof (split_nonempty a). by destruct (split a).
Qed.

Lemma split_String_plain c s :
  split (String c s) = [String c s] → isSlash c = false ∧ split s = [s].
Proof.
  simpl. destruct (isSlash c); [by intros [=]|].
  pose proof (split_nonempty s). destruct (split s) as [|seg rest]; [done|].
  by intros [= -> ->].
Qed.

Lemma split_app_plain a b :
  split a = [a] → split b = [b] → split (a +:+ b) = [a +:+ b].
Proof.
  intros Ha Hb. induction a as [|c a IH]; [done|].
  apply split_String_plain in Ha as [Hc Ha].
  rewrite app_String. simpl. by rewrite Hc, IH.
Qed.

Lemma plain_not_absolute seg : split seg = [seg] → isAbsolute seg = false.
Proof.
  destruct seg as [|c seg]; [done|]. by intros [? _]%split_String_plain.
Qed.

Lemma join_cons x y l : Js.join "/" (x :: y :: l) = x +:+ "/" +:+ Js.join "/" (y :: l).
Proof. reflexivity. Qed.

Lemma join_app l1 l2 :
  l1 ≠ [] → l2 ≠ [] →
  Js.join "/" (l1 ++ l2) = Js.join "/" l1 +:+ "/" +:+ Js.join "/" l2.
Proof.
  intros H1 H2. induction l1 as [|x l1 IH]; [done|].
  destruct l1 as [|y l1].
  - destruct l2; [done|]. reflexivity.
  - change ((x :: y :: l1) ++ l2) with (x :: (y :: l1 ++ l2)).
    change (y :: l1 ++ l2) with ((y :: l1) ++ l2).
    destruct ((y :: l1) ++ l2) as [|z l] eqn:E; [done|].
    rewrite join_cons, IH by done.
    by rewrite join_cons, !app_assoc_string.
Qed.

Lemma split_join segs :
  segs ≠ [] → Forall (λ seg, split seg = [seg]) segs →
  split (Js.join "/" segs) = segs.
Proof.
  intros Hne Hall. induction Hall as [|x l Hx Hl IH]; [done|].
  destruct l as [|y l]; [done|].
  rewrite join_cons, split_app_slash, Hx, IH; done.
Qed.

(** Empty segments disappear and plain ones are kept, in order. *)
Lemma normalizeSegs_plain allowAboveRoot acc segs :
  Forall (λ seg, seg = "" ∨ plainSegment seg) segs →
  normalizeSegs allowAboveRoot acc segs = rev acc ++ filter (λ seg, seg ≠ "") segs.
Proof.
  intros Hall. revert acc.
  induction Hall as [|x l Hx Hl IH]; intros acc; simpl.
  { by rewrite app_nil_r. }
  destruct Hx as [->|(Hne & Hdot & Hdots & _)].
  - rewrite decide_True by auto. rewrite IH.
    by rewrite filter_cons_False by (by intros ?).
  - rewrite (decide_False (P := x = "" ∨ x = ".")) by (by intros [?|?]).
    rewrite (decide_False (P := x = "..")) by done.
    rewrite IH. rewrite filter_cons_True by done. simpl.
    by rewrite <- app_assoc.
Qed.

Lemma filter_plain segs :
  Forall plainSegment segs → filter (λ seg, seg ≠ "") segs = segs.
Proof.
  induction 1 as [|x l Hx Hl IH]; [done|].
  rewrite filter_cons_True by apply Hx. by rewrite IH.
Qed.

Lemma split_ofSegments segs :
  Forall plainSegment segs →
  Forall (λ seg, seg = "" ∨ plainSegment seg) (split (ofSegments segs))
  ∧ filter (λ seg, seg ≠ "") (split (ofSegments segs)) = segs.
Proof.
  intros Hall. unfold ofSegments.
  change ("/" +:+ Js.join "/" segs) with ("" +:+ "/" +:+ Js.join "/" segs).
  rewrite split_app_slash. simpl.
  destruct (decide (segs = [])) as [->|Hne].
  - split; [repeat constructor|done].
  - rewrite split_join; [|done|by eapply Forall_impl; [done|]; intros ? (_&_&_&?)].
    split.
    + constructor; [by left|]. eapply Forall_impl; [done|]. by right.
    + rewrite filter_cons_False by (by intros ?). by apply filter_plain.
Qed.

Lemma segmentsOf_ofSegments segs :
  Forall plainSegment segs → segmentsOf (ofSegments segs) = segs.
Proof.
  intros Hall. unfold segmentsOf.
  destruct (split_ofSegments segs Hall) as [H1 H2].
  by rewrite normalizeSegs_plain.
Qed.

Lemma ofSegments_absolute segs :
  ofSegments segs ≠ "" ∧ isAbsolute (ofSegments segs) = true.
Proof. done. Qed.

Lemma resolveLoop_absolute cwd p rest acc :
  p ≠ "" → isAbsolute p = true →
  resolveLoop cwd (p :: rest) acc = (p +:+ "/" +:+ acc, true).
Proof. intros Hp Ha. simpl. by rewrite decide_False, Ha. Qed.

Lemma resolveLoop_relative cwd p rest acc :
  p ≠ "" → isAbsolute p = false →
  resolveLoop cwd (p :: rest) acc = resolveLoop cwd rest (p +:+ "/" +:+ acc).
Proof. intros Hp Ha. simpl. by rewrite decide_False, Ha. Qed.

(** Resolving a resolved directory with plain segments appends them. *)
Lemma resolve_ofSegments cwd root a b :
  Forall plainSegment root → plainSegment a → plainSegment b →
  resolve cwd [ofSegments root; a; b] = ofSegments (root ++ [a; b]).
Proof.
  intros Hroot Ha Hb. unfold resolve.
  pose proof Ha as (Ha0 & _ & _ & Has). pose proof Hb as (Hb0 & _ & _ & Hbs).
  change (rev [ofSegments root; a; b]) with [b; a; ofSegments root].
  rewrite !resolveLoop_relative by auto using plain_not_absolute.
  rewrite resolveLoop_absolute by done.
  cbv beta iota zeta. change (negb true) with false.
  destruct (split_ofSegments root Hroot) as [H1 H2].
  rewrite !split_app_slash, Has, Hbs. change (split "") with [""].
  rewrite normalizeSegs_plain.
  - rewrite !filter_app, H2.
    rewrite (filter_cons_True _ a), (filter_cons_True _ b) by done.
    rewrite (filter_cons_False _ "") by (by intros ?).
    by rewrite !filter_nil.
  - rewrite !Forall_app, !Forall_singleton.
    split_and!; [done|by right|by right|by left].
Qed.

Lemma resolve_resolved cwd segs :
  Forall plainSegment segs → resolve cwd [ofSegments segs] = ofSegments segs.
Proof.
  intros Hall. unfold resolve.
  change (rev [ofSegments segs]) with [ofSegments segs].
  rewrite resolveLoop_absolute by done.
  cbv beta iota zeta. change (negb true) with false.
  destruct (split_ofSegments segs Hall) as [H1 H2].
  rewrite split_app_slash. change (split "") with [""].
  rewrite normalizeSegs_plain.
  - rewrite filter_app, H2.
    rewrite (filter_cons_False _ "") by (by intros ?).
    by rewrite filter_nil, app_nil_r.
  - rewrite Forall_app, Forall_singleton. split; [done|by left].
Qed.

Lemma stripCommon_prefix root rest : stripCommon root (root ++ rest) = ([], rest).
Proof.
  induction root as [|x root IH]; [by destruct rest|].
  simpl. by rewrite decide_True.
Qed.

(** A file below a resolved directory is named, relative to it, by the
    segments that lead from the directory to the file. *)
Lemma relative_below cwd root rest :
  Forall plainSegment root → Forall plainSegment rest → rest ≠ [] →
  relative cwd (ofSegments root) (ofSegments (root ++ rest)) = Js.join "/" rest.
Proof.
  intros Hroot Hrest Hne.
  assert (Forall plainSegment (root ++ rest)) as Hboth by by apply Forall_app.
  assert (ofSegments root ≠ ofSegments (root ++ rest)) as Hdiff.
  { intros Heq. apply (f_equal segmentsOf) in Heq.
    rewrite !segmentsOf_ofSegments in Heq by done.
    rewrite <- (app_nil_r root) in Heq at 1. by apply app_inv_head in Heq. }
  unfold relative. rewrite decide_False by done.
  rewrite !resolve_resolved by done. rewrite decide_False by done.
  rewrite !segmentsOf_ofSegments by done. by rewrite stripCommon_prefix.
Qed.

Lemma split_slash_free s : Forall (λ seg, split seg = [seg]) (split s).
Proof.
  induction s as [|c s IH]; [by repeat constructor|].
  simpl. destruct (isSlash c) eqn:Hc; [by constructor|].
  pose proof (split_nonempty s). destruct (split s) as [|seg rest]; [done|].
  apply Forall_cons in IH as [Hseg Hrest]. constructor; [|done].
  simpl. by rewrite Hc, Hseg.
Qed.

Lemma normalizeSegs_keeps_plain acc segs :
  Forall plainSegment acc → Forall (λ seg, split seg = [seg]) segs →
  Forall plainSegment (normalizeSegs false acc segs).
Proof.
  intros Hacc Hsegs. revert acc Hacc.
  induction Hsegs as [|seg segs Hseg _ IH]; intros acc Hacc; simpl.
  { by apply Forall_rev. }
  destruct (decide (seg = "" ∨ seg = ".")) as [|Hdot]; [by apply IH|].
  destruct (decide (seg = "..")) as [|Hdots].
  - destruct acc as [|top acc]; [by apply IH|].
    apply Forall_cons in Hacc as [Htop Hacc].
    destruct (decide (top = "..")); by apply IH; try constructor.
  - apply IH. constructor; [|done]. split_and!; try done; naive_solver.
Qed.

Lemma resolveLoop_absolute_cwd cwd argsRev acc :
  isAbsolute cwd = true → (resolveLoop cwd argsRev acc).2 = true.
Proof.
  intros Hcwd. revert acc. induction argsRev as [|p rest IH]; intros acc; simpl.
  - destruct (decide (cwd = "")) as [->|]; [done|]. done.
  - destruct (decide (p = "")); [apply IH|].
    destruct (isAbsolute p); [done|apply IH].
Qed.

(** In a process with an absolute working directory, [path.resolve]
    answers an absolute path of plain segments. *)
Lemma resolve_resolved_form cwd args :
  isAbsolute cwd = true →
  ∃ segs, Forall plainSegment segs ∧ resolve cwd args = ofSegments segs.
Proof.
  intros Hcwd. unfold resolve.
  pose proof (resolveLoop_absolute_cwd cwd (rev args) "" Hcwd) as Habs.
  destruct (resolveLoop cwd (rev args) "") as [resolvedPath resolvedAbsolute].
  simpl in Habs. subst resolvedAbsolute. cbv beta iota zeta.
  eexists. split; [|reflexivity].
  apply normalizeSegs_keeps_plain; [done|apply split_slash_free].
Qed.




Lemma list_ascii_app s t :
  list_ascii_of_string (s +:+ t) = list_ascii_of_string s ++ list_ascii_of_string t.
Proof. induction s as [|c s IH]; [done|]. rewrite app_String. simpl. by rewrite IH. Qed.

Lemma slash_free_chars seg :
  split seg = [seg] → Forall (λ c, isSlash c = false) (list_ascii_of_string seg).
Proof.
  induction seg as [|c seg IH]; [constructor|].
  intros [Hc Hseg]%split_String_plain. constructor; auto.
Qed.

Lemma dropWhile_app_all {A} (P : A → bool) l1 l2 :
  Forall (λ x, P x = true) l1 → dropWhile P (l1 ++ l2) = dropWhile P l2.
Proof. induction 1 as [|x l Hx _ IH]; [done|]. simpl. by rewrite Hx. Qed.

(** The directory of a file of a resolved directory is that directory. *)
Lemma dirname_ofSegments init file :
  init ≠ [] → Forall plainSegment init → plainSegment file →
  dirname (ofSegments (init ++ [file])) = ofSegments init.
Proof.
  intros Hne Hinit (Hfile & _ & _ & Hfree).
  unfold ofSegments. rewrite join_app by done.
  change (Js.join "/" [file]) with file.
  change ("/" +:+ ?s) with (String "/" s). cbn [dirname].
  rewrite !list_ascii_app, !rev_app_distr.
  apply slash_free_chars in Hfree.
  destruct (rev (list_ascii_of_string file)) as [|c cs] eqn:Hrev.
  { destruct file; [done|]. apply (f_equal length) in Hrev.
    rewrite length_rev in Hrev. done. }
  assert (Forall (λ c, isSlash c = false) (c :: cs)) as Hcs.
  { rewrite <- Hrev. by apply Forall_rev. }
  pose proof Hcs as [Hc _]%Forall_cons.
  rewrite <- !app_assoc. cbn [app dropWhile]. rewrite Hc.
  change (c :: cs ++ ?l) with ((c :: cs) ++ l).
  rewrite dropWhile_app_all
    by (eapply Forall_impl; [exact Hcs|]; by intros ? ->).
  cbn [list_ascii_of_string rev app dropWhile isSlash negb andb].
  rewrite bool_decide_false.
  - by rewrite rev_involutive, string_of_list_ascii_of_string.
  - destruct init as [|seg init]; [done|].
    apply Forall_cons in Hinit as [(Hseg & _) _].
    destruct seg as [|d seg]; [done|].
    intros Hnil. apply (f_equal length) in Hnil. rewrite length_rev in Hnil.
    destruct init; simpl in Hnil; [done|].
    by rewrite app_String in Hnil.
Qed.

End PathFacts.

(** ** The artifact-bundle engine *)

Local Arguments GradleUserHome.getBundleMetaFile : simpl never.
Local Arguments Path.resolve : simpl never.
Local Arguments Path.relative : simpl never.
Local Arguments Js.trim : simpl never.
Local Arguments GradleUserHome.matchedFiles : simpl never.
Local Arguments GradleUserHome.createCacheKey : simpl never.
Local Arguments GradleUserHome.tryDelete : simpl never.

(** Runs the effects of a computation as far as the state is known. *)
Ltac run_eff :=
  cbv beta iota zeta delta
    [Eff.bind Eff.gets Eff.ret Eff.modify Eff.throw Eff.settled
     GradleUserHome.existsSync GradleUserHome.readFileSync
     GradleUserHome.writeFileSync GradleUserHome.emit GradleUserHome.debug
     GradleUserHome.info GradleUserHome.glob
     GradleUserHome.restoreCacheRequest GradleUserHome.restoreCacheReply
     GradleUserHome.restoreCache GradleUserHome.saveCache
     GradleUserHome.setFiles GradleUserHome.setRemote];
  simpl.

Section EngineFacts.

Import GradleUserHome.

Variable globMatch : string → string → bool.
Variable getCacheKeyPrefix : gmap string string → string.
Variable hashFileNames : list string → string.
Variable directoryExists : string → World → bool.

Local Abbreviation matchedFiles := (GradleUserHome.matchedFiles globMatch).
Local Abbreviation createCacheKey :=
  (GradleUserHome.createCacheKey getCacheKeyPrefix hashFileNames).
Local Abbreviation cacheKeyFor :=
  (GradleUserHome.cacheKeyFor getCacheKeyPrefix hashFileNames).
Local Abbreviation saveArtifactBundle :=
  (GradleUserHome.saveArtifactBundle globMatch getCacheKeyPrefix hashFileNames
     directoryExists).

Lemma lookup_deleteAll l (m : gmap string string) f :
  deleteAll l m !! f = if decide (f ∈ l) then None else m !! f.
Proof.
  revert m. induction l as [|x l IH]; intros m; [done|].
  unfold deleteAll in *. simpl. rewrite IH.
  destruct (decide (f ∈ l)) as [Hin|Hnin].
  - by rewrite decide_True by by right.
  - destruct (decide (f = x)) as [->|Hne].
    + by rewrite lookup_delete_eq, decide_True by left.
    + rewrite lookup_delete_ne by done.
      by rewrite decide_False by by intros [?|?]%elem_of_cons.
Qed.

Lemma matchedFiles_spec pattern w f :
  f ∈ matchedFiles pattern w ↔ globMatch pattern f = true ∧ is_Some (files w !! f).
Proof.
  unfold GradleUserHome.matchedFiles.
  rewrite list_elem_of_filter, elem_of_elements, elem_of_dom.
  by rewrite Is_true_true.
Qed.

(** [tryDelete] on every file of a list: nothing is thrown, the files
    are gone, and only warnings are printed. *)
Lemma forEach_tryDelete l w :
  ∃ ws, Forall (λ e, isWarning e = true) ws
    ∧ Eff.forEach tryDelete l w
      = (Eff.Returned tt,
         mkWorld (process w) (deleteAll l (files w)) (remote w) (log w ++ ws)).
Proof.
  revert w. induction l as [|x l IH]; intros w.
  { exists []. split; [done|]. destruct w. simpl. by rewrite app_nil_r. }
  simpl. unfold Eff.bind at 1.
  assert (∃ ws, Forall (λ e, isWarning e = true) ws
    ∧ tryDelete x w = (Eff.Returned tt,
        mkWorld (process w) (delete x (files w)) (remote w) (log w ++ ws)))
    as (ws1 & Hws1 & ->).
  { unfold tryDelete, Eff.bind, existsSync, Eff.gets.
    case_bool_decide as Hx.
    - exists []. split; [done|]. unfold Eff.modify, setFiles. simpl.
      by rewrite app_nil_r.
    - exists [Warning ("Failed to delete " +:+ x)]. split; [by repeat constructor|].
      unfold emit, Eff.modify. do 3 f_equal.
      symmetry. apply delete_id. by apply eq_None_not_Some. }
  destruct (IH (mkWorld (process w) (delete x (files w)) (remote w) (log w ++ ws1)))
    as (ws2 & Hws2 & ->).
  exists (ws1 ++ ws2). split; [by apply Forall_app|].
  simpl. by rewrite app_assoc.
Qed.

Lemma uploads_warnings ws :
  Forall (λ e, isWarning e = true) ws → uploads ws = [].
Proof.
  induction 1 as [|e ws He _ IH]; [done|].
  unfold uploads in *. rewrite filter_cons_False; [exact IH|].
  destruct e; simplify_eq/=; by intros [].
Qed.

Lemma performed_app {A} (m : Eff.M World A) w o p f r l :
  m w = (o, mkWorld p f r (log w ++ l)) → performed m w = l.
Proof. intros H. unfold performed. rewrite H. simpl. by rewrite drop_app_length. Qed.

Lemma createCacheKey_run this bundle bundleFiles w :
  createCacheKey this bundle bundleFiles w
  = (Eff.Returned
       (getCacheKeyPrefix (env (process w)) +:+ bundle +:+ "-"
        +:+ hashFileNames
              ((λ x, Path.relative (cwd (process w)) (gradleUserHome this) x)
                 <$> bundleFiles)),
     mkWorld (process w) (files w) (remote w)
       (log w ++ [Debug ("Generating cache key for " +:+ bundle +:+ " from files: "
                         +:+ Js.join ","
                               ((λ x, Path.relative (cwd (process w)) (gradleUserHome this) x)
                                  <$> bundleFiles))])).
Proof. reflexivity. Qed.

Lemma storedKey_Some w mf content :
  files w !! mf = Some content → storedKey w mf = Js.trim content.
Proof. unfold storedKey. by intros ->. Qed.

(** The skip branch: the stored key is the current one. *)
Lemma save_unchanged this bundle pattern w :
  let mf := getBundleMetaFile (process w) this bundle in
  let matched := matchedFiles pattern w in
  let key := cacheKeyFor this bundle matched w in
  matched ≠ [] → storedKey w mf = key →
  ∃ ev ws,
    saveArtifactBundle this bundle pattern w
    = (Eff.Returned tt,
       mkWorld (process w) (deleteAll matched (files w)) (remote w)
         (log w ++ ev ++ ws))
    ∧ uploads ev = [] ∧ Forall (λ e, isWarning e = true) ws.
Proof.
  intros mf matched key Hne Hkey.
  unfold GradleUserHome.saveArtifactBundle. run_eff. fold matched mf.
  rewrite decide_False by (by destruct matched).
  unfold storedKey in Hkey. fold mf in Hkey.
  unfold key, GradleUserHome.cacheKeyFor in Hkey.
  rewrite createCacheKey_run in Hkey. simpl in Hkey.
  destruct (files w !! mf) as [content|] eqn:Hmf.
  - rewrite bool_decide_true by done. rewrite Hmf. simpl.
    rewrite decide_True by done. simpl.
    match goal with |- context [Eff.forEach tryDelete matched ?w'] =>
      destruct (forEach_tryDelete matched w') as (ws & Hws & ->) end.
    eexists [_; _], ws. split_and!; [simpl; by rewrite <- !app_assoc|done..].
  - rewrite bool_decide_false by (by intros [? ?]). simpl.
    rewrite decide_True by done. simpl.
    match goal with |- context [Eff.forEach tryDelete matched ?w'] =>
      destruct (forEach_tryDelete matched w') as (ws & Hws & ->) end.
    eexists [_; _], ws. split_and!; [simpl; by rewrite <- !app_assoc|done..].
Qed.

(** The upload branch: the stored key differs from the current one.
    The upload is made; then the meta-file is written and the matched
    files are deleted, unless the write throws. *)
Lemma save_changed this bundle pattern w :
  let mf := getBundleMetaFile (process w) this bundle in
  let matched := matchedFiles pattern w in
  let key := cacheKeyFor this bundle matched w in
  matched ≠ [] → storedKey w mf ≠ key →
  ∃ ev,
    let rem :=
      match remote w !! key with
      | Some _ => remote w
      | None =>
          <[key := Archive (filter (λ kv, existsb (λ p, globMatch p kv.1) [pattern])
                              (files w))]> (remote w)
      end in
    let w1 := mkWorld (process w) (files w) rem (log w ++ ev) in
    uploads ev = [SaveCacheCall [pattern] key]
    ∧ if directoryExists (Path.dirname mf) w1
      then
        ∃ ws,
          saveArtifactBundle this bundle pattern w
          = (Eff.Returned tt,
             mkWorld (process w) (deleteAll matched (<[mf := key]> (files w))) rem
               (log w ++ ev ++ ws))
          ∧ Forall (λ e, isWarning e = true) ws
      else
        saveArtifactBundle this bundle pattern w
        = (Eff.Thrown ("ENOENT: no such file or directory, open '" +:+ mf +:+ "'"), w1).
Proof.
  intros mf matched key Hne Hkey.
  set (relativeFiles :=
         (λ x, Path.relative (cwd (process w)) (gradleUserHome this) x) <$> matched).
  exists ([Debug ("Generating cache key for " +:+ bundle +:+ " from files: "
                  +:+ Js.join "," relativeFiles);
           Info ("Caching " +:+ bundle +:+ " with cache key: " +:+ key);
           SaveCacheCall [pattern] key]
          ++ match remote w !! key with
             | Some _ => [Warning ("Failed to save cache entry " +:+ key)]
             | None => []
             end
          ++ [Debug ("Writing cache metafile: " +:+ mf)]).
  split; [by destruct (remote w !! key)|].
  unfold GradleUserHome.saveArtifactBundle. run_eff. fold matched mf.
  rewrite decide_False by (by destruct matched).
  unfold storedKey in Hkey. fold mf in Hkey.
  unfold key, GradleUserHome.cacheKeyFor in *.
  rewrite createCacheKey_run in *. simpl in *. fold relativeFiles in Hkey |- *.
  destruct (files w !! mf) as [content|] eqn:Hmf.
  - rewrite bool_decide_true by done. rewrite Hmf. simpl.
    rewrite decide_False by done. simpl.
    destruct (remote w !! _) as [entry|] eqn:Hrem; simpl;
      rewrite <- !app_assoc; simpl;
      (destruct (directoryExists _ _) eqn:Hdir; simpl; [|done]);
      match goal with |- context [Eff.forEach tryDelete matched ?w'] =>
        destruct (forEach_tryDelete matched w') as (ws & Hws & ->) end;
      exists ws; simpl; by rewrite <- !app_assoc.
  - rewrite bool_decide_false by (by intros [? ?]). simpl.
    rewrite decide_False by done. simpl.
    destruct (remote w !! _) as [entry|] eqn:Hrem; simpl;
      rewrite <- !app_assoc; simpl;
      (destruct (directoryExists _ _) eqn:Hdir; simpl; [|done]);
      match goal with |- context [Eff.forEach tryDelete matched ?w'] =>
        destruct (forEach_tryDelete matched w') as (ws & Hws & ->) end;
      exists ws; simpl; by rewrite <- !app_assoc.
Qed.

Lemma uploads_app l1 l2 : uploads (l1 ++ l2) = uploads l1 ++ uploads l2.
Proof. apply filter_app. Qed.

Lemma cacheKeyFor_process this bundle bundleFiles w w' :
  process w' = process w →
  cacheKeyFor this bundle bundleFiles w' = cacheKeyFor this bundle bundleFiles w.
Proof.
  intros Hp. unfold GradleUserHome.cacheKeyFor.
  rewrite !createCacheKey_run. simpl. by rewrite Hp.
Qed.

(** The upload branch when the save returns. *)
Lemma save_changed_returned this bundle pattern w :
  let mf := getBundleMetaFile (process w) this bundle in
  let matched := matchedFiles pattern w in
  let key := cacheKeyFor this bundle matched w in
  matched ≠ [] → storedKey w mf ≠ key →
  (saveArtifactBundle this bundle pattern w).1 = Eff.Returned tt →
  ∃ rem l,
    saveArtifactBundle this bundle pattern w
    = (Eff.Returned tt,
       mkWorld (process w) (deleteAll matched (<[mf := key]> (files w))) rem l).
Proof.
  intros mf matched key Hne Hkey Hreturned.
  destruct (save_changed this bundle pattern w Hne Hkey) as (ev & _ & Hrun).
  cbv zeta in Hrun. fold mf matched key in Hrun.
  destruct (directoryExists _ _).
  - destruct Hrun as (ws & Hrun & _). by eexists _, _.
  - by rewrite Hrun in Hreturned.
Qed.

(** The upload branch uploads once, whether the write that follows
    succeeds or not. *)
Lemma save_changed_uploads this bundle pattern w :
  let mf := getBundleMetaFile (process w) this bundle in
  let matched := matchedFiles pattern w in
  let key := cacheKeyFor this bundle matched w in
  matched ≠ [] → storedKey w mf ≠ key →
  uploads (performed (saveArtifactBundle this bundle pattern) w)
  = [SaveCacheCall [pattern] key].
Proof.
  intros mf matched key Hne Hkey.
  destruct (save_changed this bundle pattern w Hne Hkey) as (ev & Hev & Hrun).
  cbv zeta in Hrun. fold mf matched key in Hrun, Hev.
  destruct (directoryExists _ _).
  - destruct Hrun as (ws & Hrun & Hws). rewrite (performed_app _ _ _ _ _ _ _ Hrun).
    by rewrite uploads_app, Hev, (uploads_warnings ws Hws).
  - by rewrite (performed_app _ _ _ _ _ _ _ Hrun).
Qed.






(** C3.  [createCacheKey] returns the key prefix, the bundle name, a
    hyphen and the hash of the names of the files relative to
    [gradleUserHome], in this order; the key is the same in every world
    of the same process, whatever the content of the files; and for
    files below a resolved [gradleUserHome] the hashed names are the
    path segments that lead from it to each file, joined by slashes. *)
Theorem cache_key_form this bundle bundleFiles w :
  (createCacheKey this bundle bundleFiles w).1
  = Eff.Returned
      (getCacheKeyPrefix (env (process w)) +:+ bundle +:+ "-"
       +:+ hashFileNames
             ((λ x, Path.relative (cwd (process w)) (gradleUserHome this) x)
                <$> bundleFiles))
  ∧ (∀ fs rem l,
       (createCacheKey this bundle bundleFiles (mkWorld (process w) fs rem l)).1
       = (createCacheKey this bundle bundleFiles w).1)
  ∧ (∀ root rels,
       gradleUserHome this = Path.ofSegments root →
       Forall Path.plainSegment root →
       Forall (λ rel, rel ≠ [] ∧ Forall Path.plainSegment rel) rels →
       bundleFiles = (λ rel, Path.ofSegments (root ++ rel)) <$> rels →
       (createCacheKey this bundle bundleFiles w).1
       = Eff.Returned
           (getCacheKeyPrefix (env (process w)) +:+ bundle +:+ "-"
            +:+ hashFileNames (Js.join "/" <$> rels))).
Proof.
  rewrite createCacheKey_run. simpl. split_and!; [done|done|].
  intros root rels Hhome Hroot Hrels ->. do 5 f_equal.
  rewrite <- list_fmap_compose. apply Forall_fmap_ext_1.
  eapply Forall_impl; [exact Hrels|]. intros rel [Hne Hrel]. simpl.
  rewrite Hhome. by apply relative_below.
Qed.

(** C8.  Two evaluations of [createCacheKey] on the same bundle name and
    the same sequence of paths, in worlds of processes with the same key
    prefix and the same working directory and for caches with the same
    [gradleUserHome], return the same key, whatever else differs between
    the two worlds. *)
Theorem cache_key_deterministic this1 this2 bundle bundleFiles w1 w2 :
  gradleUserHome this1 = gradleUserHome this2 →
  cwd (process w1) = cwd (process w2) →
  getCacheKeyPrefix (env (process w1)) = getCacheKeyPrefix (env (process w2)) →
  (createCacheKey this1 bundle bundleFiles w1).1
  = (createCacheKey this2 bundle bundleFiles w2).1.
Proof.
  intros Hhome Hcwd Hprefix. rewrite !createCacheKey_run. simpl.
  by rewrite Hhome, Hcwd, Hprefix.
Qed.

Lemma metafile_name_plain name :
  Path.split name = [name] →
  Path.plainSegment (".gradle-build-action." +:+ name +:+ ".cache").
Proof.
  intros Hname. split_and!; try by intros [=].
  apply (split_app_plain ".gradle-build-action."); [done|].
  by apply split_app_plain.
Qed.


(** C10.  A cache key without leading or trailing white space that
    [saveArtifactBundle] has written to the meta-file is the key that
    both engines read back from it: [saveArtifactBundle] as the
    previously restored key and [restoreArtifactBundle] as the key it
    asks the cache service for.  A meta-file that holds the key
    surrounded by white space still compares equal to the regenerated
    key, and nothing is uploaded. *)
Theorem metafile_key_round_trip this bundle pattern w lpad rpad :
  let mf := getBundleMetaFile (process w) this bundle in
  let matched := matchedFiles pattern w in
  let key := cacheKeyFor this bundle matched w in
  let r := saveArtifactBundle this bundle pattern w in
  Js.startsWithSpace key = false → Js.endsWithSpace key = false →
  Js.allWhiteSpace lpad = true → Js.allWhiteSpace rpad = true →
  matched ≠ [] →
  (storedKey w mf ≠ key → mf ∉ matched → r.1 = Eff.Returned tt →
     files r.2 !! mf = Some key
     ∧ storedKey r.2 mf = key
     ∧ (restoreArtifactBundleStart this bundle pattern r.2).1
       = Eff.Returned (Some key))
  ∧ (files w !! mf = Some (lpad +:+ key +:+ rpad) →
     storedKey w mf = key
     ∧ (restoreArtifactBundleStart this bundle pattern w).1
       = Eff.Returned (Some key)
     ∧ uploads (performed (saveArtifactBundle this bundle pattern) w) = []).
Proof.
  intros mf matched key r Hs He Hl Hr Hne. split.
  - intros Hdiff Hnot Hreturned.
    destruct (save_changed_returned this bundle pattern w Hne Hdiff Hreturned)
      as (rem & l & Hrun).
    fold mf matched key in Hrun. unfold r. rewrite Hrun. simpl.
    assert (deleteAll matched (<[mf:=key]> (files w)) !! mf = Some key) as Hmf.
    { by rewrite lookup_deleteAll, decide_False, lookup_insert_eq. }
    split_and!; [done|..].
    + unfold storedKey. simpl. rewrite Hmf. by apply trim_id.
    + unfold restoreArtifactBundleStart. run_eff. fold mf.
      rewrite bool_decide_true by (by rewrite Hmf). simpl. rewrite Hmf. simpl.
      by rewrite trim_id.
  - intros Hmf.
    assert (storedKey w mf = key) as Hkey.
    { rewrite (storedKey_Some _ _ _ Hmf). by apply trim_padded. }
    split_and!; [done|..].
    + unfold restoreArtifactBundleStart. run_eff. fold mf.
      rewrite bool_decide_true by (by rewrite Hmf). simpl. rewrite Hmf. simpl.
      by rewrite trim_padded.
    + destruct (save_unchanged this bundle pattern w Hne Hkey)
        as (ev & ws & Hrun & Hev & Hws).
      rewrite (performed_app _ _ _ _ _ _ _ Hrun).
      by rewrite uploads_app, Hev, (uploads_warnings ws Hws).
Qed.

(** The cache object that the constructor builds has a resolved
    [gradleUserHome]. *)
Lemma constructor_resolved isCacheDebuggingEnabled proc rootDir :
  Path.isAbsolute (cwd proc) = true →
  ∃ segs,
    Forall Path.plainSegment segs
    ∧ gradleUserHome (constructor isCacheDebuggingEnabled proc rootDir)
      = Path.ofSegments segs.
Proof.
  intros Hcwd. unfold constructor, determineGradleUserHome. simpl.
  destruct (Js.truthyOpt _); by apply resolve_resolved_form.
Qed.

(** C6.  When the meta-file of a bundle does not exist,
    [restoreArtifactBundle] returns without error, makes no call to
    [restoreCache], leaves the file system and the cache service as they
    are, and reports the outcome with the single line
    "No metafile found to restore ..." *)
Theorem restore_without_metafile this bundle artifactPath w :
  files w !! getBundleMetaFile (process w) this bundle = None →
  restoreArtifactBundle this bundle artifactPath w
  = (Eff.Returned tt,
     mkWorld (process w) (files w) (remote w)
       (log w ++ [Debug ("No metafile found to restore " +:+ bundle +:+ ": "
                         +:+ getBundleMetaFile (process w) this bundle)]))
  ∧ restoreCalls (performed (restoreArtifactBundle this bundle artifactPath) w) = [].
Proof.
  intros Hnone.
  assert (restoreArtifactBundle this bundle artifactPath w
    = (Eff.Returned tt,
       mkWorld (process w) (files w) (remote w)
         (log w ++ [Debug ("No metafile found to restore " +:+ bundle +:+ ": "
                           +:+ getBundleMetaFile (process w) this bundle)]))) as Hrun.
  { unfold restoreArtifactBundle, restoreArtifactBundleStart. run_eff.
    by rewrite bool_decide_false by (rewrite Hnone; by intros [? ?]). }
  split; [done|]. by rewrite (performed_app _ _ _ _ _ _ _ Hrun).
Qed.

(** C5.  When the glob of a bundle matches no file, [saveArtifactBundle]
    returns without error, makes no call to [saveCache], leaves the cache
    service as it is, and the file system afterwards is the one before
    without the meta-file of the bundle: no other file is deleted and no
    meta-file is left. *)
Theorem save_empty_bundle this bundle pattern w :
  matchedFiles pattern w = [] →
  let r := saveArtifactBundle this bundle pattern w in
  let bundleMetaFile := getBundleMetaFile (process w) this bundle in
  r.1 = Eff.Returned tt
  ∧ uploads (performed (saveArtifactBundle this bundle pattern) w) = []
  ∧ remote r.2 = remote w
  ∧ files r.2 = delete bundleMetaFile (files w)
  ∧ files r.2 !! bundleMetaFile = None.
Proof.
  intros Hempty r mf.
  assert (r = (Eff.Returned tt,
               mkWorld (process w) (delete mf (files w)) (remote w)
                 (log w ++ [Debug ("No files found to cache for " +:+ bundle)]))) as Hr.
  { unfold r, GradleUserHome.saveArtifactBundle. run_eff.
    rewrite Hempty. simpl. unfold tryDelete. run_eff.
    fold mf. case_bool_decide as Hmf; simpl.
    - by rewrite bool_decide_true by done.
    - do 3 f_equal. symmetry. apply delete_id. by apply eq_None_not_Some. }
  rewrite (performed_app _ _ _ _ _ _ _ Hr), Hr. simpl.
  split_and!; try done. apply lookup_delete_eq.
Qed.

End EngineFacts.

Section RestoreFacts.

Import GradleUserHome.

Variable parseBundles : string → Eff.Outcome (list (string * string)).

Local Abbreviation restoreArtifactBundles :=
  (GradleUserHome.restoreArtifactBundles parseBundles).
Local Abbreviation getArtifactBundles :=
  (GradleUserHome.getArtifactBundles parseBundles).

(** *** Restoring a batch of bundles *)

Lemma restoreArtifactBundleStart_run this bundle pattern w :
  let mf := getBundleMetaFile (process w) this bundle in
  restoreArtifactBundleStart this bundle pattern w
  = match files w !! mf with
    | Some content =>
        (Eff.Returned (Some (Js.trim content)),
         mkWorld (process w) (files w) (remote w)
           (log w ++ [RestoreCacheCall [pattern] (Js.trim content)]))
    | None =>
        (Eff.Returned None,
         mkWorld (process w) (files w) (remote w)
           (log w ++ [Debug ("No metafile found to restore " +:+ bundle +:+ ": " +:+ mf)]))
    end.
Proof.
  intros mf. unfold restoreArtifactBundleStart. run_eff. fold mf.
  destruct (files w !! mf) as [content|] eqn:Hmf.
  - rewrite bool_decide_true by done. simpl. by rewrite Hmf.
  - by rewrite bool_decide_false by (by intros [? ?]).
Qed.







Lemma forEach_app {S A} (f : A → Eff.M S unit) l1 l2 s :
  Eff.forEach f (l1 ++ l2) s
  = Eff.bind (Eff.forEach f l1) (λ _, Eff.forEach f l2) s.
Proof.
  revert s. induction l1 as [|x l1 IH]; intros s; [done|].
  simpl. unfold Eff.bind. destruct (f x s) as [[[]|e] s']; [|done].
  rewrite IH. done.
Qed.










End RestoreFacts.

(** ** The entry points *)

Section CachesFacts.

Import Caches.

Context {Backend : Type}.
Variable isCacheDisabled : gmap string string → bool.
Variable isCacheReadOnly : gmap string string → bool.
Variable gradleStateCacheInit : string → Backend → Eff.Outcome unit * Backend.
Variable gradleStateCacheRestore : string → Backend → Eff.Outcome string * Backend.
Variable gradleStateCacheSave : string → string → Backend → Eff.Outcome string * Backend.

Local Abbreviation restore :=
  (Caches.restore isCacheDisabled gradleStateCacheInit gradleStateCacheRestore).
Local Abbreviation save :=
  (Caches.save isCacheDisabled isCacheReadOnly gradleStateCacheSave).
Local Abbreviation run :=
  (Caches.run isCacheDisabled isCacheReadOnly gradleStateCacheInit
     gradleStateCacheRestore gradleStateCacheSave).
Local Abbreviation runStep :=
  (Caches.runStep isCacheDisabled isCacheReadOnly gradleStateCacheInit
     gradleStateCacheRestore gradleStateCacheSave).

Ltac run_job :=
  cbv beta iota zeta delta
    [Caches.restore Caches.save shouldRestoreCaches shouldSaveCaches
     Eff.bind Eff.gets Eff.ret Eff.modify Eff.finally Caches.emit Caches.info
     processEnv getState saveState exportVariable group callBackend];
  simpl.

Lemma restore_noop gradleUserHome (j : @Job Backend) :
  Js.truthyOpt (env j !! CACHE_RESTORED_VAR) = true →
  ∃ msg, onlyPrints (restore gradleUserHome j) tt j msg.
Proof.
  intros Hset. unfold onlyPrints. run_job.
  destruct (isCacheDisabled (env j)); simpl; [by eexists|].
  rewrite Hset. simpl. by eexists.
Qed.

Lemma save_noop (j : @Job Backend) :
  Js.truthy (Js.orElse (env j !! ("STATE_" +:+ CACHE_RESTORED_VAR)) "") = false →
  ∃ msg, onlyPrints (save j) tt j msg.
Proof.
  intros Hunset. unfold onlyPrints. run_job.
  destruct (isCacheDisabled (env j)); simpl; [by eexists|].
  rewrite Hunset. simpl. by eexists.
Qed.

Lemma hasRestored_app (l1 l2 : list Event) :
  hasRestored (l1 ++ l2) = hasRestored l1 || hasRestored l2.
Proof. apply existsb_app. Qed.

Lemma lifecycleOk_app restored (l1 l2 : list Event) :
  lifecycleOk restored (l1 ++ l2)
  = lifecycleOk restored l1 && lifecycleOk (restored || hasRestored l1) l2.
Proof.
  revert restored. induction l1 as [|e l1 IH]; intros restored; simpl.
  { by rewrite orb_false_r. }
  destruct (isCompletedRestore e); simpl.
  - rewrite IH. simpl. rewrite orb_true_r. by rewrite andb_assoc.
  - destruct (isSaveWork e); rewrite IH; [by rewrite andb_assoc|done].
Qed.

Lemma lifecycleOk_count restored (out : list Event) :
  lifecycleOk restored out = true →
  length (filter (λ e, isCompletedRestore e) out) ≤ (if restored then 0 else 1).
Proof.
  revert restored. induction out as [|e out IH]; intros restored; simpl.
  { intros _. destruct restored; lia. }
  destruct (isCompletedRestore e) eqn:He.
  - intros [Hr Hrest]%andb_prop. destruct restored; [done|].
    rewrite filter_cons_True by (simpl; by rewrite He).
    specialize (IH true Hrest). simpl in *. lia.
  - rewrite filter_cons_False by (simpl; rewrite He; by intros []).
    destruct (isSaveWork e); [intros [_ H]%andb_prop|intros H]; by apply IH.
Qed.

Lemma lifecycleOk_guard restored (pre post : list Event) e :
  lifecycleOk restored (pre ++ e :: post) = true →
  isSaveWork e = true →
  restored = true ∨ ∃ gradleUserHome, StateCacheRestore gradleUserHome true ∈ pre.
Proof.
  rewrite lifecycleOk_app. intros [_ H]%andb_prop Hsave.
  simpl in H. assert (isCompletedRestore e = false) as He by by destruct e.
  rewrite He, Hsave in H. apply andb_prop in H as [H _].
  apply orb_prop in H as [?|H]; [by left|right].
  apply existsb_exists in H as (e' & Hin & He').
  destruct e' as [| | | |h [|]| |]; try done.
  exists h. by apply list_elem_of_In.
Qed.

Lemma restored_var_not_state (m e : gmap string string) :
  (kmap (String.app "STATE_") m ∪ e) !! CACHE_RESTORED_VAR = e !! CACHE_RESTORED_VAR.
Proof.
  apply lookup_union_r, lookup_kmap_None; [apply _|].
  intros i Hi. discriminate Hi.
Qed.

Lemma restored_state_lookup (m e : gmap string string) :
  is_Some ((kmap (String.app "STATE_") m ∪ e) !! ("STATE_" +:+ CACHE_RESTORED_VAR)) →
  is_Some (m !! CACHE_RESTORED_VAR) ∨ is_Some (e !! ("STATE_" +:+ CACHE_RESTORED_VAR)).
Proof.
  rewrite lookup_union, (lookup_kmap (String.app "STATE_")).
  destruct (m !! CACHE_RESTORED_VAR); [by left; eexists|].
  rewrite (left_id None _). by right.
Qed.

Lemma truthy_orElse_Some (o : option string) :
  Js.truthy (Js.orElse o "") = true → is_Some o.
Proof. destruct o; [by eexists|done]. Qed.

Lemma restore_preserves gradleUserHome (j : @Job Backend) :
  lifecycleInv j → lifecycleInv (restore gradleUserHome j).2.
Proof.
  intros (Hok & Hmark & Hvar). unfold lifecycleInv. run_job.
  destruct (isCacheDisabled (env j)); simpl.
  { rewrite lifecycleOk_app, hasRestored_app, Hok. simpl.
    rewrite orb_false_r. by split_and!. }
  destruct (Js.truthyOpt (env j !! CACHE_RESTORED_VAR)) eqn:Hset; simpl.
  { rewrite lifecycleOk_app, hasRestored_app, Hok. simpl.
    rewrite orb_false_r. by split_and!. }
  assert (hasRestored (output j) = false) as Hnot.
  { destruct (hasRestored (output j)); [|done].
    specialize (Hvar eq_refl). congruence. }
  assert (¬ (is_Some (savedState j !! CACHE_RESTORED_VAR)
             ∨ is_Some (env j !! ("STATE_" +:+ CACHE_RESTORED_VAR)))) as Hnomark.
  { intros H. apply Hmark in H. by rewrite Hnot in H. }
  destruct (gradleStateCacheInit gradleUserHome (backend j)) as [[[]|e] b1]; simpl.
  2:{ rewrite lifecycleOk_app, hasRestored_app, Hok, Hnot. simpl.
      split_and!; [done|by intros ?%Hnomark|done]. }
  destruct (gradleStateCacheRestore gradleUserHome b1) as [[listener|e] b2]; simpl.
  - rewrite <- !app_assoc. simpl.
    rewrite lifecycleOk_app, hasRestored_app, Hok, Hnot. simpl.
    split_and!; [done|done|]. intros _. by rewrite lookup_insert_eq.
  - rewrite <- !app_assoc. simpl.
    rewrite lifecycleOk_app, hasRestored_app, Hok, Hnot. simpl.
    split_and!; [done| |done].
    rewrite lookup_insert_ne by done. by intros ?%Hnomark.
Qed.

Lemma save_preserves (j : @Job Backend) :
  lifecycleInv j → lifecycleInv (save (withSavedState j)).2.
Proof.
  intros (Hok & Hmark & Hvar). unfold lifecycleInv. run_job.
  assert (is_Some ((kmap (String.app "STATE_") (savedState j) ∪ env j)
                     !! ("STATE_" +:+ CACHE_RESTORED_VAR)) →
          hasRestored (output j) = true) as Hmark'.
  { by intros ?%restored_state_lookup%Hmark. }
  destruct (isCacheDisabled _); simpl.
  { rewrite lifecycleOk_app, hasRestored_app, Hok, restored_var_not_state. simpl.
    rewrite orb_false_r. split_and!; [done| |done].
    intros [?|?]; [apply Hmark; by left|by apply Hmark']. }
  destruct (Js.truthy (Js.orElse _ "")) eqn:Hstate; simpl.
  2:{ rewrite lifecycleOk_app, hasRestored_app, Hok, restored_var_not_state. simpl.
      rewrite orb_false_r. split_and!; [done| |done].
      intros [?|?]; [apply Hmark; by left|by apply Hmark']. }
  apply truthy_orElse_Some, Hmark' in Hstate.
  destruct (isCacheReadOnly _); simpl.
  { rewrite <- !app_assoc. simpl.
    rewrite lifecycleOk_app, hasRestored_app, Hok, Hstate, restored_var_not_state.
    simpl. split_and!; [done|done|by intros _; apply Hvar]. }
  destruct (gradleStateCacheSave _ _ _) as [[listener|e] b1]; simpl;
    rewrite <- !app_assoc; simpl;
    rewrite lifecycleOk_app, hasRestored_app, Hok, Hstate, restored_var_not_state;
    simpl; (split_and!; [done|done|by intros _; apply Hvar]).
Qed.

Lemma run_preserves steps (j : @Job Backend) :
  lifecycleInv j → lifecycleInv (run steps j).
Proof.
  revert j. induction steps as [|st steps IH]; intros j Hj; [done|].
  simpl. apply IH. destruct st; simpl.
  - by apply restore_preserves.
  - by apply save_preserves.
Qed.

Lemma fresh_lifecycleInv (j : @Job Backend) : freshJob j → lifecycleInv j.
Proof.
  intros (Hout & Hsaved & Hstate). unfold lifecycleInv. rewrite Hout, Hsaved, Hstate.
  split_and!; [done| |done]. by intros [[? ?]|[? ?]].
Qed.

(** C9.  [restore] only prints a message when the restored variable is
    already set to a non-empty value in the environment, and [save] only
    prints a message unless the restored state of the step is set; and in
    every sequence of main and post steps of a job in which the action
    has not run yet, at most one restore completes and every piece of
    work of [save] comes after a completed restore. *)
Theorem restore_save_lifecycle_guard (j : @Job Backend) gradleUserHome steps :
  (Js.truthyOpt (env j !! CACHE_RESTORED_VAR) = true →
   ∃ msg, onlyPrints (restore gradleUserHome j) tt j msg)
  ∧ (Js.truthy (Js.orElse (env j !! ("STATE_" +:+ CACHE_RESTORED_VAR)) "") = false →
     ∃ msg, onlyPrints (save j) tt j msg)
  ∧ (freshJob j →
     length (filter (λ e, isCompletedRestore e) (output (run steps j))) ≤ 1
     ∧ ∀ pre e post,
         output (run steps j) = pre ++ e :: post → isSaveWork e = true →
         ∃ home, StateCacheRestore home true ∈ pre).
Proof.
  split_and!; [apply restore_noop|apply save_noop|].
  intros Hfresh.
  destruct (run_preserves steps j (fresh_lifecycleInv j Hfresh)) as (Hok & _).
  split; [by apply (lifecycleOk_count false)|].
  intros pre e post Hout Hsave. rewrite Hout in Hok.
  by destruct (lifecycleOk_guard false pre post e Hok Hsave).
Qed.

End CachesFacts.

(** ** The properties on explicit inputs *)

Section Instances.

Import GradleUserHome.

Local Abbreviation saveArtifactBundle :=
  (GradleUserHome.saveArtifactBundle Sample.globMatch Sample.getCacheKeyPrefix
     Sample.hashFileNames Sample.directoryExists).
Local Abbreviation matchedFiles := (GradleUserHome.matchedFiles Sample.globMatch).
Local Abbreviation createCacheKey :=
  (GradleUserHome.createCacheKey Sample.getCacheKeyPrefix Sample.hashFileNames).
Local Abbreviation restoreArtifactBundles :=
  (GradleUserHome.restoreArtifactBundles Sample.parseBundles).

Example trim_example : Js.trim (String "032" "v1-a-0f" +:+ String "010" "") = "v1-a-0f".
Proof. reflexivity. Qed.

Example resolve_example :
  Path.resolve "/work" ["/home/u/.gradle"; "caches"; ".x.cache"]
  = "/home/u/.gradle/caches/.x.cache".
Proof. reflexivity. Qed.

Example resolve_dots_example :
  Path.resolve "/work" ["../a//b/./c"; "../d"] = "/a/b/d".
Proof. reflexivity. Qed.

Example relative_example :
  Path.relative "/work" "/home/u/.gradle" "/home/u/.gradle/caches/jars/a.jar"
  = "caches/jars/a.jar".
Proof. reflexivity. Qed.

Example relative_up_example :
  Path.relative "/work" "/home/u/.gradle" "/home/x/y" = "../../x/y".
Proof. reflexivity. Qed.

Example first_run_uploads :
  uploads (log (saveArtifactBundle Sample.cache "wrapper-dists" Sample.wrapperPattern
                  Sample.firstRun).2)
  = [SaveCacheCall [Sample.wrapperPattern] Sample.wrapperKey].
Proof. vm_compute. reflexivity. Qed.



Lemma cache_key_form_witness :
  (createCacheKey Sample.cache "jars"
     ["/home/u/.gradle/caches/jars/a.jar"; "/home/u/.gradle/caches/jars/b.jar"]
     Sample.firstRun).1
  = Eff.Returned "v1-jars-caches/jars/a.jar;caches/jars/b.jar".
Proof.
  destruct (cache_key_form Sample.getCacheKeyPrefix Sample.hashFileNames Sample.cache
              "jars"
              ["/home/u/.gradle/caches/jars/a.jar"; "/home/u/.gradle/caches/jars/b.jar"]
              Sample.firstRun) as (_ & _ & Hbelow).
  apply (Hbelow ["home"; "u"; ".gradle"]
           [["caches"; "jars"; "a.jar"]; ["caches"; "jars"; "b.jar"]]).
  - reflexivity.
  - repeat constructor; discriminate.
  - repeat constructor; discriminate.
  - reflexivity.
Defined.


Lemma save_empty_bundle_witness :
  matchedFiles Sample.wrapperPattern Sample.emptyBundle = []
  ∧ files (saveArtifactBundle Sample.cache "wrapper-dists" Sample.wrapperPattern
             Sample.emptyBundle).2 !! Sample.wrapperMetaFile = None.
Proof.
  assert (matchedFiles Sample.wrapperPattern Sample.emptyBundle = []) as H
    by (vm_compute; reflexivity).
  split; [exact H|].
  apply (save_empty_bundle Sample.globMatch Sample.getCacheKeyPrefix
           Sample.hashFileNames Sample.directoryExists Sample.cache "wrapper-dists"
           Sample.wrapperPattern Sample.emptyBundle H).
Defined.

Lemma restore_without_metafile_witness :
  files Sample.firstRun
    !! getBundleMetaFile (process Sample.firstRun) Sample.cache "wrapper-dists" = None
  ∧ restoreCalls (performed (restoreArtifactBundle Sample.cache "wrapper-dists"
                               Sample.wrapperPattern) Sample.firstRun) = [].
Proof.
  assert (files Sample.firstRun
            !! getBundleMetaFile (process Sample.firstRun) Sample.cache "wrapper-dists"
          = None) as H by (vm_compute; reflexivity).
  split; [exact H|].
  apply (restore_without_metafile Sample.cache "wrapper-dists" Sample.wrapperPattern
           Sample.firstRun H).
Defined.


Example metafile_of_nested_name :
  getBundleMetaFile Sample.proc Sample.cache "kotlin/dsl"
  = "/home/u/.gradle/caches/.gradle-build-action.kotlin/dsl.cache".
Proof. reflexivity. Qed.




Lemma cache_key_deterministic_witness :
  (createCacheKey Sample.cache "jars" ["/home/u/.gradle/caches/jars/a.jar"]
     Sample.firstRun).1
  = (createCacheKey Sample.debugCache "jars" ["/home/u/.gradle/caches/jars/a.jar"]
       Sample.brokenFirst).1.
Proof.
  apply (cache_key_deterministic Sample.getCacheKeyPrefix Sample.hashFileNames
           Sample.cache Sample.debugCache); reflexivity.
Defined.

Lemma metafile_key_round_trip_witness :
  storedKey (saveArtifactBundle Sample.cache "wrapper-dists" Sample.wrapperPattern
               Sample.firstRun).2 Sample.wrapperMetaFile
  = Sample.wrapperKey.
Proof.
  destruct (metafile_key_round_trip Sample.globMatch Sample.getCacheKeyPrefix
              Sample.hashFileNames Sample.directoryExists Sample.cache "wrapper-dists"
              Sample.wrapperPattern Sample.firstRun " " (String "010" ""))
    as [Hwrite _].
  - reflexivity.
  - reflexivity.
  - reflexivity.
  - reflexivity.
  - vm_compute. discriminate.
  - refine (proj1 (proj2 (Hwrite _ _ _))).
    + vm_compute. discriminate.
    + vm_compute. intros H.
      repeat (apply elem_of_cons in H as [H|H]; [discriminate H|]).
      by apply elem_of_nil in H.
    + vm_compute. reflexivity.
Defined.

Lemma restore_save_lifecycle_guard_witness :
  Caches.freshJob Sample.newJob
  ∧ length (filter (λ e, Caches.isCompletedRestore e)
              (Caches.output
                 (Caches.run Sample.isCacheDisabled Sample.isCacheReadOnly
                    Sample.gradleStateCacheInit Sample.gradleStateCacheRestore
                    Sample.gradleStateCacheSave Sample.twoUses Sample.newJob))) ≤ 1
  ∧ ∃ msg,
      Caches.onlyPrints
        (Caches.restore Sample.isCacheDisabled Sample.gradleStateCacheInit
           Sample.gradleStateCacheRestore "/home/u/.gradle" Sample.restoredJob)
        tt Sample.restoredJob msg.
Proof.
  assert (Caches.freshJob Sample.newJob) as H by (by split_and!).
  split; [exact H|]. split.
  - destruct (restore_save_lifecycle_guard Sample.isCacheDisabled
                Sample.isCacheReadOnly Sample.gradleStateCacheInit
                Sample.gradleStateCacheRestore Sample.gradleStateCacheSave
                Sample.newJob "/home/u/.gradle" Sample.twoUses) as (_ & _ & Hrun).
    exact (proj1 (Hrun H)).
  - destruct (restore_save_lifecycle_guard Sample.isCacheDisabled
                Sample.isCacheReadOnly Sample.gradleStateCacheInit
                Sample.gradleStateCacheRestore Sample.gradleStateCacheSave
                Sample.restoredJob "/home/u/.gradle" []) as (Hnoop & _).
    apply Hnoop. reflexivity.
Defined.

Example second_use_does_not_restore :
  Caches.output
    (Caches.run Sample.isCacheDisabled Sample.isCacheReadOnly
       Sample.gradleStateCacheInit Sample.gradleStateCacheRestore
       Sample.gradleStateCacheSave Sample.twoUses Sample.newJob)
  = [Caches.StateCacheInit "/home/u/.gradle" true;
     Caches.GroupStart "Restore Gradle state from cache";
     Caches.StateCacheRestore "/home/u/.gradle" true;
     Caches.GroupEnd;
     Caches.Info "Cache only restored on first action step.";
     Caches.GroupStart "Caching Gradle state";
     Caches.StateCacheSave "/home/u/.gradle" true;
     Caches.GroupEnd;
     Caches.CachingReport "{}"].
Proof. vm_compute. reflexivity. Qed.

End Instances.

(** * Further properties *)

(** ** The entry points: disabled and read-only caches, failed restores,
    and what [save] gets from [restore] *)

Section EntryPointFacts.

Import Caches.

Context {Backend : Type}.
Variable isCacheDisabled : gmap string string → bool.
Variable isCacheReadOnly : gmap string string → bool.
Variable gradleStateCacheInit : string → Backend → Eff.Outcome unit * Backend.
Variable gradleStateCacheRestore : string → Backend → Eff.Outcome string * Backend.
Variable gradleStateCacheSave : string → string → Backend → Eff.Outcome string * Backend.

Local Abbreviation restore :=
  (Caches.restore isCacheDisabled gradleStateCacheInit gradleStateCacheRestore).
Local Abbreviation save :=
  (Caches.save isCacheDisabled isCacheReadOnly gradleStateCacheSave).
Local Abbreviation run :=
  (Caches.run isCacheDisabled isCacheReadOnly gradleStateCacheInit
     gradleStateCacheRestore gradleStateCacheSave).
Local Abbreviation runStep :=
  (Caches.runStep isCacheDisabled isCacheReadOnly gradleStateCacheInit
     gradleStateCacheRestore gradleStateCacheSave).

Ltac run_entry :=
  cbv beta iota zeta delta
    [Caches.runStep Caches.restore Caches.save shouldRestoreCaches shouldSaveCaches
     Eff.bind Eff.gets Eff.ret Eff.modify Eff.finally Caches.emit Caches.info
     processEnv getState saveState exportVariable group callBackend withSavedState];
  simpl.

Lemma orElse_Some_empty s : Js.orElse (Some s) "" = s.
Proof. by destruct s. Qed.

(** X1.  When the cache is disabled, no sequence of main and post steps
    calls [GradleStateCache], saves any state or exports anything but the
    saved state handed to post steps: the collaborators' state and the
    saved state are those of the start and every event added is a printed
    message. *)
Theorem disabled_cache_only_prints steps (j : @Job Backend) :
  (∀ e, isCacheDisabled e = true) →
  backend (run steps j) = backend j
  ∧ savedState (run steps j) = savedState j
  ∧ ∃ evs, output (run steps j) = output j ++ evs
           ∧ Forall (λ e, isInfo e = true) evs.
Proof.
  intros Hdisabled. revert j. induction steps as [|st steps IH]; intros j.
  { split_and!; [done|done|]. exists []. by rewrite app_nil_r. }
  simpl. destruct (IH (runStep j st)) as (Hb & Hs & evs & Hout & Hevs).
  assert (backend (runStep j st) = backend j
          ∧ savedState (runStep j st) = savedState j
          ∧ ∃ msg, output (runStep j st) = output j ++ [Info msg])
    as (Hb1 & Hs1 & msg & Hout1).
  { destruct st; run_entry; rewrite Hdisabled; simpl; by eauto. }
  split_and!; [congruence|congruence|].
  exists (Info msg :: evs). split; [|by constructor].
  by rewrite Hout, Hout1, <- app_assoc.
Qed.

(** Every step only adds events. *)
Lemma runStep_output (j : @Job Backend) st :
  ∃ evs, output (runStep j st) = output j ++ evs
         ∧ (Forall (λ e, isStateCacheSave e = false) evs
            ∨ isCacheReadOnly (env (withSavedState j)) = false).
Proof.
  destruct st as [home|]; run_entry.
  - destruct (isCacheDisabled (env j)); simpl; [by eexists [_]; split; [|left; repeat constructor]|].
    destruct (Js.truthyOpt _); simpl; [by eexists [_]; split; [|left; repeat constructor]|].
    destruct (gradleStateCacheInit home (backend j)) as [[[]|e] b1]; simpl;
      [|by eexists [_]; split; [|left; repeat constructor]].
    destruct (gradleStateCacheRestore home b1) as [[listener|e] b2]; simpl;
      rewrite <- !app_assoc; simpl;
      (eexists; split; [reflexivity|left; by repeat constructor]).
  - destruct (isCacheDisabled _); simpl; [by eexists [_]; split; [|left; repeat constructor]|].
    destruct (Js.truthy _); simpl; [|by eexists [_]; split; [|left; repeat constructor]].
    destruct (isCacheReadOnly _) eqn:Hro; simpl.
    + rewrite <- !app_assoc. simpl.
      eexists; split; [reflexivity|left; by repeat constructor].
    + destruct (gradleStateCacheSave _ _ _) as [[listener|e] b1]; simpl;
        rewrite <- !app_assoc; simpl; (eexists; split; [reflexivity|by right]).
Qed.

(** X2.  With a read-only cache, no sequence of main and post steps ever
    calls [GradleStateCache.save]. *)
Theorem read_only_cache_never_saves steps (j : @Job Backend) :
  (∀ e, isCacheReadOnly e = true) →
  ∃ evs, output (run steps j) = output j ++ evs
         ∧ Forall (λ e, isStateCacheSave e = false) evs.
Proof.
  intros Hro. revert j. induction steps as [|st steps IH]; intros j.
  { exists []. by rewrite app_nil_r. }
  simpl. destruct (IH (runStep j st)) as (evs & Hout & Hevs).
  destruct (runStep_output j st) as (evs1 & Hout1 & [Hevs1|Hno]).
  - exists (evs1 ++ evs). split; [|by apply Forall_app].
    by rewrite Hout, Hout1, <- app_assoc.
  - by rewrite Hro in Hno.
Qed.

(** X3.  When [GradleStateCache.restore] throws, [restore] throws the
    same error after closing its group; the restored variable is neither
    exported nor saved (only the Gradle user home is), so the post step
    of a job that had no restored marker only prints a message. *)
Theorem failed_restore_sets_no_marker gradleUserHome (j : @Job Backend) b1 e b2 :
  isCacheDisabled (env j) = false →
  Js.truthyOpt (env j !! CACHE_RESTORED_VAR) = false →
  gradleStateCacheInit gradleUserHome (backend j) = (Eff.Returned tt, b1) →
  gradleStateCacheRestore gradleUserHome b1 = (Eff.Thrown e, b2) →
  restore gradleUserHome j
  = (Eff.Thrown e,
     mkJob (env j) (<[GRADLE_USER_HOME := gradleUserHome]> (savedState j)) b2
       (output j ++ [StateCacheInit gradleUserHome true;
                     GroupStart "Restore Gradle state from cache";
                     StateCacheRestore gradleUserHome false;
                     GroupEnd]))
  ∧ (savedState j !! CACHE_RESTORED_VAR = None →
     env j !! ("STATE_" +:+ CACHE_RESTORED_VAR) = None →
     ∃ msg,
       onlyPrints (save (withSavedState (restore gradleUserHome j).2)) tt
         (withSavedState (restore gradleUserHome j).2) msg).
Proof.
  intros Hen Hvar Hinit Hrestore.
  assert (restore gradleUserHome j
    = (Eff.Thrown e,
       mkJob (env j) (<[GRADLE_USER_HOME := gradleUserHome]> (savedState j)) b2
         (output j ++ [StateCacheInit gradleUserHome true;
                       GroupStart "Restore Gradle state from cache";
                       StateCacheRestore gradleUserHome false;
                       GroupEnd]))) as Hrun.
  { run_entry. rewrite Hen. simpl. rewrite Hvar. simpl. rewrite Hinit. simpl.
    rewrite Hrestore. simpl. by rewrite <- !app_assoc. }
  split; [done|]. intros Hsaved Hstate. rewrite Hrun. cbn [snd].
  apply save_noop. unfold withSavedState. cbn [env savedState].
  rewrite lookup_union, (lookup_kmap (String.app "STATE_")).
  rewrite lookup_insert_ne by done. by rewrite Hsaved, Hstate.
Qed.

(** [save] past its guards, with a writable cache. *)
Lemma save_run (j : @Job Backend) :
  isCacheDisabled (env j) = false →
  Js.truthy (Js.orElse (env j !! ("STATE_" +:+ CACHE_RESTORED_VAR)) "") = true →
  isCacheReadOnly (env j) = false →
  save j
  = let home := Js.orElse (env j !! ("STATE_" +:+ GRADLE_USER_HOME)) "" in
    let listener := Js.orElse (env j !! ("STATE_" +:+ CACHE_LISTENER)) "" in
    let saved := gradleStateCacheSave home listener (backend j) in
    (match saved.1 with
     | Eff.Returned _ => Eff.Returned tt
     | Eff.Thrown e => Eff.Thrown e
     end,
     mkJob (env j) (savedState j) saved.2
       (output j
        ++ [GroupStart "Caching Gradle state";
            StateCacheSave home (Eff.returned saved.1);
            GroupEnd]
        ++ match saved.1 with
           | Eff.Returned listener' => [CachingReport listener']
           | Eff.Thrown _ => []
           end)).
Proof.
  intros Hen Hvar Hrw. run_entry. rewrite Hen. simpl.
  fold CACHE_RESTORED_VAR. rewrite Hvar. simpl. rewrite Hrw. simpl.
  fold GRADLE_USER_HOME CACHE_LISTENER.
  destruct (gradleStateCacheSave _ _ _) as [[listener'|e] b3];
    simpl; by rewrite <- !app_assoc.
Qed.

(** X4.  What [restore] saves is what [save] uses: after a main step
    whose restore completes with the listener [listener], the post step
    calls [GradleStateCache.save] with the Gradle user home given to
    [restore] and with that listener, on the collaborators' state that
    the restore left, and reports the listener that the save returns. *)
Theorem save_uses_what_restore_saved gradleUserHome (j : @Job Backend) b1 listener b2 :
  (∀ e, isCacheDisabled e = false) → (∀ e, isCacheReadOnly e = false) →
  Js.truthyOpt (env j !! CACHE_RESTORED_VAR) = false →
  gradleStateCacheInit gradleUserHome (backend j) = (Eff.Returned tt, b1) →
  gradleStateCacheRestore gradleUserHome b1 = (Eff.Returned listener, b2) →
  let j1 := runStep j (MainStep gradleUserHome) in
  let j2 := runStep j1 PostStep in
  let saved := gradleStateCacheSave gradleUserHome listener b2 in
  backend j1 = b2
  ∧ backend j2 = saved.2
  ∧ output j2
    = output j1
      ++ [GroupStart "Caching Gradle state";
          StateCacheSave gradleUserHome (Eff.returned saved.1);
          GroupEnd]
      ++ match saved.1 with
         | Eff.Returned listener' => [CachingReport listener']
         | Eff.Thrown _ => []
         end.
Proof.
  intros Hen Hrw Hvar Hinit Hrestore j1 j2 saved.
  assert (j1 = mkJob (<[CACHE_RESTORED_VAR := "true"]> (env j))
                 (<[CACHE_RESTORED_VAR := "true"]>
                    (<[CACHE_LISTENER := listener]>
                       (<[GRADLE_USER_HOME := gradleUserHome]> (savedState j))))
                 b2
                 (output j ++ [StateCacheInit gradleUserHome true;
                               GroupStart "Restore Gradle state from cache";
                               StateCacheRestore gradleUserHome true;
                               GroupEnd])) as Hj1.
  { unfold j1. run_entry. rewrite Hen. simpl. rewrite Hvar. simpl.
    rewrite Hinit. simpl. rewrite Hrestore. simpl. by rewrite <- !app_assoc. }
  split; [by rewrite Hj1|].
  assert (∀ name value,
            savedState j1 !! name = Some value →
            Js.orElse (env (withSavedState j1) !! ("STATE_" +:+ name)) "" = value)
    as Hstate.
  { intros name value Hname. unfold withSavedState. cbn [env].
    rewrite lookup_union, (lookup_kmap (String.app "STATE_")), Hname.
    by rewrite union_Some_l, orElse_Some_empty. }
  assert (savedState j1 !! CACHE_RESTORED_VAR = Some "true") as H1.
  { rewrite Hj1. cbn [savedState]. by rewrite lookup_insert_eq. }
  assert (savedState j1 !! CACHE_LISTENER = Some listener) as H2.
  { rewrite Hj1. cbn [savedState].
    rewrite lookup_insert_ne by done. by rewrite lookup_insert_eq. }
  assert (savedState j1 !! GRADLE_USER_HOME = Some gradleUserHome) as H3.
  { rewrite Hj1. cbn [savedState].
    rewrite !lookup_insert_ne by done. by rewrite lookup_insert_eq. }
  unfold j2. change (runStep j1 PostStep) with (save (withSavedState j1)).2.
  rewrite save_run; [|apply Hen|by rewrite (Hstate _ _ H1)|apply Hrw].
  rewrite (Hstate _ _ H2), (Hstate _ _ H3).
  cbv zeta. cbn [snd backend output].
  replace (backend (withSavedState j1)) with b2 by by rewrite Hj1.
  done.
Qed.

End EntryPointFacts.

(** ** Where the class looks: the Gradle user home, the cached paths, the
    bundle patterns and the meta-files *)

Section LayoutFacts.

Import GradleUserHome.

Variable parseBundles : string → Eff.Outcome (list (string * string)).

Local Abbreviation getArtifactBundles :=
  (GradleUserHome.getArtifactBundles parseBundles).

Lemma join_plain_nonempty segs :
  segs ≠ [] → Forall Path.plainSegment segs →
  Js.join "/" segs ≠ "" ∧ Path.isAbsolute (Js.join "/" segs) = false.
Proof.
  intros Hne Hall. destruct Hall as [|x l Hx Hl]; [done|].
  destruct Hx as (Hx0 & _ & _ & Hxs).
  destruct x as [|c x]; [done|].
  apply split_String_plain in Hxs as [Hc _].
  destruct l as [|y l]; [done|]. rewrite join_cons. by rewrite app_String.
Qed.

(** A relative path of plain segments resolves below the resolved
    directory it is resolved against. *)
Lemma resolve_below cwd root segs :
  Forall Path.plainSegment root → Forall Path.plainSegment segs → segs ≠ [] →
  Path.resolve cwd [Path.ofSegments root; Js.join "/" segs]
  = Path.ofSegments (root ++ segs).
Proof.
  intros Hroot Hsegs Hne. unfold Path.resolve.
  destruct (join_plain_nonempty segs Hne Hsegs) as [Hj0 Hjabs].
  change (rev [Path.ofSegments root; Js.join "/" segs])
    with [Js.join "/" segs; Path.ofSegments root].
  rewrite resolveLoop_relative by done.
  rewrite resolveLoop_absolute by done.
  cbv beta iota zeta. change (negb true) with false.
  destruct (split_ofSegments root Hroot) as [H1 H2].
  rewrite !split_app_slash. change (Path.split "") with [""].
  rewrite split_join; [|done|by eapply Forall_impl; [done|]; intros ? (_&_&_&?)].
  rewrite normalizeSegs_plain.
  - rewrite !filter_app, H2, (filter_plain segs Hsegs).
    rewrite (filter_cons_False _ "") by (by intros ?).
    by rewrite filter_nil, app_nil_r.
  - rewrite !Forall_app, Forall_singleton.
    split_and!; [done| |by left]. eapply Forall_impl; [done|]. by right.
Qed.

(** An absolute last argument is resolved on its own. *)
Lemma resolve_absolute_last cwd from segs :
  Forall Path.plainSegment segs →
  Path.resolve cwd [from; Path.ofSegments segs] = Path.ofSegments segs.
Proof.
  intros Hall. rewrite <- (resolve_resolved cwd segs Hall) at 2.
  unfold Path.resolve.
  change (rev [from; Path.ofSegments segs]) with [Path.ofSegments segs; from].
  change (rev [Path.ofSegments segs]) with [Path.ofSegments segs].
  by rewrite !resolveLoop_absolute by done.
Qed.

Lemma resolve_child cwd root a :
  Forall Path.plainSegment root → Path.plainSegment a →
  Path.resolve cwd [Path.ofSegments root; a] = Path.ofSegments (root ++ [a]).
Proof.
  intros Hroot Ha. by apply (resolve_below cwd root [a]); [|constructor|].
Qed.

(** X5.  [determineGradleUserHome]: without [GRADLE_USER_HOME] in the
    environment, or with an empty one, the Gradle user home is [.gradle]
    in the home directory of the user, whatever [rootDir] is; an
    absolute [GRADLE_USER_HOME] is taken as it is, whatever [rootDir]
    is; a relative one is taken below [rootDir]. *)
Theorem gradle_user_home_location proc rootDir :
  (∀ home,
     env proc !! "GRADLE_USER_HOME" = None ∨ env proc !! "GRADLE_USER_HOME" = Some "" →
     Forall Path.plainSegment home → homedir proc = Path.ofSegments home →
     determineGradleUserHome proc rootDir = Path.ofSegments (home ++ [".gradle"]))
  ∧ (∀ segs,
       Forall Path.plainSegment segs →
       env proc !! "GRADLE_USER_HOME" = Some (Path.ofSegments segs) →
       determineGradleUserHome proc rootDir = Path.ofSegments segs)
  ∧ (∀ root segs,
       Forall Path.plainSegment root → Forall Path.plainSegment segs → segs ≠ [] →
       rootDir = Path.ofSegments root →
       env proc !! "GRADLE_USER_HOME" = Some (Js.join "/" segs) →
       determineGradleUserHome proc rootDir = Path.ofSegments (root ++ segs)).
Proof.
  unfold determineGradleUserHome. split_and!.
  - intros home Hunset Hhome ->.
    assert (Js.truthyOpt (env proc !! "GRADLE_USER_HOME") = false) as ->
      by by destruct Hunset as [-> | ->].
    apply resolve_child; [done|]. by split_and!.
  - intros segs Hsegs ->. cbn [Js.truthyOpt default].
    assert (Js.truthy (Path.ofSegments segs) = true) as -> by done.
    by apply resolve_absolute_last.
  - intros root segs Hroot Hsegs Hne -> ->. cbn [Js.truthyOpt default].
    destruct (join_plain_nonempty segs Hne Hsegs) as [Hj0 _].
    assert (Js.truthy (Js.join "/" segs) = true) as ->
      by by destruct (Js.join "/" segs).
    by apply resolve_below.
Qed.

(** X6.  The cached paths are the directories [caches] and
    [notifications] of the Gradle user home, and the meta-file of every
    bundle whose name has no slash is a file of the first one: the
    meta-files travel with the cache entry of the Gradle user home. *)
Theorem metafiles_lie_in_cached_path proc this root name :
  gradleUserHome this = Path.ofSegments root →
  Forall Path.plainSegment root → Path.split name = [name] →
  getCachePath proc this
  = [Path.ofSegments (root ++ ["caches"]); Path.ofSegments (root ++ ["notifications"])]
  ∧ ∃ dir, getCachePath proc this !! 0 = Some dir
           ∧ getBundleMetaFile proc this name
             = dir +:+ "/.gradle-build-action." +:+ name +:+ ".cache".
Proof.
  intros Hhome Hroot Hname.
  assert (getCachePath proc this
          = [Path.ofSegments (root ++ ["caches"]);
             Path.ofSegments (root ++ ["notifications"])]) as Hpaths.
  { unfold getCachePath, CACHE_PATH. cbn [fmap list_fmap]. rewrite Hhome.
    by rewrite !resolve_child by (done || by split_and!). }
  split; [done|]. rewrite Hpaths. eexists. split; [reflexivity|].
  unfold getBundleMetaFile. rewrite Hhome.
  rewrite resolve_ofSegments by (done || by apply metafile_name_plain).
  change (root ++ ["caches"; ".gradle-build-action." +:+ name +:+ ".cache"])
    with (root ++ ["caches"] ++ [".gradle-build-action." +:+ name +:+ ".cache"]).
  rewrite (assoc_L (++)). unfold Path.ofSegments.
  rewrite (join_app (root ++ ["caches"])) by (done || by destruct root).
  by rewrite !app_assoc_string.
Qed.

Lemma mapSet_names k v m :
  (mapSet k v m).*1 = if decide (k ∈ m.*1) then m.*1 else m.*1 ++ [k].
Proof.
  induction m as [|[k' v'] r IH]; [done|]. cbn [mapSet].
  destruct (decide (k' = k)) as [->|Hne].
  - rewrite !fmap_cons. cbn [fst]. by rewrite decide_True by left.
  - rewrite !fmap_cons, IH. cbn [fst]. destruct (decide (k ∈ r.*1)) as [Hin|Hnin].
    + by rewrite decide_True by by right.
    + by rewrite decide_False by (intros [?|?]%elem_of_cons; congruence).
Qed.

Lemma mapSet_NoDup k v m : NoDup m.*1 → NoDup (mapSet k v m).*1.
Proof.
  intros Hm. rewrite mapSet_names. case_decide as Hin; [done|].
  apply NoDup_app. split_and!; [done| |apply NoDup_singleton].
  intros x Hx ->%list_elem_of_singleton. done.
Qed.

Lemma mapSet_to_map k v m :
  (list_to_map (mapSet k v m) : gmap string string) = <[k := v]> (list_to_map m).
Proof.
  induction m as [|[k' v'] r IH]; [done|]. simpl.
  destruct (decide (k' = k)) as [->|Hne]; simpl.
  - by rewrite insert_insert_eq.
  - rewrite IH. by apply insert_insert_ne.
Qed.

Lemma newMap_spec entries :
  NoDup (newMap entries).*1
  ∧ (list_to_map (newMap entries) : gmap string string) = list_to_map (reverse entries).
Proof.
  unfold newMap.
  assert (∀ m, NoDup m.*1 →
    NoDup (foldl (λ m kv, mapSet kv.1 kv.2 m) m entries).*1
    ∧ (list_to_map (foldl (λ m kv, mapSet kv.1 kv.2 m) m entries) : gmap string string)
      = list_to_map (reverse entries) ∪ list_to_map m) as Hgen.
  { induction entries as [|[k v] rest IH]; intros m Hm.
    - split; [done|]. simpl. by rewrite (left_id_L ∅ (∪)).
    - simpl. destruct (IH (mapSet k v m) (mapSet_NoDup k v m Hm)) as [H1 H2].
      split; [done|]. rewrite H2, mapSet_to_map, reverse_cons, list_to_map_app.
      simpl. rewrite <- (assoc_L (∪)). f_equal.
      by rewrite insert_empty, <- insert_union_singleton_l. }
  destruct (Hgen [] (NoDup_nil_2)) as [H1 H2]. split; [done|].
  rewrite H2. simpl. by rewrite (right_id_L ∅ (∪)).
Qed.

Lemma list_to_map_fmap_value (g : string → string) (l : list (string * string)) :
  (list_to_map ((λ kv, (kv.1, g kv.2)) <$> l) : gmap string string)
  = g <$> list_to_map l.
Proof.
  induction l as [|[k v] l IH].
  - symmetry. apply fmap_empty.
  - rewrite fmap_cons. cbn [fst snd].
    rewrite !list_to_map_cons. by rewrite fmap_insert, <- IH.
Qed.

Lemma getArtifactBundles_map this w definition :
  parseBundles (getInputArtifactBundles (process w)) = Eff.Returned definition →
  ∃ bundles,
    (getArtifactBundles this w).1 = Eff.Returned bundles
    ∧ NoDup bundles.*1
    ∧ ∀ name,
        (list_to_map bundles : gmap string string) !! name
        = (λ value, Path.resolve (cwd (process w)) [gradleUserHome this; value])
            <$> (list_to_map (reverse definition) : gmap string string) !! name.
Proof.
  intros Hparse. unfold GradleUserHome.getArtifactBundles. run_eff.
  rewrite Hparse. simpl. eexists. split; [reflexivity|].
  match goal with |- context [newMap ?l] =>
    destruct (newMap_spec l) as [Hnd Hmap] end.
  split; [done|]. intros name. rewrite Hmap.
  rewrite <- fmap_reverse.
  rewrite (list_to_map_fmap_value
             (λ value, Path.resolve (cwd (process w)) [gradleUserHome this; value])).
  by rewrite lookup_fmap.
Qed.

(** X7.  [getArtifactBundles] answers every bundle name of the definition
    once, and a name that the definition gives more than once has the
    pattern of its last entry, resolved against the Gradle user home. *)
Theorem bundle_names_unique_last_wins this w definition :
  parseBundles (getInputArtifactBundles (process w)) = Eff.Returned definition →
  ∃ bundles,
    (getArtifactBundles this w).1 = Eff.Returned bundles
    ∧ NoDup bundles.*1
    ∧ ∀ name,
        (list_to_map bundles : gmap string string) !! name
        = (λ value, Path.resolve (cwd (process w)) [gradleUserHome this; value])
            <$> last (filter (λ kv, kv.1 = name) definition).*2.
Proof.
  intros Hparse.
  destruct (getArtifactBundles_map this w definition Hparse)
    as (bundles & Hrun & Hnd & Hmap).
  exists bundles. split_and!; [done..|]. intros name. rewrite Hmap. f_equal.
  clear. induction definition as [|[k v] l IH] using rev_ind; [done|].
  rewrite reverse_app, filter_app. simpl.
  destruct (decide (k = name)) as [->|Hne].
  - rewrite lookup_insert_eq, filter_cons_True by done.
    rewrite filter_nil, fmap_app. cbn [fmap list_fmap snd]. by rewrite last_snoc.
  - rewrite lookup_insert_ne, filter_cons_False by done.
    by rewrite filter_nil, app_nil_r.
Qed.

(** X8.  Every pattern that [getArtifactBundles] answers comes from an
    entry of the definition: a relative value of the entry names a path
    below the Gradle user home, and an absolute value is taken as it is,
    so that a bundle can name files outside the Gradle user home. *)
Theorem bundle_pattern_location this w definition root name pattern bundles :
  parseBundles (getInputArtifactBundles (process w)) = Eff.Returned definition →
  gradleUserHome this = Path.ofSegments root → Forall Path.plainSegment root →
  (getArtifactBundles this w).1 = Eff.Returned bundles →
  (name, pattern) ∈ bundles →
  ∃ value,
    (name, value) ∈ definition
    ∧ (∀ segs, Forall Path.plainSegment segs → segs ≠ [] →
         value = Js.join "/" segs → pattern = Path.ofSegments (root ++ segs))
    ∧ (∀ segs, Forall Path.plainSegment segs →
         value = Path.ofSegments segs → pattern = Path.ofSegments segs).
Proof.
  intros Hparse Hhome Hroot Hrun Hin.
  destruct (getArtifactBundles_map this w definition Hparse)
    as (bundles' & Hrun' & Hnd & Hmap).
  rewrite Hrun in Hrun'. injection Hrun' as <-.
  apply (elem_of_list_to_map_1 (M := gmap string)) in Hin; [|done].
  rewrite Hmap in Hin. apply fmap_Some in Hin as (value & Hvalue & ->).
  apply elem_of_list_to_map_2 in Hvalue. rewrite elem_of_reverse in Hvalue.
  exists value. split; [done|]. rewrite Hhome. split.
  - intros segs Hsegs Hne ->. by apply resolve_below.
  - intros segs Hsegs ->. by apply resolve_absolute_last.
Qed.

End LayoutFacts.

(** ** Saving a batch of bundles *)

Section SaveBatchFacts.

Import GradleUserHome.

Variable globMatch : string → string → bool.
Variable getCacheKeyPrefix : gmap string string → string.
Variable hashFileNames : list string → string.
Variable parseBundles : string → Eff.Outcome (list (string * string)).
Variable directoryExists : string → World → bool.

Local Abbreviation matchedFiles := (GradleUserHome.matchedFiles globMatch).
Local Abbreviation cacheKeyFor :=
  (GradleUserHome.cacheKeyFor getCacheKeyPrefix hashFileNames).
Local Abbreviation saveArtifactBundle :=
  (GradleUserHome.saveArtifactBundle globMatch getCacheKeyPrefix hashFileNames
     directoryExists).
Local Abbreviation saveArtifactBundleResume :=
  (GradleUserHome.saveArtifactBundleResume globMatch getCacheKeyPrefix hashFileNames
     directoryExists).
Local Abbreviation finishSave :=
  (GradleUserHome.finishSave globMatch getCacheKeyPrefix hashFileNames directoryExists).
Local Abbreviation finishSavesInOrder :=
  (GradleUserHome.finishSavesInOrder globMatch getCacheKeyPrefix hashFileNames
     directoryExists).
Local Abbreviation settleSaves :=
  (GradleUserHome.settleSaves globMatch getCacheKeyPrefix hashFileNames
     directoryExists).
Local Abbreviation saveArtifactBundles :=
  (GradleUserHome.saveArtifactBundles globMatch getCacheKeyPrefix hashFileNames
     parseBundles directoryExists).
Local Abbreviation getArtifactBundles :=
  (GradleUserHome.getArtifactBundles parseBundles).
Local Abbreviation taskListed := (GradleUserHome.taskListed globMatch).
Local Abbreviation savesInv := (GradleUserHome.savesInv globMatch).
Local Abbreviation savesFrame := (GradleUserHome.savesFrame globMatch).
Local Abbreviation writeRejected := (GradleUserHome.writeRejected directoryExists).
Local Abbreviation savesOutcome :=
  (GradleUserHome.savesOutcome globMatch directoryExists).

Ltac run_save :=
  cbv beta iota zeta delta
    [Eff.bind Eff.gets Eff.ret Eff.modify Eff.throw Eff.settled
     GradleUserHome.existsSync GradleUserHome.readFileSync
     GradleUserHome.writeFileSync GradleUserHome.emit GradleUserHome.debug
     GradleUserHome.info GradleUserHome.glob
     GradleUserHome.saveCacheRequest GradleUserHome.saveCacheReply
     GradleUserHome.saveCache
     GradleUserHome.setFiles GradleUserHome.setRemote];
  simpl.

Lemma restoreCalls_warnings ws :
  Forall (λ e, isWarning e = true) ws → filter (λ e, isRestoreCall e) ws = [].
Proof.
  induction 1 as [|e ws He _ IH]; [done|].
  rewrite filter_cons_False; [exact IH|].
  destruct e; simplify_eq/=; by intros [].
Qed.

Lemma tryDelete_run file w :
  ∃ ws, Forall (λ e, isWarning e = true) ws
    ∧ tryDelete file w
      = (Eff.Returned tt,
         mkWorld (process w) (delete file (files w)) (remote w) (log w ++ ws)).
Proof.
  unfold tryDelete, Eff.bind, existsSync, Eff.gets.
  case_bool_decide as Hx.
  - exists []. split; [done|]. unfold Eff.modify, setFiles. simpl.
    by rewrite app_nil_r.
  - exists [Warning ("Failed to delete " +:+ file)]. split; [by repeat constructor|].
    unfold emit, Eff.modify. do 3 f_equal.
    symmetry. apply delete_id. by apply eq_None_not_Some.
Qed.

Lemma matchedFiles_nil pattern w f :
  length (matchedFiles pattern w) = 0 → globMatch pattern f = true →
  files w !! f = None.
Proof.
  intros Hempty Hm. apply eq_None_not_Some. intros Hs.
  assert (f ∈ matchedFiles pattern w) as Hin by by apply matchedFiles_spec.
  destruct (matchedFiles pattern w); [by apply elem_of_nil in Hin|done].
Qed.

Ltac same_calls :=
  unfold restoreCalls; rewrite !filter_app;
  repeat match goal with
         | H : Forall (λ e, isWarning e = true) ?ws |- _ =>
             rewrite (restoreCalls_warnings ws H)
         end;
  simpl; by rewrite ?app_nil_r.

(** One resumption of a save: what it changes, and that it throws only
    where the meta-file cannot be written. *)
Lemma saveArtifactBundleResume_run this t w :
  taskListed t →
  ∃ o w',
    saveArtifactBundleResume this t w = (o, w')
    ∧ process w' = process w
    ∧ (∀ f, f ≠ taskMetaFile t →
         files w' !! f = files w !! f
         ∨ (files w' !! f = None ∧ globMatch (taskPattern t) f = true))
    ∧ (∀ key, is_Some (remote w !! key) → remote w' !! key = remote w !! key)
    ∧ restoreCalls (log w') = restoreCalls (log w)
    ∧ match o with
      | Eff.Returned (Some t') =>
          taskPattern t' = taskPattern t ∧ taskMetaFile t' = taskMetaFile t
          ∧ taskListed t' ∧ awaitsLeft t' < awaitsLeft t
          ∧ (∀ f, globMatch (taskPattern t) f = true → is_Some (files w' !! f) →
               taskCovers t f → taskCovers t' f)
      | Eff.Returned None =>
          ∀ f, f ≠ taskMetaFile t → globMatch (taskPattern t) f = true →
               taskCovers t f → files w' !! f = None
      | Eff.Thrown e => writeRejected [taskMetaFile t] e
      end.
Proof.
  intros Hlisted.
  destruct t as [bundle pattern mf|bundle pattern mf|bundle pattern mf bundleFiles key].
  - exists (Eff.Returned (Some (AwaitGlob bundle pattern mf))), w. simpl.
    split_and!; auto.
  - unfold GradleUserHome.saveArtifactBundleResume. run_save.
    destruct (decide (length (matchedFiles pattern w) = 0)) as [Hempty|Hne].
    + pose proof (matchedFiles_nil pattern w) as Hnone.
      case_bool_decide as Hex.
      * match goal with |- context [tryDelete mf ?w0] =>
          destruct (tryDelete_run mf w0) as (ws & Hws & ->) end.
        eexists _, _. split; [reflexivity|]. simpl.
        split_and!; [done| |done|same_calls|].
        -- intros f Hf. left. by rewrite lookup_delete_ne.
        -- intros f Hf Hm _. rewrite lookup_delete_ne by done. by apply Hnone.
      * eexists _, _. split; [reflexivity|]. simpl.
        split_and!; [done|by left|done|same_calls|].
        intros f Hf Hm _. by apply Hnone.
    + assert (∀ previouslyRestoredKey w0,
        process w0 = process w → files w0 = files w → remote w0 = remote w →
        restoreCalls (log w0) = restoreCalls (log w) →
        ∃ o w',
          (let (o, s') :=
             GradleUserHome.createCacheKey getCacheKeyPrefix hashFileNames this bundle
               (matchedFiles pattern w) w0 in
           match o with
           | Eff.Returned cacheKey =>
               (if decide (previouslyRestoredKey = cacheKey)
                then
                  Eff.bind
                    (debug ("No change to previously restored " +:+ bundle
                            +:+ ". Not caching."))
                    (λ _, Eff.bind (Eff.forEach tryDelete (matchedFiles pattern w))
                            (λ _, Eff.ret None))
                else
                  Eff.bind (info ("Caching " +:+ bundle +:+ " with cache key: "
                                  +:+ cacheKey))
                    (λ _, Eff.bind (saveCacheRequest [pattern] cacheKey)
                            (λ _, Eff.ret
                                    (Some (AwaitSaveCache bundle pattern mf
                                             (matchedFiles pattern w) cacheKey))))) s'
           | Eff.Thrown e => (Eff.Thrown e, s')
           end) = (o, w')
          ∧ process w' = process w
          ∧ (∀ f, f ≠ mf →
               files w' !! f = files w !! f
               ∨ (files w' !! f = None ∧ globMatch pattern f = true))
          ∧ (∀ key, is_Some (remote w !! key) → remote w' !! key = remote w !! key)
          ∧ restoreCalls (log w') = restoreCalls (log w)
          ∧ match o with
            | Eff.Returned (Some t') =>
                taskPattern t' = pattern ∧ taskMetaFile t' = mf
                ∧ taskListed t' ∧ awaitsLeft t' < 2
                ∧ (∀ f, globMatch pattern f = true → is_Some (files w' !! f) →
                     True → taskCovers t' f)
            | Eff.Returned None =>
                ∀ f, f ≠ mf → globMatch pattern f = true → True →
                     files w' !! f = None
            | Eff.Thrown e => writeRejected [mf] e
            end) as Hrest.
      { intros prev w0 Hp0 Hf0 Hr0 Hl0.
        rewrite createCacheKey_run. cbv beta iota zeta.
        case_decide as Hkey.
        - run_save.
          match goal with |- context [Eff.forEach tryDelete ?l ?w1] =>
            destruct (forEach_tryDelete l w1) as (ws & Hws & ->) end.
          eexists _, _. split; [reflexivity|]. simpl. rewrite Hf0, Hr0.
          split_and!; [done| |done|rewrite <- Hl0; same_calls|].
          + intros f Hf. rewrite lookup_deleteAll. case_decide as Hin; [|by left].
            right. split; [done|]. by apply matchedFiles_spec in Hin as [? _].
          + intros f Hf Hm _. rewrite lookup_deleteAll. case_decide as Hin; [done|].
            apply eq_None_not_Some. intros Hs. apply Hin. by apply matchedFiles_spec.
        - run_save. eexists _, _. split; [reflexivity|]. simpl. rewrite Hf0, Hr0.
          split_and!; [done|by left|done|rewrite <- Hl0; same_calls|done|done| |lia|].
          + intros f Hin. by apply matchedFiles_spec in Hin as [? _].
          + intros f Hm Hs _. by apply matchedFiles_spec. }
      case_bool_decide as Hex.
      * destruct (files w !! mf) as [content|] eqn:Hmf; [|by destruct Hex].
        simpl. apply Hrest; try done; same_calls.
      * simpl. apply Hrest; try done; same_calls.
  - unfold GradleUserHome.saveArtifactBundleResume. run_save.
    destruct (remote w !! key) as [entry|] eqn:Hrem; simpl;
      (destruct (directoryExists (Path.dirname mf) _) eqn:Hdir; simpl;
       [match goal with |- context [Eff.forEach tryDelete ?l ?w1] =>
          destruct (forEach_tryDelete l w1) as (ws & Hws & ->) end|]);
      (eexists _, _; split; [reflexivity|]); simpl;
      (split_and!; [done| | |same_calls|]).
    + intros f Hf. rewrite lookup_deleteAll. case_decide as Hin.
      * right. split; [done|]. by apply Hlisted.
      * left. by rewrite lookup_insert_ne.
    + done.
    + intros f Hf Hm Hin. by rewrite lookup_deleteAll, decide_True.
    + by left.
    + done.
    + eexists mf, _. split_and!; [by left|exact Hdir|done].
    + intros f Hf. rewrite lookup_deleteAll. case_decide as Hin.
      * right. split; [done|]. by apply Hlisted.
      * left. by rewrite lookup_insert_ne.
    + intros key' Hsome. rewrite lookup_insert_ne; [done|].
      intros <-. rewrite Hrem in Hsome. by destruct Hsome.
    + intros f Hf Hm Hin. by rewrite lookup_deleteAll, decide_True.
    + by left.
    + intros key' Hsome. rewrite lookup_insert_ne; [done|].
      intros <-. rewrite Hrem in Hsome. by destruct Hsome.
    + eexists mf, _. split_and!; [by left|exact Hdir|done].
Qed.

(** A save that runs alone is the sequence of its resumptions. *)
Lemma saveArtifactBundle_staged this bundle pattern w :
  saveArtifactBundle this bundle pattern w
  = finishSave 3 this
      (AwaitCreate bundle pattern (getBundleMetaFile (process w) this bundle)) w.
Proof.
  unfold GradleUserHome.saveArtifactBundle.
  cbn [GradleUserHome.finishSave GradleUserHome.saveArtifactBundleResume].
  run_save. run_save.
  set (mf := getBundleMetaFile (process w) this bundle).
  destruct (decide (length (matchedFiles pattern w) = 0)) as [Hempty|Hne].
  - case_bool_decide as Hex; [|done].
    match goal with |- context [tryDelete mf ?w0] =>
      destruct (tryDelete_run mf w0) as (ws & Hws & ->) end.
    done.
  - assert (∀ content : string,
      let key := getCacheKeyPrefix (env (process w)) +:+ bundle +:+ "-"
                 +:+ hashFileNames
                       ((λ x, Path.relative (cwd (process w)) (gradleUserHome this) x)
                          <$> matchedFiles pattern w) in
      ∀ Q : Prop, (content = key → Q) → (content ≠ key → Q) → Q) as Hcases.
    { intros content key Q H1 H2. destruct (decide (content = key)); auto. }
    case_bool_decide as Hex.
    + destruct (files w !! mf) as [content|] eqn:Hmf; [|by destruct Hex].
      simpl. apply (Hcases (Js.trim content)); intros Hkey.
      * rewrite !decide_True by done.
        match goal with |- context [Eff.forEach tryDelete ?l ?w1] =>
          destruct (forEach_tryDelete l w1) as (ws & Hws & ->) end.
        done.
      * rewrite !decide_False by done. do 2 run_save.
        destruct (remote w !! _) as [entry|]; simpl;
          (destruct (directoryExists (Path.dirname mf) _); simpl; [|done]);
          match goal with |- context [Eff.forEach tryDelete ?l ?w1] =>
            destruct (forEach_tryDelete l w1) as (ws & Hws & ->) end;
          done.
    + simpl. apply (Hcases ""); intros Hkey.
      * rewrite !decide_True by done.
        match goal with |- context [Eff.forEach tryDelete ?l ?w1] =>
          destruct (forEach_tryDelete l w1) as (ws & Hws & ->) end.
        done.
      * rewrite !decide_False by done. do 2 run_save.
        destruct (remote w !! _) as [entry|]; simpl;
          (destruct (directoryExists (Path.dirname mf) _); simpl; [|done]);
          match goal with |- context [Eff.forEach tryDelete ?l ?w1] =>
            destruct (forEach_tryDelete l w1) as (ws & Hws & ->) end;
          done.
Qed.

Lemma savesFrame_refl patterns metaFiles w : savesFrame patterns metaFiles w w.
Proof. split_and!; auto. Qed.

Lemma savesFrame_trans patterns metaFiles w1 w2 w3 :
  savesFrame patterns metaFiles w1 w2 → savesFrame patterns metaFiles w2 w3 →
  savesFrame patterns metaFiles w1 w3.
Proof.
  intros (Hp1 & Hf1 & Hr1 & Hl1) (Hp2 & Hf2 & Hr2 & Hl2).
  split_and!; [congruence| | |congruence].
  - intros f Hf. destruct (Hf2 f Hf) as [->|[-> Hm]]; [by apply Hf1|by right].
  - intros key Hsome. rewrite <- (Hr1 key Hsome). apply Hr2.
    by rewrite (Hr1 key Hsome).
Qed.

Lemma writeRejected_mono (l1 l2 : list string) e :
  (∀ mf, mf ∈ l1 → mf ∈ l2) → writeRejected l1 e → writeRejected l2 e.
Proof. intros Hsub (mf & w & Hin & Hdir & He). exists mf, w. auto. Qed.

(** One resumption of a task of the batch keeps the state of the batch,
    unless the task rejects. *)
Lemma savesInv_step patterns metaFiles this t inflight rest w :
  savesInv patterns metaFiles inflight w → t ∈ inflight →
  (∀ z, z ∈ inflight → z = t ∨ z ∈ rest) → (∀ z, z ∈ rest → z ∈ inflight) →
  ∃ o w',
    saveArtifactBundleResume this t w = (o, w')
    ∧ savesFrame patterns metaFiles w w'
    ∧ match o with
      | Eff.Returned (Some t') =>
          awaitsLeft t' < awaitsLeft t ∧ savesInv patterns metaFiles (t' :: rest) w'
      | Eff.Returned None => savesInv patterns metaFiles rest w'
      | Eff.Thrown e => writeRejected metaFiles e
      end.
Proof.
  intros [Hcovered Htasks] Ht Hsplit Hrest.
  rewrite Forall_forall in Htasks.
  destruct (Htasks t Ht) as (Hpattern & Hmeta & Hlisted).
  destruct (saveArtifactBundleResume_run this t w Hlisted)
    as (o & w' & Hrun & Hp & Hf & Hr & Hl & Hnext).
  exists o, w'. split; [done|].
  assert (∀ f, f ∉ metaFiles → f ≠ taskMetaFile t) as Hother by (intros f ? ->; done).
  split.
  { split_and!; [done| |done..].
    intros f Hnot. destruct (Hf f (Hother f Hnot)) as [?|[? ?]]; [by left|].
    right. split; [done|]. by exists (taskPattern t). }
  assert (∀ f pattern,
            pattern ∈ patterns → f ∉ metaFiles → globMatch pattern f = true →
            is_Some (files w' !! f) →
            (∃ t0, t0 ∈ rest ∧ taskPattern t0 = pattern ∧ taskCovers t0 f)
            ∨ (taskPattern t = pattern ∧ taskCovers t f)) as Hstill.
  { intros f pattern Hin Hnot Hm Hsome.
    destruct (Hf f (Hother f Hnot)) as [Hsame|[Hnone _]];
      [|rewrite Hnone in Hsome; by destruct Hsome].
    rewrite Hsame in Hsome.
    destruct (Hcovered f pattern Hin Hnot Hm Hsome) as (t0 & Ht0 & Hp0 & Hc0).
    destruct (Hsplit t0 Ht0) as [->|?]; [by right|left; by exists t0]. }
  destruct o as [[t'|]|e].
  - destruct Hnext as (Hp' & Hm' & Hl' & Hlt & Hcov). split; [done|]. split.
    + intros f pattern Hin Hnot Hm Hsome.
      destruct (Hstill f pattern Hin Hnot Hm Hsome) as [(t0 & ? & ? & ?)|[<- Hc]].
      * exists t0. split_and!; [by right|done..].
      * exists t'. split_and!; [by left|done|]. by apply Hcov.
    + apply Forall_forall. intros z [->|Hz]%elem_of_cons.
      * by rewrite Hp', Hm'.
      * by apply Htasks, Hrest.
  - split.
    + intros f pattern Hin Hnot Hm Hsome.
      destruct (Hstill f pattern Hin Hnot Hm Hsome) as [(t0 & ? & ? & ?)|[<- Hc]].
      * by exists t0.
      * rewrite (Hnext f (Hother f Hnot) Hm Hc) in Hsome. by destruct Hsome.
    + apply Forall_forall. intros z Hz. by apply Htasks, Hrest.
  - eapply writeRejected_mono; [|exact Hnext].
    by intros mf ->%list_elem_of_singleton.
Qed.

(** A task of the batch runs to its end in at most three resumptions,
    unless it rejects. *)
Lemma finishSave_run patterns metaFiles this n t rest w :
  awaitsLeft t ≤ n → savesInv patterns metaFiles (t :: rest) w →
  ∃ o w',
    finishSave n this t w = (o, w')
    ∧ savesFrame patterns metaFiles w w'
    ∧ savesOutcome patterns metaFiles rest o w'.
Proof.
  revert t w. induction n as [|n IH]; intros t w Hn Hinv.
  { destruct t; simpl in Hn; lia. }
  destruct (savesInv_step patterns metaFiles this t (t :: rest) rest w Hinv)
    as (o & w1 & Hrun & Hframe & Hnext).
  { by left. }
  { intros z [->|?]%elem_of_cons; [by left|by right]. }
  { intros z ?. by right. }
  cbn [GradleUserHome.finishSave]. unfold Eff.bind. rewrite Hrun.
  destruct o as [[t'|]|e].
  - destruct Hnext as [Hlt Hinv'].
    destruct (IH t' w1) as (o' & w' & Hfin & Hframe' & Hout); [lia|done|].
    exists o', w'. split_and!; [done| |done]. by eapply savesFrame_trans.
  - by exists (Eff.Returned tt), w1.
  - by exists (Eff.Thrown e), w1.
Qed.

Lemma finishSavesInOrder_run patterns metaFiles this inflight w :
  savesInv patterns metaFiles inflight w →
  ∃ o w',
    finishSavesInOrder this inflight w = (o, w')
    ∧ savesFrame patterns metaFiles w w'
    ∧ savesOutcome patterns metaFiles [] o w'.
Proof.
  revert w. induction inflight as [|t rest IH]; intros w Hinv.
  { exists (Eff.Returned tt), w. split_and!; [done|apply savesFrame_refl|done]. }
  destruct (finishSave_run patterns metaFiles this 3 t rest w)
    as (o1 & w1 & Hfin & Hframe & Hout1); [destruct t; simpl; lia|done|].
  cbn [GradleUserHome.finishSavesInOrder]. unfold Eff.bind at 1. rewrite Hfin.
  destruct o1 as [[]|e].
  - destruct (IH w1 Hout1) as (o & w' & Hrest & Hframe' & Hout).
    exists o, w'. split_and!; [done|by eapply savesFrame_trans|done].
  - by exists (Eff.Thrown e), w1.
Qed.

Lemma pickNext_Permutation {A} choice (x : A) l y l' :
  pickNext choice x l = (y, l') → x :: l ≡ₚ y :: l'.
Proof.
  unfold pickNext.
  destruct ((x :: l) !! _) as [y'|] eqn:Hi.
  - intros [= <- <-]. by apply delete_Permutation.
  - by intros [= <- <-].
Qed.

(** Whatever the order in which the saves are resumed, the state of the
    batch is kept until all have ended or one has rejected. *)
Lemma settleSaves_run patterns metaFiles this schedule inflight w :
  savesInv patterns metaFiles inflight w →
  ∃ o w',
    settleSaves this schedule inflight w = (o, w')
    ∧ savesFrame patterns metaFiles w w'
    ∧ savesOutcome patterns metaFiles [] o w'.
Proof.
  revert inflight w. induction schedule as [|choice schedule IH]; intros inflight w Hinv.
  { by apply finishSavesInOrder_run. }
  destruct inflight as [|x rest].
  { exists (Eff.Returned tt), w. split_and!; [done|apply savesFrame_refl|done]. }
  cbn [GradleUserHome.settleSaves].
  destruct (pickNext choice x rest) as [t rest'] eqn:Hpick.
  apply pickNext_Permutation in Hpick.
  destruct (savesInv_step patterns metaFiles this t (x :: rest) rest' w Hinv)
    as (o1 & w1 & Hrun & Hframe & Hnext).
  { rewrite Hpick. by left. }
  { intros z. rewrite Hpick. by intros [->|?]%elem_of_cons; [left|right]. }
  { intros z ?. rewrite Hpick. by right. }
  unfold Eff.bind at 1. rewrite Hrun.
  destruct o1 as [[t'|]|e].
  - destruct Hnext as [_ Hinv1].
    destruct (IH (t' :: rest') w1 Hinv1) as (o & w' & Hrest & Hframe' & Hout).
    exists o, w'. split_and!; [done|by eapply savesFrame_trans|done].
  - destruct (IH rest' w1 Hnext) as (o & w' & Hrest & Hframe' & Hout).
    exists o, w'. split_and!; [done|by eapply savesFrame_trans|done].
  - by exists (Eff.Thrown e), w1.
Qed.

Lemma startSaves_run this bundles w :
  startSaves this bundles w = (Eff.Returned (tasksOf (process w) this bundles), w).
Proof.
  induction bundles as [|[bundle pattern] rest IH]; [done|].
  cbn [startSaves]. unfold Eff.bind at 1. unfold saveArtifactBundleStart at 1.
  run_save. by rewrite IH.
Qed.

(** At the start every file is covered by the task of its bundle. *)
Lemma savesInv_start this bundles w :
  savesInv bundles.*2 (metaFilesOf (process w) this bundles)
    (tasksOf (process w) this bundles) w.
Proof.
  split.
  - intros f pattern Hin _ _ _.
    apply list_elem_of_fmap in Hin as ([bundle pattern'] & -> & Hin).
    exists (AwaitCreate bundle pattern' (getBundleMetaFile (process w) this bundle)).
    split_and!; [|done..].
    apply list_elem_of_fmap. by exists (bundle, pattern').
  - apply Forall_forall. intros t Ht.
    apply list_elem_of_fmap in Ht as ([bundle pattern] & -> & Hin).
    split_and!; [..|done].
    + apply list_elem_of_fmap. by exists (bundle, pattern).
    + apply list_elem_of_fmap. by exists (bundle, pattern).
Qed.

(** With cache debugging the saves run one after the other, until one of
    them rejects. *)
Lemma forEach_save_run patterns metaFiles this bundles w :
  savesInv patterns metaFiles (tasksOf (process w) this bundles) w →
  ∃ o w',
    Eff.forEach (λ kv, saveArtifactBundle this kv.1 kv.2) bundles w = (o, w')
    ∧ savesFrame patterns metaFiles w w'
    ∧ savesOutcome patterns metaFiles [] o w'.
Proof.
  revert w. induction bundles as [|[bundle pattern] rest IH]; intros w Hinv.
  { exists (Eff.Returned tt), w. split_and!; [done|apply savesFrame_refl|done]. }
  cbn [Eff.forEach fst snd]. unfold Eff.bind at 1.
  rewrite saveArtifactBundle_staged.
  destruct (finishSave_run patterns metaFiles this 3
              (AwaitCreate bundle pattern (getBundleMetaFile (process w) this bundle))
              (tasksOf (process w) this rest) w) as (o1 & w1 & -> & Hframe & Hout1);
    [simpl; lia|done|].
  destruct o1 as [[]|e]; [|by exists (Eff.Thrown e), w1].
  destruct Hframe as (Hp & Hframe). cbn [GradleUserHome.savesOutcome] in Hout1.
  rewrite <- Hp in Hout1.
  destruct (IH w1 Hout1) as (o & w' & Hrest & Hframe' & Hout).
  exists o, w'. split_and!; [done| |done].
  eapply savesFrame_trans; [|done]. by split.
Qed.

Lemma getArtifactBundles_eq this w :
  getArtifactBundles this w
  = (match parseBundles (getInputArtifactBundles (process w)) with
     | Eff.Returned definition =>
         Eff.Returned
           (newMap ((λ kv, (kv.1, Path.resolve (cwd (process w))
                                    [gradleUserHome this; kv.2])) <$> definition))
     | Eff.Thrown e => Eff.Thrown e
     end,
     mkWorld (process w) (files w) (remote w)
       (log w ++ [Debug ("Using artifact bundle definition: "
                         +:+ getInputArtifactBundles (process w))])).
Proof.
  unfold GradleUserHome.getArtifactBundles. run_save.
  by destruct (parseBundles _).
Qed.

(** The batch of saves: its outcome, what it leaves and what it spares. *)
Lemma saveArtifactBundles_run this schedule w :
  match parseBundles (getInputArtifactBundles (process w)) with
  | Eff.Thrown e =>
      saveArtifactBundles this schedule w
      = (Eff.Thrown e,
         mkWorld (process w) (files w) (remote w)
           (log w ++ [Debug ("Using artifact bundle definition: "
                             +:+ getInputArtifactBundles (process w))]))
  | Eff.Returned _ =>
      ∃ bundles o w',
        (getArtifactBundles this w).1 = Eff.Returned bundles
        ∧ saveArtifactBundles this schedule w = (o, w')
        ∧ savesFrame bundles.*2 (metaFilesOf (process w) this bundles) w w'
        ∧ savesOutcome bundles.*2 (metaFilesOf (process w) this bundles) [] o w'
  end.
Proof.
  pose proof (getArtifactBundles_eq this w) as Hbundles.
  destruct (parseBundles (getInputArtifactBundles (process w))) as [definition|e];
    unfold GradleUserHome.saveArtifactBundles; unfold Eff.bind at 1;
    rewrite Hbundles; [|done].
  cbn [fst]. clear Hbundles.
  set (bundles := newMap _).
  set (w0 := mkWorld (process w) (files w) (remote w) _).
  assert (savesFrame bundles.*2 (metaFilesOf (process w) this bundles) w w0) as Hframe0.
  { split_and!; [done|by left|done|]. unfold w0. cbn [log]. same_calls. }
  pose proof (savesInv_start this bundles w0) as Hinv0.
  change (process w0) with (process w) in Hinv0.
  exists bundles. destruct (cacheDebuggingEnabled this).
  - destruct (forEach_save_run _ _ this bundles w0 Hinv0)
      as (o & w' & Hrun & Hframe & Hout).
    exists o, w'. split_and!; [done|done|by eapply savesFrame_trans|done].
  - unfold Eff.bind at 1. rewrite startSaves_run.
    change (process w0) with (process w).
    destruct (settleSaves_run _ _ this schedule _ w0 Hinv0)
      as (o & w' & Hrun & Hframe & Hout).
    exists o, w'. split_and!; [done|done|by eapply savesFrame_trans|done].
Qed.

(** X9.  [saveArtifactBundles] throws only for a bundle definition that
    does not parse or for a meta-file that cannot be written.  When the
    definition does not parse, the batch throws the error of the parser
    before it touches a file or the cache service.  When it parses and
    the directory of every meta-file exists, the batch returns without
    error, with or without cache debugging and in whatever order the
    saves advance; and when it throws all the same, the error is that of
    the write of the meta-file of a bundle whose directory is missing. *)
Theorem save_batch_throws_only_on_bad_definition_or_write this schedule w :
  let r := saveArtifactBundles this schedule w in
  (∀ e, parseBundles (getInputArtifactBundles (process w)) = Eff.Thrown e →
     r = (Eff.Thrown e,
          mkWorld (process w) (files w) (remote w)
            (log w ++ [Debug ("Using artifact bundle definition: "
                              +:+ getInputArtifactBundles (process w))])))
  ∧ (∀ bundles, (getArtifactBundles this w).1 = Eff.Returned bundles →
       ((∀ mf w', mf ∈ metaFilesOf (process w) this bundles →
                  directoryExists (Path.dirname mf) w' = true) →
        r.1 = Eff.Returned tt)
       ∧ (∀ e, r.1 = Eff.Thrown e →
            ∃ mf w',
              mf ∈ metaFilesOf (process w) this bundles
              ∧ directoryExists (Path.dirname mf) w' = false
              ∧ e = "ENOENT: no such file or directory, open '" +:+ mf +:+ "'")).
Proof.
  intros r. pose proof (saveArtifactBundles_run this schedule w) as Hrun. split.
  - intros e He. by rewrite He in Hrun.
  - intros bundles Hbundles.
    rewrite getArtifactBundles_eq in Hbundles. cbn [fst] in Hbundles.
    destruct (parseBundles _) as [definition|e] eqn:Hparse; [|done].
    destruct Hrun as (bundles' & o & w' & Hbundles' & Hr & _ & Hout).
    rewrite getArtifactBundles_eq, Hparse in Hbundles'. cbn [fst] in Hbundles'.
    assert (bundles' = bundles) as -> by congruence.
    unfold r. rewrite Hr. cbn [fst]. split.
    + intros Hdirs. destruct o as [[]|e]; [done|].
      destruct Hout as (mf & w1 & Hin & Hdir & _).
      by rewrite (Hdirs mf w1 Hin) in Hdir.
    + intros e [= ->]. exact Hout.
Qed.

(** X10.  When [saveArtifactBundles] has returned, no file that the
    pattern of a bundle matches is left, the meta-files of the bundles
    apart: with or without cache debugging, and in whatever order the
    saves advance. *)
Theorem save_batch_leaves_no_matched_file this schedule w bundles name pattern f :
  (getArtifactBundles this w).1 = Eff.Returned bundles →
  (name, pattern) ∈ bundles → globMatch pattern f = true →
  f ∉ metaFilesOf (process w) this bundles →
  (saveArtifactBundles this schedule w).1 = Eff.Returned tt →
  files (saveArtifactBundles this schedule w).2 !! f = None.
Proof.
  intros Hbundles Hin Hmatch Hnot Hreturned.
  pose proof (saveArtifactBundles_run this schedule w) as Hrun.
  rewrite getArtifactBundles_eq in Hbundles. cbn [fst] in Hbundles.
  destruct (parseBundles _) as [definition|e] eqn:Hparse; [|done].
  destruct Hrun as (bundles' & o & w' & Hbundles' & Hr & _ & Hout).
  rewrite getArtifactBundles_eq, Hparse in Hbundles'. cbn [fst] in Hbundles'.
  assert (bundles' = bundles) as -> by congruence.
  rewrite Hr in Hreturned |- *. cbn [fst snd] in *. subst o.
  destruct Hout as [Hcovered _].
  apply eq_None_not_Some. intros Hsome.
  destruct (Hcovered f pattern) as (t & Ht & _); try done.
  - apply list_elem_of_fmap. by exists (name, pattern).
  - by apply elem_of_nil in Ht.
Qed.

(** X11.  [saveArtifactBundles] spares what is not its own: outside the
    meta-files of the bundles it creates no file and changes the content
    of none, it deletes no file that no bundle pattern matches, it keeps
    every entry that the cache service has, and it never calls
    [restoreCache]. *)
Theorem save_batch_spares_unmatched_files this schedule w bundles f :
  (getArtifactBundles this w).1 = Eff.Returned bundles →
  f ∉ metaFilesOf (process w) this bundles →
  let r := saveArtifactBundles this schedule w in
  process r.2 = process w
  ∧ (files r.2 !! f = files w !! f ∨ files r.2 !! f = None)
  ∧ ((∀ name pattern, (name, pattern) ∈ bundles → globMatch pattern f = false) →
     files r.2 !! f = files w !! f)
  ∧ (∀ key, is_Some (remote w !! key) → remote r.2 !! key = remote w !! key)
  ∧ restoreCalls (log r.2) = restoreCalls (log w).
Proof.
  intros Hbundles Hnot r.
  pose proof (saveArtifactBundles_run this schedule w) as Hrun.
  rewrite getArtifactBundles_eq in Hbundles. cbn [fst] in Hbundles.
  destruct (parseBundles _) as [definition|e] eqn:Hparse; [|done].
  destruct Hrun as (bundles' & o & w' & Hbundles' & Hr & (Hp & Hf & Hrem & Hlog) & _).
  rewrite getArtifactBundles_eq, Hparse in Hbundles'. cbn [fst] in Hbundles'.
  assert (bundles' = bundles) as -> by congruence.
  unfold r. rewrite Hr. cbn [snd]. split_and!; [done| | |done..].
  - destruct (Hf f Hnot) as [?|[? _]]; [by left|by right].
  - intros Hnone. destruct (Hf f Hnot) as [?|[_ (p & Hp' & Hm)]]; [done|].
    apply list_elem_of_fmap in Hp' as ([name pattern] & -> & Hin).
    simpl in Hm. by rewrite (Hnone name pattern Hin) in Hm.
Qed.

End SaveBatchFacts.

(** ** One bundle saved again, and saved then restored *)

Section SaveAgainFacts.

Import GradleUserHome.

Variable globMatch : string → string → bool.
Variable getCacheKeyPrefix : gmap string string → string.
Variable hashFileNames : list string → string.
Variable directoryExists : string → World → bool.

Local Abbreviation matchedFiles := (GradleUserHome.matchedFiles globMatch).
Local Abbreviation cacheKeyFor :=
  (GradleUserHome.cacheKeyFor getCacheKeyPrefix hashFileNames).
Local Abbreviation saveArtifactBundle :=
  (GradleUserHome.saveArtifactBundle globMatch getCacheKeyPrefix hashFileNames
     directoryExists).

(** The branch without files. *)
Lemma save_empty_run this bundle pattern w :
  matchedFiles pattern w = [] →
  saveArtifactBundle this bundle pattern w
  = (Eff.Returned tt,
     mkWorld (process w)
       (delete (getBundleMetaFile (process w) this bundle) (files w)) (remote w)
       (log w ++ [Debug ("No files found to cache for " +:+ bundle)])).
Proof.
  intros Hempty. unfold GradleUserHome.saveArtifactBundle. run_eff.
  rewrite Hempty. simpl. unfold tryDelete. run_eff.
  case_bool_decide as Hmf; simpl.
  - by rewrite bool_decide_true by done.
  - do 3 f_equal. symmetry. apply delete_id. by apply eq_None_not_Some.
Qed.

(** After a save that has returned the pattern matches nothing, unless
    it matches the meta-file. *)
Lemma save_clears_matched this bundle pattern w :
  globMatch pattern (getBundleMetaFile (process w) this bundle) = false →
  (saveArtifactBundle this bundle pattern w).1 = Eff.Returned tt →
  ∃ w1,
    saveArtifactBundle this bundle pattern w = (Eff.Returned tt, w1)
    ∧ process w1 = process w ∧ matchedFiles pattern w1 = [].
Proof.
  intros Hmf Hreturned. set (mf := getBundleMetaFile (process w) this bundle) in *.
  destruct (decide (matchedFiles pattern w = [])) as [Hempty|Hne].
  { rewrite save_empty_run by done. eexists. split_and!; [done..|].
    fold mf. apply elem_of_nil_inv. intros f.
    rewrite matchedFiles_spec. cbn [files]. intros [Hm Hsome].
    assert (f ≠ mf) as Hf by (intros Heq; rewrite Heq in Hm; congruence).
    rewrite lookup_delete_ne in Hsome by done.
    assert (f ∈ matchedFiles pattern w) as Hin by by apply matchedFiles_spec.
    rewrite Hempty in Hin. by apply elem_of_nil in Hin. }
  assert (∃ p fs rem l,
    saveArtifactBundle this bundle pattern w
    = (Eff.Returned tt, mkWorld p (deleteAll (matchedFiles pattern w) fs) rem l)
    ∧ p = process w
    ∧ (∀ f, f ≠ mf → fs !! f = files w !! f)) as (p & fs & rem & l & Hr & -> & Hfs).
  { destruct (decide (storedKey w mf
                      = cacheKeyFor this bundle (matchedFiles pattern w) w)) as [Heq|Hdiff].
    - destruct (save_unchanged globMatch getCacheKeyPrefix hashFileNames directoryExists
                  this bundle pattern w Hne Heq) as (ev & ws & Hr & _).
      by eexists _, _, _, _.
    - destruct (save_changed_returned globMatch getCacheKeyPrefix hashFileNames
                  directoryExists this bundle pattern w Hne Hdiff Hreturned)
        as (rem & l & Hr).
      eexists _, _, _, _. split_and!; [exact Hr|done|].
      intros f Hf. by rewrite lookup_insert_ne. }
  eexists. split_and!; [exact Hr|done|].
  apply elem_of_nil_inv. intros f.
  rewrite matchedFiles_spec. cbn [files]. rewrite lookup_deleteAll.
  intros [Hm Hsome]. case_decide as Hin; [by destruct Hsome|].
  apply Hin, matchedFiles_spec. split; [done|].
  rewrite <- Hfs; [done|]. intros Heq. rewrite Heq in Hm. congruence.
Qed.

(** X12.  [saveArtifactBundle] settles after two runs: unless the pattern
    matches the meta-file of the bundle, after a save that has returned
    and a second one with nothing regenerated in between, the second has
    returned as well, neither a matched file nor the meta-file is left,
    and a third save changes neither the file system nor the cache
    service. *)
Theorem save_settles_after_two_runs this bundle pattern w :
  let mf := getBundleMetaFile (process w) this bundle in
  let save := saveArtifactBundle this bundle pattern in
  globMatch pattern mf = false →
  (save w).1 = Eff.Returned tt →
  let w2 := (save (save w).2).2 in
  (save (save w).2).1 = Eff.Returned tt
  ∧ matchedFiles pattern w2 = [] ∧ files w2 !! mf = None
  ∧ (save w2).1 = Eff.Returned tt
  ∧ files (save w2).2 = files w2 ∧ remote (save w2).2 = remote w2.
Proof.
  intros mf save Hmf Hreturned w2.
  destruct (save_clears_matched this bundle pattern w Hmf Hreturned)
    as (w1 & Hr1 & Hp1 & Hm1).
  assert (w2 = mkWorld (process w1) (delete mf (files w1)) (remote w1)
                 (log w1 ++ [Debug ("No files found to cache for " +:+ bundle)]))
    as Hw2.
  { unfold w2, save. rewrite Hr1. cbn [snd]. rewrite save_empty_run by done.
    cbn [snd]. unfold mf. by rewrite Hp1. }
  assert (matchedFiles pattern w2 = []) as Hm2.
  { apply elem_of_nil_inv. intros f. rewrite matchedFiles_spec, Hw2. cbn [files].
    intros [Hm Hsome].
    assert (f ≠ mf) as Hf by (intros Heq; rewrite Heq in Hm; congruence).
    rewrite lookup_delete_ne in Hsome by done.
    assert (f ∈ matchedFiles pattern w1) as Hin by by apply matchedFiles_spec.
    rewrite Hm1 in Hin. by apply elem_of_nil in Hin. }
  assert (files w2 !! mf = None) as Hnone.
  { rewrite Hw2. cbn [files]. apply lookup_delete_eq. }
  split_and!; [|done|done|..]; unfold save;
    [by rewrite Hr1, save_empty_run|rewrite save_empty_run by done..];
    [done| |done].
  cbn [snd files]. apply delete_id.
  replace (process w2) with (process w); [done|]. rewrite Hw2. by cbn [process].
Qed.

(** The upload branch with a key that the cache service does not have:
    the entry that is stored, whether the write that follows succeeds or
    not. *)
Lemma save_changed_stores this bundle pattern w :
  let mf := getBundleMetaFile (process w) this bundle in
  let matched := matchedFiles pattern w in
  let key := cacheKeyFor this bundle matched w in
  matched ≠ [] → storedKey w mf ≠ key → remote w !! key = None →
  remote (saveArtifactBundle this bundle pattern w).2
  = <[key := Archive (filter (λ kv, existsb (λ p, globMatch p kv.1) [pattern])
                        (files w))]> (remote w).
Proof.
  intros mf matched key Hne Hkey Hnew.
  destruct (save_changed globMatch getCacheKeyPrefix hashFileNames directoryExists
              this bundle pattern w Hne Hkey) as (ev & _ & Hrun).
  cbv zeta in Hrun. fold mf matched key in Hrun. rewrite Hnew in Hrun.
  destruct (directoryExists _ _).
  - destruct Hrun as (ws & -> & _). done.
  - by rewrite Hrun.
Qed.

(** X13.  What [saveArtifactBundle] uploads, [restoreArtifactBundle]
    brings back: after a save that stored the matched files under a key
    new to the cache service, a restore of the same bundle, in a world
    with that cache service whose meta-file holds the key, returns
    without error and every file that the save had matched is there
    again with the content it had.  The key is one that trimming leaves
    as it is. *)
Theorem saved_bundle_restores this bundle pattern w w2 f :
  let mf := getBundleMetaFile (process w) this bundle in
  let matched := matchedFiles pattern w in
  let key := cacheKeyFor this bundle matched w in
  matched ≠ [] → storedKey w mf ≠ key → remote w !! key = None →
  Js.trim key = key →
  process w2 = process w →
  remote w2 = remote (saveArtifactBundle this bundle pattern w).2 →
  files w2 !! mf = Some key →
  f ∈ matched →
  (restoreArtifactBundle this bundle pattern w2).1 = Eff.Returned tt
  ∧ files (restoreArtifactBundle this bundle pattern w2).2 !! f = files w !! f.
Proof.
  intros mf matched key Hne Hkey Hnew Htrim Hp2 Hr2 Hmf2 Hf.
  pose proof (save_changed_stores this bundle pattern w Hne Hkey Hnew) as Hsave.
  fold mf matched key in Hsave. rewrite Hsave in Hr2.
  unfold restoreArtifactBundle, Eff.bind.
  rewrite restoreArtifactBundleStart_run, Hp2. fold mf. rewrite Hmf2, Htrim.
  unfold restoreArtifactBundleResume. run_eff.
  rewrite Hr2, lookup_insert_eq. simpl.
  apply matchedFiles_spec in Hf as [Hm [content Hcontent]].
  assert (filter (λ kv : string * string, globMatch pattern kv.1 || false) (files w) !! f
          = Some content) as Harchive.
  { apply map_lookup_filter_Some. split; [done|]. simpl. by rewrite Hm. }
  destruct (Js.truthy key); simpl;
    (split; [done|]); by rewrite (lookup_union_Some_l _ _ _ _ Harchive).
Qed.

(** The meta-file of a bundle whose name has no slash lies directly in
    the directory [caches] of a resolved [gradleUserHome]. *)
Lemma metafile_directory proc this name root :
  gradleUserHome this = Path.ofSegments root → Forall Path.plainSegment root →
  Path.split name = [name] →
  Path.dirname (getBundleMetaFile proc this name) = Path.ofSegments (root ++ ["caches"]).
Proof.
  intros Hhome Hroot Hname. unfold getBundleMetaFile. rewrite Hhome.
  pose proof (metafile_name_plain name Hname) as Hfile.
  rewrite resolve_ofSegments by done.
  change (root ++ ["caches"; ".gradle-build-action." +:+ name +:+ ".cache"])
    with (root ++ ["caches"] ++ [".gradle-build-action." +:+ name +:+ ".cache"]).
  rewrite (assoc_L (++)). apply dirname_ofSegments; [by destruct root|..|done].
  apply Forall_app. split; [done|]. by repeat constructor.
Qed.

(** X19.  A meta-file that cannot be written makes the save upload
    again: for a resolved [gradleUserHome] whose directory [caches] does
    not exist and a bundle name without a slash, a save that finds
    matched files and another stored key (or none) calls [saveCache]
    once and then throws the error of the write of the meta-file; it
    has deleted no file and written none, so that a second save finds
    the same files and the same stored key, calls [saveCache] again
    with the same key and throws again. *)
Theorem save_without_caches_directory_uploads_again this bundle pattern w root :
  let mf := getBundleMetaFile (process w) this bundle in
  let matched := matchedFiles pattern w in
  let key := cacheKeyFor this bundle matched w in
  let save := saveArtifactBundle this bundle pattern in
  let enoent :=
    Eff.Thrown ("ENOENT: no such file or directory, open '" +:+ mf +:+ "'") in
  gradleUserHome this = Path.ofSegments root → Forall Path.plainSegment root →
  Path.split bundle = [bundle] →
  (∀ w', directoryExists (Path.ofSegments (root ++ ["caches"])) w' = false) →
  matched ≠ [] → storedKey w mf ≠ key →
  (save w).1 = enoent
  ∧ process (save w).2 = process w ∧ files (save w).2 = files w
  ∧ uploads (performed save w) = [SaveCacheCall [pattern] key]
  ∧ (save (save w).2).1 = enoent
  ∧ files (save (save w).2).2 = files w
  ∧ uploads (performed save (save w).2) = [SaveCacheCall [pattern] key].
Proof.
  intros mf matched key save enoent Hhome Hroot Hname Hdir Hne Hkey.
  assert (∀ w0, process w0 = process w → files w0 = files w →
            (save w0).1 = enoent
            ∧ process (save w0).2 = process w ∧ files (save w0).2 = files w
            ∧ uploads (performed save w0) = [SaveCacheCall [pattern] key]) as Hrun.
  { intros w0 Hp Hf.
    assert (matchedFiles pattern w0 = matched) as Hmatched.
    { unfold matched, GradleUserHome.matchedFiles. by rewrite Hf. }
    assert (cacheKeyFor this bundle (matchedFiles pattern w0) w0 = key) as Hkey0.
    { rewrite Hmatched. by apply cacheKeyFor_process. }
    assert (getBundleMetaFile (process w0) this bundle = mf) as Hmf
      by (unfold mf; by rewrite Hp).
    assert (storedKey w0 mf = storedKey w mf) as Hstored
      by (unfold storedKey; by rewrite Hf).
    pose proof (save_changed_uploads globMatch getCacheKeyPrefix hashFileNames
                  directoryExists this bundle pattern w0) as Hup.
    destruct (save_changed globMatch getCacheKeyPrefix hashFileNames directoryExists
                this bundle pattern w0) as (ev & _ & Hsave).
    { by rewrite Hmatched. }
    { by rewrite Hmf, Hkey0, Hstored. }
    cbv zeta in Hsave, Hup. rewrite Hmf, Hkey0 in Hsave. rewrite Hmf, Hkey0 in Hup.
    unfold mf in Hsave at 1.
    rewrite (metafile_directory _ _ _ root Hhome Hroot Hname), Hdir in Hsave.
    unfold save. rewrite Hsave. cbn [fst snd process files].
    split_and!; [done..|]. apply Hup.
    - by rewrite Hmatched.
    - by rewrite Hstored. }
  destruct (Hrun w eq_refl eq_refl) as (H1 & H2 & H3 & H4).
  destruct (Hrun (save w).2 H2 H3) as (H5 & _ & H6 & H7).
  by split_and!.
Qed.

End SaveAgainFacts.

(** ** What a batch of restores leaves alone *)

Section RestoreBatchFacts.

Import GradleUserHome.

Variable parseBundles : string → Eff.Outcome (list (string * string)).

Local Abbreviation restoreArtifactBundles :=
  (GradleUserHome.restoreArtifactBundles parseBundles).
Local Abbreviation getArtifactBundles :=
  (GradleUserHome.getArtifactBundles parseBundles).

Lemma onlyUnpacks_refl w : onlyUnpacks w w.
Proof. split_and!; auto. Qed.

Lemma onlyUnpacks_trans w1 w2 w3 :
  onlyUnpacks w1 w2 → onlyUnpacks w2 w3 → onlyUnpacks w1 w3.
Proof.
  intros (Hp1 & Hr1 & Hl1 & Hf1) (Hp2 & Hr2 & Hl2 & Hf2).
  split_and!; [congruence..|].
  intros f. destruct (Hf2 f) as [->|(key & content & Hkey & Hsome & ->)]; [done|].
  right. exists key, content. by rewrite <- Hr1.
Qed.

Lemma onlyUnpacks_log w evs :
  uploads evs = [] →
  onlyUnpacks w (mkWorld (process w) (files w) (remote w) (log w ++ evs)).
Proof.
  intros Hevs. split_and!; [done..| |by left].
  cbn [log]. by rewrite uploads_app, Hevs, app_nil_r.
Qed.

Lemma bind_unpacks {A B} (m : Eff.M World A) (k : A → Eff.M World B) w :
  onlyUnpacks w (m w).2 → (∀ a w', onlyUnpacks w' (k a w').2) →
  onlyUnpacks w (Eff.bind m k w).2.
Proof.
  intros Hm Hk. unfold Eff.bind. destruct (m w) as [[a|e] w1]; [|done].
  eapply onlyUnpacks_trans; [exact Hm|apply Hk].
Qed.

Lemma settled_unpacks {A} (m : Eff.M World A) w :
  onlyUnpacks w (m w).2 → onlyUnpacks w (Eff.settled m w).2.
Proof. unfold Eff.settled. by destruct (m w). Qed.

Lemma forEach_unpacks {A} (f : A → Eff.M World unit) l w :
  (∀ a w', onlyUnpacks w' (f a w').2) → onlyUnpacks w (Eff.forEach f l w).2.
Proof.
  intros Hf. revert w. induction l as [|x l IH]; intros w; [apply onlyUnpacks_refl|].
  cbn [Eff.forEach]. apply bind_unpacks; [apply Hf|]. intros _ w'. apply IH.
Qed.

Lemma restoreArtifactBundleStart_unpacks this bundle pattern w :
  onlyUnpacks w (restoreArtifactBundleStart this bundle pattern w).2.
Proof.
  rewrite restoreArtifactBundleStart_run.
  destruct (files w !! _); by apply onlyUnpacks_log.
Qed.

Lemma restoreArtifactBundleResume_unpacks bundle pattern key w :
  onlyUnpacks w (restoreArtifactBundleResume bundle pattern key w).2.
Proof.
  unfold restoreArtifactBundleResume. run_eff.
  destruct (remote w !! key) as [[content|e]|] eqn:Hrem; simpl;
    [|rewrite <- app_assoc; by apply onlyUnpacks_log|by apply onlyUnpacks_log].
  assert (∀ f, (content ∪ files w) !! f = files w !! f
               ∨ ∃ key0 content0,
                   remote w !! key0 = Some (Archive content0)
                   ∧ is_Some (content0 !! f)
                   ∧ (content ∪ files w) !! f = content0 !! f) as Hfiles.
  { intros f. destruct (content !! f) as [v|] eqn:Hf.
    - right. exists key, content. split_and!; [done|by rewrite Hf|].
      rewrite Hf. by apply lookup_union_Some_l.
    - left. by apply lookup_union_r. }
  destruct (Js.truthy key); simpl; (split_and!; [done..| |done]);
    cbn [log]; by rewrite uploads_app, app_nil_r.
Qed.

Lemma restoreArtifactBundle_unpacks this bundle pattern w :
  onlyUnpacks w (restoreArtifactBundle this bundle pattern w).2.
Proof.
  unfold restoreArtifactBundle.
  apply bind_unpacks; [apply restoreArtifactBundleStart_unpacks|].
  intros [key|] w'; [apply restoreArtifactBundleResume_unpacks|apply onlyUnpacks_refl].
Qed.

Lemma startRestores_unpacks this bundles w :
  onlyUnpacks w (startRestores this bundles w).2.
Proof.
  revert w. induction bundles as [|[bundle pattern] rest IH]; intros w;
    [apply onlyUnpacks_refl|].
  cbn [startRestores].
  apply bind_unpacks; [apply settled_unpacks, restoreArtifactBundleStart_unpacks|].
  intros o w'. apply bind_unpacks; [apply IH|]. intros r w''. apply onlyUnpacks_refl.
Qed.

Lemma settleInOrder_unpacks inflight w :
  onlyUnpacks w (settleInOrder inflight w).2.
Proof.
  revert w. induction inflight as [|x rest IH]; intros w; [apply onlyUnpacks_refl|].
  cbn [settleInOrder].
  apply bind_unpacks; [apply restoreArtifactBundleResume_unpacks|].
  intros o w'. apply IH.
Qed.

Lemma settleRestores_unpacks schedule inflight w :
  onlyUnpacks w (settleRestores schedule inflight w).2.
Proof.
  revert inflight w. induction schedule as [|choice schedule IH]; intros inflight w.
  { apply settleInOrder_unpacks. }
  destruct inflight as [|x rest]; [apply onlyUnpacks_refl|].
  cbn [settleRestores]. destruct (pickNext choice x rest) as [y rest'].
  apply bind_unpacks; [apply restoreArtifactBundleResume_unpacks|].
  intros o w'. apply IH.
Qed.

Lemma getArtifactBundles_unpacks this w :
  onlyUnpacks w (getArtifactBundles this w).2.
Proof. rewrite getArtifactBundles_eq. by apply onlyUnpacks_log. Qed.

Lemma restoreArtifactBundles_unpacks this schedule w :
  onlyUnpacks w (restoreArtifactBundles this schedule w).2.
Proof.
  unfold GradleUserHome.restoreArtifactBundles.
  apply bind_unpacks; [apply getArtifactBundles_unpacks|].
  intros bundles w1. destruct (cacheDebuggingEnabled this).
  - apply forEach_unpacks. intros [bundle pattern] w'.
    apply restoreArtifactBundle_unpacks.
  - apply bind_unpacks; [apply startRestores_unpacks|]. intros started w2.
    apply bind_unpacks; [|intros _ w3; apply settleRestores_unpacks].
    unfold promiseAll. destruct (started.2); apply onlyUnpacks_refl.
Qed.

(** X14.  Whatever its outcome, [restoreArtifactBundles] only unpacks:
    the cache service is left as it is, nothing is uploaded, no file is
    deleted, and a file that differs afterwards is the file of an
    archive of the cache service; with or without cache debugging, and
    in whatever order the restores settle. *)
Theorem restore_batch_only_unpacks this schedule w f :
  let r := restoreArtifactBundles this schedule w in
  remote r.2 = remote w
  ∧ uploads (log r.2) = uploads (log w)
  ∧ (is_Some (files w !! f) → is_Some (files r.2 !! f))
  ∧ (files r.2 !! f ≠ files w !! f →
     ∃ key content,
       remote w !! key = Some (Archive content) ∧ files r.2 !! f = content !! f).
Proof.
  intros r.
  destruct (restoreArtifactBundles_unpacks this schedule w) as (_ & Hrem & Hlog & Hfiles).
  fold r in Hrem, Hlog, Hfiles. split_and!; [done..| |].
  - intros Hsome. destruct (Hfiles f) as [->|(key & content & _ & Hc & ->)]; done.
  - intros Hdiff. destruct (Hfiles f) as [?|(key & content & Hkey & _ & Hf)]; [done|].
    by exists key, content.
Qed.

End RestoreBatchFacts.

(** ** The size report and the hooks *)

Section ReportFacts.

Import Js.

Lemma splitOn_nonempty c s : splitOn c s ≠ [].
Proof.
  destruct s as [|d s]; [done|]. simpl.
  destruct (decide (d = c)); [done|]. by destruct (splitOn c s).
Qed.

Lemma splitOn_app_sep c a b :
  splitOn c (a +:+ String c b) = splitOn c a ++ splitOn c b.
Proof.
  induction a as [|d a IH].
  - simpl. by rewrite decide_True.
  - rewrite app_String. simpl. rewrite IH.
    destruct (decide (d = c)); [done|].
    pose proof (splitOn_nonempty c a). by destruct (splitOn c a).
Qed.

Lemma splitOn_free c s : occurs c s = false → splitOn c s = [s].
Proof.
  induction s as [|d s IH]; [done|]. simpl.
  intros [Hd Hs]%orb_false_elim. apply bool_decide_eq_false in Hd.
  by rewrite decide_False, IH.
Qed.

Lemma splitOn_segments c s : Forall (λ seg, occurs c seg = false) (splitOn c s).
Proof.
  induction s as [|d s IH]; [by repeat constructor|]. simpl.
  destruct (decide (d = c)) as [|Hd]; [by constructor|].
  pose proof (splitOn_nonempty c s). destruct (splitOn c s) as [|seg rest]; [done|].
  apply Forall_cons in IH as [Hseg Hrest]. constructor; [|done].
  simpl. by rewrite bool_decide_false.
Qed.

(** A code unit that does not occur in a string occurs in none of its
    segments. *)
Lemma splitOn_keeps_free c d s :
  occurs d s = false → Forall (λ seg, occurs d seg = false) (splitOn c s).
Proof.
  induction s as [|e s IH]; [by repeat constructor|]. simpl.
  intros [He Hs]%orb_false_elim. specialize (IH Hs).
  destruct (decide (e = c)) as [|Hne]; [by constructor|].
  pose proof (splitOn_nonempty c s). destruct (splitOn c s) as [|seg rest]; [done|].
  apply Forall_cons in IH as [Hseg Hrest]. constructor; [|done].
  simpl. by rewrite He.
Qed.

Lemma join_sep_cons sep x y l :
  join sep (x :: y :: l) = x +:+ sep +:+ join sep (y :: l).
Proof. reflexivity. Qed.

Lemma splitOn_join c l :
  l ≠ [] → Forall (λ seg, occurs c seg = false) l →
  splitOn c (join (String c "") l) = l.
Proof.
  intros Hne Hall. induction Hall as [|x l Hx Hl IH]; [done|].
  destruct l as [|y l]; [by apply splitOn_free|].
  rewrite join_sep_cons. change (String c "" +:+ ?s) with (String c s).
  by rewrite splitOn_app_sep, (splitOn_free c x), IH.
Qed.

Lemma occurs_app c a b : occurs c (a +:+ b) = occurs c a || occurs c b.
Proof.
  induction a as [|d a IH]; [done|]. rewrite app_String. simpl.
  by rewrite IH, orb_assoc.
Qed.

Lemma occurs_join c sep l :
  occurs c sep = false → Forall (λ seg, occurs c seg = false) l →
  occurs c (join sep l) = false.
Proof.
  intros Hsep Hall. induction Hall as [|x l Hx Hl IH]; [done|].
  destruct l as [|y l]; [done|].
  by rewrite join_sep_cons, !occurs_app, Hx, Hsep, IH.
Qed.

Lemma replaceAll_removes c replacement s :
  occurs c replacement = false → occurs c (replaceAll c replacement s) = false.
Proof.
  intros Hr. induction s as [|d s IH]; [done|]. simpl.
  destruct (decide (d = c)) as [|Hd].
  - by rewrite occurs_app, Hr, IH.
  - simpl. by rewrite bool_decide_false.
Qed.

Lemma splitOn_free_prefix c a s :
  occurs c a = false → length (splitOn c (a +:+ s)) = length (splitOn c s).
Proof.
  induction a as [|d a IH]; [done|]. rewrite app_String. simpl.
  intros [Hd Ha]%orb_false_elim. apply bool_decide_eq_false in Hd.
  rewrite decide_False by done. specialize (IH Ha).
  pose proof (splitOn_nonempty c (a +:+ s)).
  by destruct (splitOn c (a +:+ s)).
Qed.

(** Replacing a code unit by a string without line feeds keeps the number
    of lines. *)
Lemma replaceAll_lines c d replacement s :
  c ≠ d → occurs c replacement = false →
  length (splitOn c (replaceAll d replacement s)) = length (splitOn c s).
Proof.
  intros Hcd Hr. induction s as [|e s IH]; [done|]. simpl.
  destruct (decide (e = d)) as [->|He].
  - rewrite splitOn_free_prefix, IH by done.
    rewrite decide_False by done.
    pose proof (splitOn_nonempty c s). by destruct (splitOn c s).
  - simpl. destruct (decide (e = c)); [simpl; by rewrite IH|].
    pose proof (splitOn_nonempty c s).
    pose proof (splitOn_nonempty c (replaceAll d replacement s)).
    destruct (splitOn c s), (splitOn c (replaceAll d replacement s)); try done;
      simpl in *; lia.
Qed.

(** X15.  The text that [reportGradleUserHomeSize] prints for the output
    of [du]: one line for each line of the output without its trailing
    white space, each indented by two spaces, with every tab replaced by
    four spaces, so that no tab is left. *)
Theorem disk_usage_report_format stdout :
  let report := GradleUserHome.formatDiskUsage stdout in
  splitOn "010" report
  = (λ it, "  " +:+ it) <$> splitOn "010" (replaceAll "009" "    " (trimEnd stdout))
  ∧ length (splitOn "010" report) = length (splitOn "010" (trimEnd stdout))
  ∧ occurs "009" report = false.
Proof.
  intros report.
  set (lines := splitOn "010" (replaceAll "009" "    " (trimEnd stdout))).
  assert (splitOn "010" report = (λ it, "  " +:+ it) <$> lines) as Hlines.
  { unfold report, GradleUserHome.formatDiskUsage. fold lines.
    apply splitOn_join.
    - pose proof (splitOn_nonempty "010" (replaceAll "009" "    " (trimEnd stdout))).
      fold lines in H. by destruct lines.
    - apply Forall_fmap. eapply Forall_impl; [apply splitOn_segments|].
      intros seg Hseg. simpl. by rewrite occurs_app, Hseg. }
  split_and!; [done| |].
  - rewrite Hlines, length_fmap. by apply replaceAll_lines.
  - unfold report, GradleUserHome.formatDiskUsage. fold lines.
    apply occurs_join; [done|]. apply Forall_fmap.
    eapply Forall_impl; [apply (splitOn_keeps_free "010" "009")|].
    + by apply replaceAll_removes.
    + intros seg Hseg. simpl. by rewrite occurs_app, Hseg.
Qed.

End ReportFacts.

Section HookFacts.

Import GradleUserHome.

Variable globMatch : string → string → bool.
Variable getCacheKeyPrefix : gmap string string → string.
Variable hashFileNames : list string → string.
Variable parseBundles : string → Eff.Outcome (list (string * string)).
Variable directoryExists : string → World → bool.
Variable duOutput : string → World → Eff.Outcome string.

Local Abbreviation reportGradleUserHomeSize :=
  (GradleUserHome.reportGradleUserHomeSize directoryExists duOutput).
Local Abbreviation afterRestore :=
  (GradleUserHome.afterRestore parseBundles directoryExists duOutput).
Local Abbreviation beforeSave :=
  (GradleUserHome.beforeSave globMatch getCacheKeyPrefix hashFileNames parseBundles
     directoryExists duOutput).
Local Abbreviation saveArtifactBundles :=
  (GradleUserHome.saveArtifactBundles globMatch getCacheKeyPrefix hashFileNames
     parseBundles directoryExists).
Local Abbreviation getArtifactBundles :=
  (GradleUserHome.getArtifactBundles parseBundles).

(** The size report changes nothing but the log, and when it throws it
    is [du] that has failed, before anything was printed. *)
Lemma reportGradleUserHomeSize_run this label w :
  ∃ o evs,
    reportGradleUserHomeSize this label w
    = (o, mkWorld (process w) (files w) (remote w) (log w ++ evs))
    ∧ uploads evs = []
    ∧ match o with
      | Eff.Returned _ => True
      | Eff.Thrown e =>
          evs = [] ∧ cacheDebuggingEnabled this = true
          ∧ directoryExists (gradleUserHome this) w = true
          ∧ duOutput (gradleUserHome this) w = Eff.Thrown e
      end.
Proof.
  unfold GradleUserHome.reportGradleUserHomeSize.
  destruct (cacheDebuggingEnabled this); simpl;
    [|exists (Eff.Returned tt), []; destruct w; simpl; by rewrite app_nil_r].
  run_eff. destruct (directoryExists (gradleUserHome this) w) eqn:Hex; simpl;
    [|exists (Eff.Returned tt), []; destruct w; simpl; by rewrite app_nil_r].
  destruct (duOutput (gradleUserHome this) w) as [stdout|e] eqn:Hdu; simpl.
  - eexists (Eff.Returned tt), [_; _; _]. rewrite <- !app_assoc. by split_and!.
  - exists (Eff.Thrown e), []. destruct w; simpl. by rewrite app_nil_r.
Qed.

(** X16.  A size report that fails stops the hooks at once: with cache
    debugging and an existing Gradle user home, when [du] cannot be run,
    [afterRestore] and [beforeSave] throw its error and no bundle is
    restored or saved; nothing at all has changed. *)
Theorem size_report_failure_aborts_hooks this schedule w e :
  cacheDebuggingEnabled this = true →
  directoryExists (gradleUserHome this) w = true →
  duOutput (gradleUserHome this) w = Eff.Thrown e →
  afterRestore this schedule w = (Eff.Thrown e, w)
  ∧ beforeSave this schedule w = (Eff.Thrown e, w).
Proof.
  intros Hdebug Hex Hdu.
  assert (reportGradleUserHomeSize this "as restored from cache" w = (Eff.Thrown e, w)
          ∧ reportGradleUserHomeSize this "before saving common artifacts" w
            = (Eff.Thrown e, w)) as [H1 H2].
  { unfold GradleUserHome.reportGradleUserHomeSize. rewrite Hdebug. simpl.
    run_eff. rewrite Hex. simpl. by rewrite Hdu. }
  unfold GradleUserHome.afterRestore, GradleUserHome.beforeSave.
  unfold Eff.bind at 1 3. by rewrite H1, H2.
Qed.

(** X17.  The size reports take nothing from what the batches ensure:
    whatever its outcome, [afterRestore] leaves the cache service as it
    is, uploads nothing and deletes no file; and when [beforeSave] has
    returned, no file that the pattern of a bundle matches is left, the
    meta-files of the bundles apart. *)
Theorem hooks_keep_what_batches_ensure this schedule w :
  onlyUnpacks w (afterRestore this schedule w).2
  ∧ ∀ bundles name pattern f,
      (beforeSave this schedule w).1 = Eff.Returned tt →
      (getArtifactBundles this w).1 = Eff.Returned bundles →
      (name, pattern) ∈ bundles → globMatch pattern f = true →
      f ∉ metaFilesOf (process w) this bundles →
      files (beforeSave this schedule w).2 !! f = None.
Proof.
  assert (∀ label w0, onlyUnpacks w0 (reportGradleUserHomeSize this label w0).2)
    as Hreport.
  { intros label w0.
    destruct (reportGradleUserHomeSize_run this label w0) as (o & evs & -> & Hevs & _).
    by apply onlyUnpacks_log. }
  split.
  { unfold GradleUserHome.afterRestore.
    apply bind_unpacks; [apply Hreport|]. intros _ w1.
    apply bind_unpacks; [apply restoreArtifactBundles_unpacks|]. intros _ w2.
    apply Hreport. }
  intros bundles name pattern f Hreturned Hbundles Hin Hmatch Hnot.
  unfold GradleUserHome.beforeSave in *. unfold Eff.bind at 1 in Hreturned.
  unfold Eff.bind at 1.
  destruct (reportGradleUserHomeSize_run this "before saving common artifacts" w)
    as (o1 & evs1 & Hr1 & _).
  rewrite Hr1 in *. destruct o1 as [[]|e1]; [|done].
  set (w0 := mkWorld (process w) (files w) (remote w) (log w ++ evs1)) in *.
  pose proof (saveArtifactBundles_run globMatch getCacheKeyPrefix hashFileNames
                parseBundles directoryExists this schedule w0) as Hrun.
  rewrite getArtifactBundles_eq in Hbundles. cbn [fst] in Hbundles.
  change (process w0) with (process w) in Hrun.
  destruct (parseBundles _) as [definition|e] eqn:Hparse; [|done].
  destruct Hrun as (bundles' & o & w' & Hbundles' & Hsave & _ & Hout).
  rewrite getArtifactBundles_eq in Hbundles'. unfold w0 in Hbundles'.
  cbn [fst process] in Hbundles'. rewrite Hparse in Hbundles'.
  assert (bundles' = bundles) as -> by congruence.
  cbv beta iota in Hreturned |- *.
  unfold Eff.bind at 1 in Hreturned. unfold Eff.bind at 1. rewrite Hsave in *.
  destruct o as [[]|e]; [|done]. destruct Hout as [Hcovered _].
  destruct (reportGradleUserHomeSize_run this "after saving common artifacts" w')
    as (o2 & evs2 & -> & _).
  cbn [snd files]. apply eq_None_not_Some. intros Hsome.
  destruct (Hcovered f pattern) as (t & Ht & _); try done.
  - apply list_elem_of_fmap. by exists (name, pattern).
  - by apply elem_of_nil in Ht.
Qed.

End HookFacts.

(** ** The further properties on explicit inputs *)

Section FurtherInstances.

Import GradleUserHome.

Local Abbreviation saveArtifactBundle :=
  (GradleUserHome.saveArtifactBundle Sample.globMatch Sample.getCacheKeyPrefix
     Sample.hashFileNames Sample.directoryExists).
Local Abbreviation saveArtifactBundles :=
  (GradleUserHome.saveArtifactBundles Sample.globMatch Sample.getCacheKeyPrefix
     Sample.hashFileNames Sample.parseBundles Sample.directoryExists).
Local Abbreviation matchedFiles := (GradleUserHome.matchedFiles Sample.globMatch).
Local Abbreviation getArtifactBundles :=
  (GradleUserHome.getArtifactBundles Sample.parseBundles).
Local Abbreviation restoreArtifactBundles :=
  (GradleUserHome.restoreArtifactBundles Sample.parseBundles).

Lemma disabled_cache_only_prints_witness :
  Caches.backend
    (Caches.run (λ _, true) Sample.isCacheReadOnly Sample.gradleStateCacheInit
       Sample.gradleStateCacheRestore Sample.gradleStateCacheSave
       Sample.twoUses Sample.newJob) = 0.
Proof.
  exact (proj1 (disabled_cache_only_prints (λ _, true) Sample.isCacheReadOnly
                  Sample.gradleStateCacheInit Sample.gradleStateCacheRestore
                  Sample.gradleStateCacheSave Sample.twoUses Sample.newJob
                  (λ _, eq_refl))).
Defined.

Lemma read_only_cache_never_saves_witness :
  ∃ evs,
    Caches.output
      (Caches.run Sample.isCacheDisabled (λ _, true) Sample.gradleStateCacheInit
         Sample.gradleStateCacheRestore Sample.gradleStateCacheSave
         Sample.twoUses Sample.newJob) = [] ++ evs
    ∧ Forall (λ e, Caches.isStateCacheSave e = false) evs.
Proof.
  exact (read_only_cache_never_saves Sample.isCacheDisabled (λ _, true)
           Sample.gradleStateCacheInit Sample.gradleStateCacheRestore
           Sample.gradleStateCacheSave Sample.twoUses Sample.newJob (λ _, eq_refl)).
Defined.

Lemma failed_restore_sets_no_marker_witness :
  (Caches.restore Sample.isCacheDisabled Sample.gradleStateCacheInit
     (λ _ calls, (Eff.Thrown "Cache service responded with 503", S calls))
     "/home/u/.gradle" Sample.newJob).1
  = Eff.Thrown "Cache service responded with 503".
Proof.
  destruct (failed_restore_sets_no_marker Sample.isCacheDisabled Sample.isCacheReadOnly
              Sample.gradleStateCacheInit
              (λ _ calls, (Eff.Thrown "Cache service responded with 503", S calls))
              Sample.gradleStateCacheSave "/home/u/.gradle" Sample.newJob
              0 "Cache service responded with 503" 1) as [-> _];
    reflexivity.
Defined.

Lemma save_uses_what_restore_saved_witness :
  Caches.backend
    (Caches.runStep (λ _, false) (λ _, false) Sample.gradleStateCacheInit
       Sample.gradleStateCacheRestore Sample.gradleStateCacheSave
       (Caches.runStep (λ _, false) (λ _, false) Sample.gradleStateCacheInit
          Sample.gradleStateCacheRestore Sample.gradleStateCacheSave
          Sample.newJob (Caches.MainStep "/home/u/.gradle"))
       Caches.PostStep)
  = (Sample.gradleStateCacheSave "/home/u/.gradle" "{}" 1).2.
Proof.
  refine (proj1 (proj2 (save_uses_what_restore_saved (λ _, false) (λ _, false)
                          Sample.gradleStateCacheInit Sample.gradleStateCacheRestore
                          Sample.gradleStateCacheSave "/home/u/.gradle" Sample.newJob
                          0 "{}" 1 _ _ _ _ _))); reflexivity.
Defined.

Lemma gradle_user_home_location_witness :
  determineGradleUserHome Sample.proc "/work" = "/home/u/.gradle"
  ∧ determineGradleUserHome
      (mkProcess "/work" "/home/u" {[ "GRADLE_USER_HOME" := "/opt/gradle" ]}) "/work"
    = "/opt/gradle"
  ∧ determineGradleUserHome
      (mkProcess "/work" "/home/u" {[ "GRADLE_USER_HOME" := "build/gradle" ]}) "/work"
    = "/work/build/gradle".
Proof.
  split_and!.
  - refine (proj1 (gradle_user_home_location Sample.proc "/work") ["home"; "u"] _ _ _).
    + by left.
    + repeat constructor; discriminate.
    + reflexivity.
  - refine (proj1 (proj2 (gradle_user_home_location _ "/work")) ["opt"; "gradle"] _ _).
    + repeat constructor; discriminate.
    + reflexivity.
  - refine (proj2 (proj2 (gradle_user_home_location _ "/work"))
              ["work"] ["build"; "gradle"] _ _ _ _ _).
    + repeat constructor; discriminate.
    + repeat constructor; discriminate.
    + discriminate.
    + reflexivity.
    + reflexivity.
Defined.

Lemma metafiles_lie_in_cached_path_witness :
  getCachePath Sample.proc Sample.cache
  = ["/home/u/.gradle/caches"; "/home/u/.gradle/notifications"].
Proof.
  refine (proj1 (metafiles_lie_in_cached_path Sample.proc Sample.cache
                   ["home"; "u"; ".gradle"] "jars" _ _ _)).
  - reflexivity.
  - repeat constructor; discriminate.
  - reflexivity.
Defined.

Lemma bundle_names_unique_last_wins_witness :
  ∃ bundles,
    (getArtifactBundles Sample.cache Sample.firstRun).1 = Eff.Returned bundles
    ∧ NoDup bundles.*1
    ∧ ∀ name,
        (list_to_map bundles : gmap string string) !! name
        = (λ value, Path.resolve "/work" ["/home/u/.gradle"; value])
            <$> last (filter (λ kv, kv.1 = name)
                        [("wrapper-dists", "wrapper/dists"); ("jars", "caches/jars")]).*2.
Proof.
  refine (bundle_names_unique_last_wins Sample.parseBundles Sample.cache Sample.firstRun
            [("wrapper-dists", "wrapper/dists"); ("jars", "caches/jars")] _).
  reflexivity.
Defined.

Lemma bundle_pattern_location_witness :
  ∃ value,
    ("jars", value) ∈ [("wrapper-dists", "wrapper/dists"); ("jars", "caches/jars")]
    ∧ (∀ segs, Forall Path.plainSegment segs → segs ≠ [] →
         value = Js.join "/" segs →
         Sample.jarsPattern = Path.ofSegments (["home"; "u"; ".gradle"] ++ segs))
    ∧ (∀ segs, Forall Path.plainSegment segs →
         value = Path.ofSegments segs → Sample.jarsPattern = Path.ofSegments segs).
Proof.
  refine (bundle_pattern_location Sample.parseBundles Sample.cache Sample.firstRun
            [("wrapper-dists", "wrapper/dists"); ("jars", "caches/jars")]
            ["home"; "u"; ".gradle"] "jars" Sample.jarsPattern
            [("wrapper-dists", Sample.wrapperPattern); ("jars", Sample.jarsPattern)]
            _ _ _ _ _).
  - reflexivity.
  - reflexivity.
  - repeat constructor; discriminate.
  - vm_compute. reflexivity.
  - apply elem_of_cons. right. apply elem_of_cons. by left.
Defined.

Lemma save_batch_leaves_no_matched_file_witness :
  files (saveArtifactBundles Sample.cache [1; 0; 1] Sample.firstRun).2
    !! "/home/u/.gradle/wrapper/dists/gradle-8.1-bin.zip" = None.
Proof.
  refine (save_batch_leaves_no_matched_file Sample.globMatch
            Sample.getCacheKeyPrefix Sample.hashFileNames Sample.parseBundles
            Sample.directoryExists Sample.cache [1; 0; 1] Sample.firstRun
            [("wrapper-dists", Sample.wrapperPattern); ("jars", Sample.jarsPattern)]
            "wrapper-dists" Sample.wrapperPattern
            "/home/u/.gradle/wrapper/dists/gradle-8.1-bin.zip" _ _ _ _ _).
  - vm_compute. reflexivity.
  - apply elem_of_cons. by left.
  - vm_compute. reflexivity.
  - vm_compute. intros H. repeat (apply elem_of_cons in H as [H|H]; [discriminate H|]).
    by apply elem_of_nil in H.
  - vm_compute. reflexivity.
Defined.

Lemma save_batch_spares_unmatched_files_witness :
  files (saveArtifactBundles Sample.cache [1; 0; 1] Sample.emptyBundle).2
    !! "/home/u/.gradle/gradle.properties"
  = files Sample.emptyBundle !! "/home/u/.gradle/gradle.properties".
Proof.
  assert ((getArtifactBundles Sample.cache Sample.emptyBundle).1
          = Eff.Returned [("wrapper-dists", Sample.wrapperPattern);
                          ("jars", Sample.jarsPattern)]) as Hbundles
    by (vm_compute; reflexivity).
  assert ("/home/u/.gradle/gradle.properties"
          ∉ metaFilesOf (process Sample.emptyBundle) Sample.cache
              [("wrapper-dists", Sample.wrapperPattern); ("jars", Sample.jarsPattern)])
    as Hnot.
  { vm_compute. intros H. repeat (apply elem_of_cons in H as [H|H]; [discriminate H|]).
    by apply elem_of_nil in H. }
  refine (proj1 (proj2 (proj2 (save_batch_spares_unmatched_files Sample.globMatch
                                 Sample.getCacheKeyPrefix Sample.hashFileNames
                                 Sample.parseBundles Sample.directoryExists
                                 Sample.cache [1; 0; 1]
                                 Sample.emptyBundle _
                                 "/home/u/.gradle/gradle.properties" Hbundles Hnot))) _).
  intros name pattern Hin.
  apply elem_of_cons in Hin as [Hin|Hin]; [by injection Hin as -> ->|].
  apply elem_of_cons in Hin as [Hin|Hin]; [by injection Hin as -> ->|].
  by apply elem_of_nil in Hin.
Defined.

Lemma save_settles_after_two_runs_witness :
  files (saveArtifactBundle Sample.cache "wrapper-dists" Sample.wrapperPattern
           (saveArtifactBundle Sample.cache "wrapper-dists" Sample.wrapperPattern
              Sample.firstRun).2).2
    !! Sample.wrapperMetaFile = None.
Proof.
  refine (proj1 (proj2 (proj2 (save_settles_after_two_runs Sample.globMatch
                                 Sample.getCacheKeyPrefix Sample.hashFileNames
                                 Sample.directoryExists Sample.cache "wrapper-dists"
                                 Sample.wrapperPattern Sample.firstRun _ _)))).
  - vm_compute. reflexivity.
  - vm_compute. reflexivity.
Defined.

Lemma save_without_caches_directory_uploads_again_witness :
  uploads (performed
             (GradleUserHome.saveArtifactBundle Sample.globMatch
                Sample.getCacheKeyPrefix Sample.hashFileNames Sample.withoutCaches
                Sample.cache "wrapper-dists" Sample.wrapperPattern)
             (GradleUserHome.saveArtifactBundle Sample.globMatch
                Sample.getCacheKeyPrefix Sample.hashFileNames Sample.withoutCaches
                Sample.cache "wrapper-dists" Sample.wrapperPattern Sample.firstRun).2)
  = [SaveCacheCall [Sample.wrapperPattern] Sample.wrapperKey].
Proof.
  refine (proj2 (proj2 (proj2 (proj2 (proj2 (proj2
            (save_without_caches_directory_uploads_again Sample.globMatch
               Sample.getCacheKeyPrefix Sample.hashFileNames Sample.withoutCaches
               Sample.cache "wrapper-dists" Sample.wrapperPattern Sample.firstRun
               ["home"; "u"; ".gradle"] _ _ _ _ _ _))))))).
  - reflexivity.
  - repeat constructor; discriminate.
  - reflexivity.
  - intros w'. reflexivity.
  - vm_compute. discriminate.
  - vm_compute. discriminate.
Defined.

Lemma saved_bundle_restores_witness :
  files (restoreArtifactBundle Sample.cache "wrapper-dists" Sample.wrapperPattern
           (saveArtifactBundle Sample.cache "wrapper-dists" Sample.wrapperPattern
              Sample.firstRun).2).2
    !! "/home/u/.gradle/wrapper/dists/gradle-8.1-bin.zip" = Some "PK".
Proof.
  refine (proj2 (saved_bundle_restores Sample.globMatch Sample.getCacheKeyPrefix
                   Sample.hashFileNames Sample.directoryExists Sample.cache
                   "wrapper-dists"
                   Sample.wrapperPattern Sample.firstRun
                   (saveArtifactBundle Sample.cache "wrapper-dists" Sample.wrapperPattern
                      Sample.firstRun).2
                   "/home/u/.gradle/wrapper/dists/gradle-8.1-bin.zip"
                   _ _ _ _ _ _ _ _)).
  - vm_compute. discriminate.
  - vm_compute. discriminate.
  - vm_compute. reflexivity.
  - vm_compute. reflexivity.
  - vm_compute. reflexivity.
  - reflexivity.
  - vm_compute. reflexivity.
  - vm_compute. apply elem_of_cons. right. apply elem_of_cons. by left.
Defined.

Lemma restore_batch_only_unpacks_witness :
  is_Some (files (restoreArtifactBundles Sample.debugCache [] Sample.brokenFirst).2
             !! Sample.jarsMetaFile).
Proof.
  refine (proj1 (proj2 (proj2 (restore_batch_only_unpacks Sample.parseBundles
                                 Sample.debugCache [] Sample.brokenFirst
                                 Sample.jarsMetaFile))) _).
  vm_compute. by eexists.
Defined.

Lemma size_report_failure_aborts_hooks_witness :
  GradleUserHome.beforeSave Sample.globMatch Sample.getCacheKeyPrefix
    Sample.hashFileNames Sample.parseBundles (λ _ _, true)
    (λ _ _, Eff.Thrown "Unable to locate executable file: du")
    Sample.debugCache [] Sample.firstRun
  = (Eff.Thrown "Unable to locate executable file: du", Sample.firstRun).
Proof.
  refine (proj2 (size_report_failure_aborts_hooks Sample.globMatch
                   Sample.getCacheKeyPrefix Sample.hashFileNames Sample.parseBundles
                   (λ _ _, true)
                   (λ _ _, Eff.Thrown "Unable to locate executable file: du")
                   Sample.debugCache [] Sample.firstRun
                   "Unable to locate executable file: du" _ _ _)); reflexivity.
Defined.

Lemma hooks_keep_what_batches_ensure_witness :
  files (GradleUserHome.beforeSave Sample.globMatch Sample.getCacheKeyPrefix
           Sample.hashFileNames Sample.parseBundles (λ _ _, true)
           (λ _ _, Eff.Returned "12M     ./caches")
           Sample.debugCache [] Sample.firstRun).2
    !! "/home/u/.gradle/wrapper/dists/gradle-8.1-bin.zip" = None.
Proof.
  refine (proj2 (hooks_keep_what_batches_ensure Sample.globMatch
                   Sample.getCacheKeyPrefix Sample.hashFileNames Sample.parseBundles
                   (λ _ _, true) (λ _ _, Eff.Returned "12M     ./caches")
                   Sample.debugCache [] Sample.firstRun)
            [("wrapper-dists", Sample.wrapperPattern); ("jars", Sample.jarsPattern)]
            "wrapper-dists" Sample.wrapperPattern
            "/home/u/.gradle/wrapper/dists/gradle-8.1-bin.zip" _ _ _ _ _).
  - vm_compute. reflexivity.
  - vm_compute. reflexivity.
  - apply elem_of_cons. by left.
  - vm_compute. reflexivity.
  - vm_compute. intros H. repeat (apply elem_of_cons in H as [H|H]; [discriminate H|]).
    by apply elem_of_nil in H.
Defined.

End FurtherInstances.

(** ** The cache object that the constructor builds *)

Section ConstructorFacts.

Import GradleUserHome.

Variable isCacheDebuggingEnabled : gmap string string → bool.

Local Abbreviation constructor := (GradleUserHome.constructor isCacheDebuggingEnabled).

(** X18.  In a process with an absolute working directory, whatever
    [rootDir] and [GRADLE_USER_HOME] are, the cache object that the
    constructor builds keeps the meta-file of every bundle whose name
    has no slash directly in its first cached path, and its two cached
    paths are the directories [caches] and [notifications] of one
    resolved directory. *)
Theorem constructed_cache_keeps_metafiles_cached proc rootDir name :
  Path.isAbsolute (cwd proc) = true → Path.split name = [name] →
  let this := constructor proc rootDir in
  ∃ root,
    Forall Path.plainSegment root
    ∧ getCachePath proc this
      = [Path.ofSegments (root ++ ["caches"]);
         Path.ofSegments (root ++ ["notifications"])]
    ∧ getBundleMetaFile proc this name
      = Path.ofSegments (root ++ ["caches"])
        +:+ "/.gradle-build-action." +:+ name +:+ ".cache".
Proof.
  intros Hcwd Hname this.
  destruct (constructor_resolved isCacheDebuggingEnabled proc rootDir Hcwd)
    as (root & Hroot & Hhome).
  fold this in Hhome. exists root. split_and!; [done|..].
  - unfold getCachePath, CACHE_PATH. cbn [fmap list_fmap]. rewrite Hhome.
    by rewrite !resolve_child by (done || by split_and!).
  - unfold getBundleMetaFile. rewrite Hhome.
    rewrite resolve_ofSegments by (done || by apply metafile_name_plain).
    change (root ++ ["caches"; ".gradle-build-action." +:+ name +:+ ".cache"])
      with (root ++ ["caches"] ++ [".gradle-build-action." +:+ name +:+ ".cache"]).
    rewrite (assoc_L (++)). unfold Path.ofSegments.
    rewrite (join_app (root ++ ["caches"])) by (done || by destruct root).
    by rewrite !app_assoc_string.
Qed.

End ConstructorFacts.

Section ConstructorInstances.

Import GradleUserHome.

Lemma constructed_cache_keeps_metafiles_cached_witness :
  ∃ root,
    Forall Path.plainSegment root
    ∧ getCachePath Sample.proc
        (GradleUserHome.constructor (λ _, false) Sample.proc "../ci/./work")
      = [Path.ofSegments (root ++ ["caches"]);
         Path.ofSegments (root ++ ["notifications"])]
    ∧ getBundleMetaFile Sample.proc
        (GradleUserHome.constructor (λ _, false) Sample.proc "../ci/./work") "jars"
      = Path.ofSegments (root ++ ["caches"])
        +:+ "/.gradle-build-action." +:+ "jars" +:+ ".cache".
Proof.
  refine (constructed_cache_keeps_metafiles_cached (λ _, false) Sample.proc
            "../ci/./work" "jars" _ _); reflexivity.
Defined.

End ConstructorInstances.
